(** * 13F dashboard pipeline: a shallow embedding of the checked operations

    The Python sources are embedded function by function.  Dictionaries
    whose iteration order is irrelevant are finite maps, Python sets are
    finite sets, exceptions are an explicit [result] type, and everything
    the code reads from the outside world (environment, HTTP answers, the
    file system, the clock) is an explicit argument. *)

From Stdlib Require Import ZArith String Ascii List Lia Bool.
From Stdlib Require Import Floats.SpecFloat.
From stdpp Require Import gmap strings list fin_maps sorting pretty.

Set Warnings "-register-all,-clear-no-such-hyp".

Open Scope string_scope.
Open Scope list_scope.
Open Scope Z_scope.

(** ** Exceptions and results *)

Inductive exn : Type :=
| ValueError (msg : string)
| TypeError
| AttributeError (attr : string)
| KeyError (key : string)
| OverflowError
| IOError.

Inductive result (A : Type) : Type :=
| Ok (a : A)
| Raise (e : exn).
Arguments Ok {A} a.
Arguments Raise {A} e.

#[global] Instance result_ret : MRet result := fun _ a => Ok a.

#[global] Instance result_bind : MBind result := fun _ _ k r =>
  match r with
  | Ok a => k a
  | Raise e => Raise e
  end.

Definition is_ok {A} (r : result A) : bool :=
  match r with Ok _ => true | Raise _ => false end.

(** ** JSON values as [json.load] returns them

    Objects keep their keys in file order, as Python dictionaries do.
    Numbers are integers; the configuration holds no fractional value
    that the loader inspects. *)

Inductive json : Type :=
| JNull
| JBool (b : bool)
| JNum (z : Z)
| JStr (s : string)
| JArr (items : list json)
| JObj (fields : list (string * json)).

(** Python truthiness of a JSON value ([not v] is its negation). *)
Definition truthy (v : json) : bool :=
  match v with
  | JNull => false
  | JBool b => b
  | JNum z => negb (Z.eqb z 0)
  | JStr s => negb (String.eqb s "")
  | JArr l => match l with [] => false | _ => true end
  | JObj l => match l with [] => false | _ => true end
  end.

(** [d.get(k)] on a dictionary given as its item list. *)
Fixpoint dict_get (k : string) (d : list (string * json)) : option json :=
  match d with
  | [] => None
  | (k', v) :: rest => if String.eqb k k' then Some v else dict_get k rest
  end.

(** [d[k] = v]: replaces the value in place, or appends a new key. *)
Fixpoint dict_set (k : string) (v : json) (d : list (string * json))
  : list (string * json) :=
  match d with
  | [] => [(k, v)]
  | (k', v') :: rest =>
      if String.eqb k k' then (k', v) :: rest else (k', v') :: dict_set k v rest
  end.

Definition dict_has (k : string) (d : list (string * json)) : bool :=
  match dict_get k d with Some _ => true | None => false end.

(** ** pipeline/config_loader.py *)

Module ConfigLoader.

(** [config[outer][inner] = v]; item assignment on anything but a
    dictionary is a [TypeError]. *)
Definition set_nested (outer inner : string) (v : json)
    (config : list (string * json)) : result (list (string * json)) :=
  match dict_get outer config with
  | Some (JObj ua) => Ok (dict_set outer (JObj (dict_set inner v ua)) config)
  | Some _ => Raise TypeError
  | None => Raise (KeyError outer)
  end.

(** One [if VAR in os.environ:] block of the loader. *)
Definition overlay (environ : gmap string string) (var field : string)
    (config : list (string * json)) : result (list (string * json)) :=
  match environ !! var with
  | Some value =>
      let config1 :=
        if negb (dict_has "user_agent" config)
        then dict_set "user_agent" (JObj []) config
        else config in
      set_nested "user_agent" field (JStr value) config1
  | None => Ok config
  end.

Definition missing_email_message : string :=
  "SEC_USER_EMAIL environment variable must be set or user_agent.email must be configured in analysis_config.json".

(** The final validation: [.get] on a non-dictionary has no such
    attribute. *)
Definition validate (config : list (string * json))
  : result (list (string * json)) :=
  match dict_get "user_agent" config with
  | None => Raise (ValueError missing_email_message)
  | Some (JObj ua) =>
      match dict_get "email" ua with
      | Some e =>
          if negb (truthy e) then Raise (ValueError missing_email_message)
          else Ok config
      | None => Raise (ValueError missing_email_message)
      end
  | Some _ => Raise (AttributeError "get")
  end.

(** [load_config_with_env], from the parsed configuration onwards. *)
Definition load_config_with_env (environ : gmap string string)
    (config : list (string * json)) : result (list (string * json)) :=
  c1 ← overlay environ "SEC_USER_NAME" "name" config;
  c2 ← overlay environ "SEC_USER_EMAIL" "email" c1;
  validate c2.

(** The [user_agent] entry of a configuration is absent or an object. *)
Definition well_formed (config : list (string * json)) : Prop :=
  match dict_get "user_agent" config with
  | None | Some (JObj _) => True
  | Some _ => False
  end.

(** [config.user_agent.<field>] when it is there. *)
Definition user_agent_field (field : string) (config : list (string * json))
  : option json :=
  match dict_get "user_agent" config with
  | Some (JObj ua) => dict_get field ua
  | _ => None
  end.

(** The value of a field once the environment is laid over the file. *)
Definition resolved (environ : gmap string string) (var field : string)
    (config : list (string * json)) : option json :=
  match environ !! var with
  | Some value => Some (JStr value)
  | None => user_agent_field field config
  end.

Definition non_empty (o : option json) : bool :=
  match o with Some v => truthy v | None => false end.

End ConfigLoader.

(** ** pipeline/04_complete_cusip_mapping.py *)

Module ChainMapper.

(** *** Calendar dates as [datetime] computes with them *)

Record date : Type := mkDate { year : Z; month : Z; day : Z }.

(** A naive [datetime]: a calendar date and the microseconds elapsed
    since its midnight. *)
Record datetime : Type := mkDatetime { dt_date : date; dt_micro : Z }.

Definition microseconds_per_day : Z := 86400000000.


Definition is_leap (y : Z) : bool :=
  (y mod 4 =? 0)%Z && (negb (y mod 100 =? 0)%Z || (y mod 400 =? 0)%Z).

Definition days_in_month (y m : Z) : Z :=
  if (m =? 2)%Z then (if is_leap y then 29 else 28)
  else if bool_decide (m ∈ [4; 6; 9; 11]) then 30
  else 31.

Definition days_before_year (y : Z) : Z :=
  let p := y - 1 in p * 365 + p / 4 - p / 100 + p / 400.

(** Days of the year that precede the first of month [m]. *)
Definition days_before_month (y m : Z) : Z :=
  foldr (fun k acc => days_in_month y k + acc) 0
        (map Z.of_nat (seq 1 (Z.to_nat (m - 1)))).

(** [date.toordinal()]: 0001-01-01 is day 1. *)
Definition toordinal (d : date) : Z :=
  days_before_year (year d) + days_before_month (year d) (month d) + day d.

(** [(a - b).days] for a datetime [a] and a midnight [b]: the difference
    is normalised so that the remaining seconds are non-negative, hence
    the floor. *)
Definition timedelta_days (a : datetime) (b : date) : Z :=
  ((toordinal (dt_date a) * microseconds_per_day + dt_micro a)
   - toordinal b * microseconds_per_day) / microseconds_per_day.

(** Dates compare as (year, month, day) triples. *)
Definition date_ltb (a b : date) : bool :=
  (year a <? year b)%Z
  || ((year a =? year b)%Z
      && ((month a <? month b)%Z
          || ((month a =? month b)%Z && (day a <? day b)%Z))).

(** *** ISO date strings *)

(** The value of a decimal digit character. *)
Definition digit (c : ascii) : option Z :=
  let n := N_of_ascii c in
  if (48 <=? n)%N && (n <=? 57)%N then Some (Z.of_N n - 48) else None.

(** The number written by a run of digit characters. *)
Definition digits_value (cs : list ascii) : option Z :=
  foldl (fun acc c => n ← acc; v ← digit c; Some (n * 10 + v)) (Some 0) cs.

Definition make_date (y m d : Z) : option date :=
  if (1 <=? y)%Z && (1 <=? m)%Z && (m <=? 12)%Z
     && (1 <=? d)%Z && (d <=? days_in_month y m)%Z
  then Some (mkDate y m d) else None.

(** [datetime.fromisoformat] on a date-only string: exactly
    [YYYY-MM-DD] with a real calendar date, the form the
    shares-outstanding extractor stores.  [None] stands for the
    [ValueError] the library raises. *)
Definition fromisoformat (s : string) : option date :=
  match list_ascii_of_string s with
  | [y1; y2; y3; y4; s1; m1; m2; s2; d1; d2] =>
      if Ascii.eqb s1 "-" && Ascii.eqb s2 "-" then
        y ← digits_value [y1; y2; y3; y4];
        m ← digits_value [m1; m2];
        d ← digits_value [d1; d2];
        make_date y m d
      else None
  | _ => None
  end.

(** [s.split('T')[0]]: everything before the first capital T. *)
Fixpoint date_part (s : string) : string :=
  match s with
  | EmptyString => EmptyString
  | String c rest => if Ascii.eqb c "T" then EmptyString else String c (date_part rest)
  end.

(** *** The validity gate *)

Inductive reason : Type :=
| Placeholder_value
| Too_few_shares
| Stale_data (days_old : Z)
| Data_too_old (shares_date : string)
| No_date_information
| Valid.

Definition placeholder_values : list Z := [1; 10; 12; 100; 1000; 10000].

Definition q3_2024_cutoff : string := "2024-07-01".

Section Gate.

(** The date parser of the runtime's [datetime] module; [None] is any
    exception raised inside the [try] block. *)
Variable parse_date : string -> option date.

(** [is_valid_shares_data(shares_outstanding, shares_date)] at clock
    reading [now].  A missing or empty date is falsy; a bare [except]
    swallows a failed parse and falls through to the final return. *)
Definition is_valid_shares_data (now : datetime) (shares_outstanding : Z)
    (shares_date : option string) : bool * reason :=
  if bool_decide (shares_outstanding ∈ placeholder_values) then
    (false, Placeholder_value)
  else if (shares_outstanding <? 100000)%Z then
    (false, Too_few_shares)
  else
    match shares_date with
    | Some (String c rest as s) =>
        match parse_date (date_part s) with
        | Some date_obj =>
            let days_old := timedelta_days now date_obj in
            if (days_old >? 365)%Z then (false, Stale_data days_old)
            else if String.ltb s q3_2024_cutoff then (false, Data_too_old s)
            else (true, Valid)
        | None => (true, Valid)
        end
    | Some EmptyString | None => (false, No_date_information)
    end.

End Gate.


End ChainMapper.

(** ** pipeline/02_build_cusip_mappings.py *)

Module CusipMapper.

Record statistics : Type := mkStats {
  total_cusips : Z;
  already_mapped : Z;
  newly_mapped : Z;
  failed_mappings : Z;
  api_calls : Z;
  api_errors : Z
}.

Definition no_statistics : statistics := mkStats 0 0 0 0 0 0.

(** What the mapper does to the outside world, oldest first. *)
Inductive event : Type :=
| Post (ids : list string)
| Sleep (seconds : Z).

(** One entry of a 200 answer: the [data] list of candidate
    identifiers, each with or without a [ticker]. *)
Definition item : Type := list (option string).

(** What [requests.post] comes back with. *)
Inductive response : Type :=
| Status200 (data : list item)
| Status429
| Status413
| StatusOther (code : Z)
| RequestException.

Record mapper : Type := mkMapper {
  cusip_ticker_cache : gmap string string;
  manual_mappings : gmap string string;
  all_cusips : list (string * string);
  stats : statistics;
  cache_file : gmap string string;
  trace : list event
}.

Definition set_cache (c : gmap string string) (m : mapper) : mapper :=
  mkMapper c (manual_mappings m) (all_cusips m) (stats m) (cache_file m) (trace m).

Definition set_stats (s : statistics) (m : mapper) : mapper :=
  mkMapper (cusip_ticker_cache m) (manual_mappings m) (all_cusips m) s
           (cache_file m) (trace m).

Definition emit (e : event) (m : mapper) : mapper :=
  mkMapper (cusip_ticker_cache m) (manual_mappings m) (all_cusips m) (stats m)
           (cache_file m) (trace m ++ [e]).

(** [save_json_cache(self.cusip_ticker_cache, self.cusip_ticker_cache_file)] *)
Definition save_cache (m : mapper) : mapper :=
  mkMapper (cusip_ticker_cache m) (manual_mappings m) (all_cusips m) (stats m)
           (cusip_ticker_cache m) (trace m).

Definition count_already_mapped (s : statistics) : statistics :=
  mkStats (total_cusips s) (already_mapped s + 1) (newly_mapped s)
          (failed_mappings s) (api_calls s) (api_errors s).

Definition count_newly_mapped (s : statistics) : statistics :=
  mkStats (total_cusips s) (already_mapped s) (newly_mapped s + 1)
          (failed_mappings s) (api_calls s) (api_errors s).

Definition count_failed_mapping (s : statistics) : statistics :=
  mkStats (total_cusips s) (already_mapped s) (newly_mapped s)
          (failed_mappings s + 1) (api_calls s) (api_errors s).

Definition count_api_call (s : statistics) : statistics :=
  mkStats (total_cusips s) (already_mapped s) (newly_mapped s)
          (failed_mappings s) (api_calls s + 1) (api_errors s).

Definition count_api_error (s : statistics) : statistics :=
  mkStats (total_cusips s) (already_mapped s) (newly_mapped s)
          (failed_mappings s) (api_calls s) (api_errors s + 1).

(** The merge loop of [__init__]:
    [if cusip not in self.cusip_ticker_cache: self.cusip_ticker_cache[cusip] = ticker] *)
Definition merge_manual (cusip ticker : string) (cache : gmap string string)
  : gmap string string :=
  match cache !! cusip with
  | None => <[cusip := ticker]> cache
  | Some _ => cache
  end.

(** [CUSIPMapper.__init__] from the two loaded JSON caches. *)
Definition init (cached manual : gmap string string) : mapper :=
  mkMapper (map_fold merge_manual cached manual) manual [] no_statistics
           cached [].

(** [collect_all_cusips], given the (cusip, name) dictionary it ends
    with in insertion order. *)
Definition collect_all_cusips (found : list (string * string)) (m : mapper)
  : mapper :=
  mkMapper (cusip_ticker_cache m) (manual_mappings m) found
           (mkStats (Z.of_nat (length found)) (already_mapped (stats m))
                    (newly_mapped (stats m)) (failed_mappings (stats m))
                    (api_calls (stats m)) (api_errors (stats m)))
           (cache_file m) (trace m).

(** The first loop of [map_cusips_via_api]. *)
Definition identify_unmapped (m : mapper) : list (string * string) * mapper :=
  foldl (fun '((unmapped, m) : list (string * string) * mapper)
              '((cusip, name) : string * string) =>
           match cusip_ticker_cache m !! cusip with
           | None => (unmapped ++ [(cusip, name)], m)
           | Some _ => (unmapped, set_stats (count_already_mapped (stats m)) m)
           end)
        ([], m) (all_cusips m).

(** The ticker of the first result that has one. *)
Fixpoint first_ticker (results : item) : option string :=
  match results with
  | [] => None
  | Some ticker :: _ => Some ticker
  | None :: rest => first_ticker rest
  end.

(** [for i, item in enumerate(data): cusip, name = batch[i] ...]; the
    flag is false when [batch[i]] runs past the batch (an [IndexError]
    that the enclosing handler catches). *)
Fixpoint record_answers (batch : list (string * string)) (data : list item)
    (m : mapper) {struct data} : mapper * bool :=
  match data with
  | [] => (m, true)
  | results :: data' =>
      match batch with
      | [] => (m, false)
      | (cusip, name) :: batch' =>
          let m' :=
            match first_ticker results with
            | Some ticker =>
                set_stats (count_newly_mapped (stats m))
                          (set_cache (<[cusip := ticker]> (cusip_ticker_cache m)) m)
            | None => set_stats (count_failed_mapping (stats m)) m
            end in
          record_answers batch' data' m'
      end
  end.

Definition batch_size : nat := 10.

Definition posts (t : list event) : list (list string) :=
  omap (fun e => match e with Post ids => Some ids | Sleep _ => None end) t.

(** One iteration of the batch loop.  [answers k] is what the service
    returns to the [k]-th request of the run.  The second component is
    the value the local variable [batch_num] has when the body ends.
    The 2.5-second pacing sleep depends on the wall clock alone and is
    left out of the trace. *)
Definition process_batch (answers : nat -> response)
    (unmapped : list (string * string)) (m : mapper) (batch_num : Z)
  : mapper * Z :=
  let batch := take batch_size (drop (Z.to_nat batch_num) unmapped) in
  let request := length (posts (trace m)) in
  let m := emit (Post (batch.*1)) m in
  match answers request with
  | RequestException => (set_stats (count_api_error (stats m)) m, batch_num)
  | Status200 data =>
      let m := set_stats (count_api_call (stats m)) m in
      let '(m, complete) := record_answers batch data m in
      if complete then (save_cache m, batch_num)
      else (set_stats (count_api_error (stats m)) m, batch_num)
  | Status429 =>
      let m := set_stats (count_api_call (stats m)) m in
      let m := emit (Sleep 60) m in
      (m, batch_num - Z.of_nat batch_size)
  | Status413 =>
      let m := set_stats (count_api_call (stats m)) m in
      (set_stats (count_api_error (stats m)) m, batch_num)
  | StatusOther _ =>
      let m := set_stats (count_api_call (stats m)) m in
      (set_stats (count_api_error (stats m)) m, batch_num)
  end.

(** [range(0, n, batch_size)] *)
Definition batch_starts (n : nat) : list Z :=
  (fun k => Z.of_nat (k * batch_size))
    <$> seq 0 ((n + (batch_size - 1)) / batch_size).

(** [for batch_num in range(0, len(unmapped_cusips), batch_size):] the
    iterator hands out the next start whatever the body left in
    [batch_num]. *)
Definition batch_loop (answers : nat -> response)
    (unmapped : list (string * string)) (m : mapper) : mapper :=
  foldl (fun m batch_num => (process_batch answers unmapped m batch_num).1)
        m (batch_starts (length unmapped)).

Definition map_cusips_via_api (answers : nat -> response) (m : mapper)
  : mapper :=
  let '(unmapped, m) := identify_unmapped m in
  match unmapped with
  | [] => m
  | _ => batch_loop answers unmapped m
  end.

(** [run], up to the summary report. *)
Definition run (cached manual : gmap string string)
    (found : list (string * string)) (answers : nat -> response) : mapper :=
  map_cusips_via_api answers (collect_all_cusips found (init cached manual)).

(** The batches the unmapped list splits into. *)
Definition batches (unmapped : list (string * string)) : list (list string) :=
  (fun start => (take batch_size (drop (Z.to_nat start) unmapped)).*1)
    <$> batch_starts (length unmapped).

End CusipMapper.

(** ** pipeline/00_download_13f_filings.py *)

Module Downloader.

Record filing_period : Type := mkPeriod {
  period_year : Z;
  period_quarter : Z;
  period_month : Z
}.

(** One entry of [cik_metadata]. *)
Record company_info : Type := mkInfo {
  info_name : option string;
  info_investor : option string;
  info_type : option string
}.

Definition no_info : company_info := mkInfo None None None.

(** The rows of the three result lists. *)
Record download_row : Type := mkRow {
  row_cik : string;
  row_name : string;
  row_investor : string;
  row_type : string;
  row_filing_period : option filing_period;
  row_error : option string
}.

(** What the file system and the SEC client do for one CIK:
    whether [self.downloader.get] raises (and with which message),
    whether the CIK's [13F-HR] directory exists and is non-empty once
    the call has returned, what [extract_filing_period] finds in the
    latest filing, and whether writing the progress file raises. *)
Record environment : Type := mkEnv {
  get_raises : string -> option string;
  has_filing_directory : string -> bool;
  latest_filing_period : string -> option filing_period;
  save_progress_raises : string -> option string
}.

Record downloader : Type := mkDownloader {
  cik_metadata : gmap string company_info;
  downloaded_ciks : gset string;
  progress_file : gset string;
  successful_downloads : list download_row;
  failed_downloads : list download_row;
  skipped_downloads : list download_row;
  success_count : Z;
  failed_count : Z;
  skipped_count : Z;
  filing_metadata : gmap string (option filing_period)
}.

Definition company_name (info : company_info) (cik : string) : string :=
  default (String.append "CIK " cik) (info_name info).

Definition row (info : company_info) (cik : string)
    (period : option filing_period) (error : option string) : download_row :=
  mkRow cik (company_name info cik) (default "" (info_investor info))
        (default "" (info_type info)) period error.

Definition record_skip (cik : string) (d : downloader) : downloader :=
  let info := default no_info (cik_metadata d !! cik) in
  mkDownloader (cik_metadata d) (downloaded_ciks d) (progress_file d)
    (successful_downloads d) (failed_downloads d)
    (skipped_downloads d ++ [row info cik None None])
    (success_count d) (failed_count d) (skipped_count d + 1)
    (filing_metadata d).

(** The [except Exception as e:] handler. *)
Definition record_failure (cik error : string) (d : downloader) : downloader :=
  let info := default no_info (cik_metadata d !! cik) in
  mkDownloader (cik_metadata d) (downloaded_ciks d) (progress_file d)
    (successful_downloads d)
    (failed_downloads d ++ [row info cik None (Some error)])
    (skipped_downloads d)
    (success_count d) (failed_count d + 1) (skipped_count d)
    (filing_metadata d).

(** [success_count += 1] up to [self.downloaded_ciks.add(cik)]. *)
Definition record_success (cik : string) (period : option filing_period)
    (d : downloader) : downloader :=
  let info := default no_info (cik_metadata d !! cik) in
  mkDownloader (cik_metadata d) ({[cik]} ∪ downloaded_ciks d) (progress_file d)
    (successful_downloads d ++ [row info cik period None])
    (failed_downloads d) (skipped_downloads d)
    (success_count d + 1) (failed_count d) (skipped_count d)
    (filing_metadata d).

Definition save_progress (d : downloader) : downloader :=
  mkDownloader (cik_metadata d) (downloaded_ciks d) (downloaded_ciks d)
    (successful_downloads d) (failed_downloads d) (skipped_downloads d)
    (success_count d) (failed_count d) (skipped_count d) (filing_metadata d).

Definition record_filing_metadata (cik : string)
    (period : option filing_period) (d : downloader) : downloader :=
  mkDownloader (cik_metadata d) (downloaded_ciks d) (progress_file d)
    (successful_downloads d) (failed_downloads d) (skipped_downloads d)
    (success_count d) (failed_count d) (skipped_count d)
    (<[cik := period]> (filing_metadata d)).

(** The body of [for cik in cik_list:] in [download_quarter_filings]. *)
Definition download_cik (env : environment) (d : downloader) (cik : string)
  : downloader :=
  if bool_decide (cik ∈ downloaded_ciks d) then record_skip cik d
  else
    match get_raises env cik with
    | Some error => record_failure cik error d
    | None =>
        let filing_period :=
          if has_filing_directory env cik then latest_filing_period env cik
          else None in
        let d := record_success cik filing_period d in
        match save_progress_raises env cik with
        | Some error => record_failure cik error d
        | None => record_filing_metadata cik filing_period (save_progress d)
        end
    end.

(** The loop, after the three tracking lists have been reset. *)
Definition download_quarter_filings (env : environment) (d : downloader)
    (cik_list : list string) : downloader :=
  let d := mkDownloader (cik_metadata d) (downloaded_ciks d) (progress_file d)
             [] [] [] 0 0 0 (filing_metadata d) in
  foldl (download_cik env) d cik_list.

End Downloader.

(** ** pipeline/05_analyze_net_adds.py *)

Module Analyzer.

(** *** Binary64 arithmetic

    Python floats are IEEE 754 binary64 values, computed here with the
    standard library's executable specification of the format. *)

Definition prec : Z := 53.
Definition emax : Z := 1024.

(** [float(n)] for an integer that a float holds exactly. *)
Definition float_of_int (n : Z) : spec_float := binary_normalize prec emax n 0 false.

(** [a / b] on two integers: the quotient rounded once to the nearest
    float.  (CPython raises [OverflowError] instead of returning an
    infinity, which takes a numerator beyond 10^308.) *)
Definition int_truediv (a b : Z) : spec_float :=
  let raw n :=
    match n with
    | Z0 => S754_zero false
    | Zpos p => S754_finite false p 0
    | Zneg p => S754_finite true p 0
    end in
  SFdiv prec emax (raw a) (raw b).

Definition float_mul (x y : spec_float) : spec_float := SFmul prec emax x y.

(** [x > n] for a float and an integer literal. *)
Definition float_gt_int (x : spec_float) (n : Z) : bool := SFltb (float_of_int n) x.

(** [(shares / shares_outstanding) * 100] *)
Definition percent_of (shares shares_outstanding : Z) : spec_float :=
  float_mul (int_truediv shares shares_outstanding) (float_of_int 100).

(** *** Records *)

(** One institution's position inside an aggregated holding. *)
Record position : Type := mkPosition {
  pos_shares : Z;
  pos_value : Z
}.

(** The same with [pct_of_company_shares] filled in. *)
Record position_pct : Type := mkPositionPct {
  pp_shares : Z;
  pp_value : Z;
  pp_pct_of_company_shares : spec_float
}.

(** A value of [self.current_holdings] after enrichment. *)
Record holding : Type := mkHolding {
  h_name : string;
  h_ticker : option string;
  h_shares : Z;
  h_value : Z;
  h_holders : list string;
  h_positions : gmap string position;
  h_shares_outstanding : option Z;
  h_float_shares : option Z;
  h_held_pct_institutions : option spec_float;
  h_held_pct_insiders : option spec_float
}.

(** An entry of [institution_changes]. *)
Record institution_change : Type := mkChange {
  ic_shares_change : Z;
  ic_prev_shares : Z;
  ic_current_shares : Z
}.

(** The keys [calculate_quarterly_net_adds] adds to a copied security. *)
Record quarterly_changes : Type := mkChanges {
  shares_change : Z;
  value_change : Z;
  net_institutional_change : Z;
  net_adds : Z;
  new_holders : list string;
  dropped_holders : list string;
  institution_changes : gmap string institution_change;
  prev_shares : Z;
  prev_value : Z;
  prev_num_holders : Z
}.

(** An element of [total_holdings_pct]; [changes] is present once the
    quarter-over-quarter keys have been added. *)
Record security : Type := mkSecurity {
  cusip : string;
  ticker : string;
  name : string;
  shares : Z;
  value : Z;
  shares_outstanding : Z;
  float : option Z;
  pct_of_shares : spec_float;
  num_holders : Z;
  holders : list string;
  positions : gmap string position_pct;
  held_pct_institutions : option spec_float;
  held_pct_insiders : option spec_float;
  changes : option quarterly_changes
}.

(** *** Stable descending sort: [list.sort(key=..., reverse=True)] *)

Section Sort.
Context {A : Type} (key_lt : A -> A -> bool).

(** Puts [x] in front of the first element whose key is not greater. *)
Fixpoint insert_desc (x : A) (l : list A) : list A :=
  match l with
  | [] => [x]
  | y :: rest => if key_lt x y then y :: insert_desc x rest else x :: l
  end.

Definition sort_desc (l : list A) : list A := foldr insert_desc [] l.

End Sort.

(** *** calculate_metrics: percent of shares outstanding *)

Definition ownership_cap : Z := 101.

(** The body of [for cusip, data in self.current_holdings.items():].
    [None] is both the [continue] of an over-cap security and the
    unmapped branch. *)
Definition accept_holding (entry : string * holding) : option security :=
  let '(cusip, data) := entry in
  match h_shares_outstanding data with
  | Some shares_outstanding =>
      if negb (shares_outstanding =? 0) && (shares_outstanding >? 0) then
        let pct_of_shares := percent_of (h_shares data) shares_outstanding in
        if float_gt_int pct_of_shares ownership_cap then None
        else
          let positions_with_pct :=
            (fun p => mkPositionPct (pos_shares p) (pos_value p)
                        (percent_of (pos_shares p) shares_outstanding))
              <$> h_positions data in
          Some (mkSecurity cusip (default "N/A" (h_ticker data)) (h_name data)
                  (h_shares data) (h_value data) shares_outstanding
                  (h_float_shares data) pct_of_shares
                  (Z.of_nat (length (h_holders data))) (h_holders data)
                  positions_with_pct
                  (h_held_pct_institutions data) (h_held_pct_insiders data)
                  None)
      else None
  | None => None
  end.

(** The accepted list, sorted by percentage, largest first. *)
Definition total_holdings_pct (current_holdings : list (string * holding))
  : list security :=
  sort_desc (fun x y => SFltb (pct_of_shares x) (pct_of_shares y))
            (omap accept_holding current_holdings).


(** *** calculate_quarterly_net_adds: the comparison with the prior quarter *)

(** A position as read back from a prior quarter's JSON. *)
Record json_position : Type := mkJsonPosition {
  jp_shares : option Z;
  jp_value : option Z
}.

(** A security of a prior quarter's [total_holdings_data.json]; a
    missing key is [None]. *)
Record json_security : Type := mkJsonSecurity {
  js_cusip : option string;
  js_shares_held : option Z;
  js_value_usd : option Z;
  js_holders : option (list string);
  js_positions : option (gmap string json_position)
}.

(** The parsed file: [prev_data.get('securities', [])]. *)
Definition prev_data : Type := list json_security.

(** An entry of [prev_positions_by_cusip]. *)
Record prev_entry : Type := mkPrevEntry {
  pe_shares : Z;
  pe_value : Z;
  pe_holders : gset string;
  pe_positions : gmap string json_position
}.

(** The default of [prev_positions_by_cusip.get(cusip, {...})]. *)
Definition no_prev_entry : prev_entry := mkPrevEntry 0 0 ∅ ∅.

(** The lookup-map loop; an absent or empty CUSIP is skipped and a
    repeated one overwrites. *)
Definition prev_positions_by_cusip (data : prev_data) : gmap string prev_entry :=
  foldl (fun by_cusip security =>
           match js_cusip security with
           | Some (String _ _ as cusip) =>
               <[cusip := mkPrevEntry
                            (default 0 (js_shares_held security))
                            (default 0 (js_value_usd security))
                            (list_to_set (default [] (js_holders security)))
                            (default ∅ (js_positions security))]> by_cusip
           | _ => by_cusip
           end)
        ∅ data.

(** [current_positions.get(inst_name, {'shares': 0}).get('shares', 0)] *)
Definition current_shares_of (current_positions : gmap string position_pct)
    (inst_name : string) : Z :=
  match current_positions !! inst_name with
  | Some p => pp_shares p
  | None => 0
  end.

(** [prev_positions.get(inst_name, {'shares': 0}).get('shares', 0)] *)
Definition prev_shares_of (prev_positions : gmap string json_position)
    (inst_name : string) : Z :=
  match prev_positions !! inst_name with
  | Some p => default 0 (jp_shares p)
  | None => 0
  end.

Section InstitutionChanges.
Variable current_positions : gmap string position_pct.
Variable prev_positions : gmap string json_position.

(** [for inst_name in current_holders & prev_holders:] *)
Definition record_continuing (inst_name : string)
    (acc : gmap string institution_change) : gmap string institution_change :=
  let shares_diff :=
    current_shares_of current_positions inst_name
    - prev_shares_of prev_positions inst_name in
  if negb (shares_diff =? 0) then
    <[inst_name := mkChange shares_diff
                     (prev_shares_of prev_positions inst_name)
                     (current_shares_of current_positions inst_name)]> acc
  else acc.

(** [for inst_name in new_holders:] *)
Definition record_new (inst_name : string)
    (acc : gmap string institution_change) : gmap string institution_change :=
  <[inst_name := mkChange (current_shares_of current_positions inst_name) 0
                   (current_shares_of current_positions inst_name)]> acc.

(** [for inst_name in dropped_holders:] *)
Definition record_dropped (inst_name : string)
    (acc : gmap string institution_change) : gmap string institution_change :=
  <[inst_name := mkChange (- prev_shares_of prev_positions inst_name)
                   (prev_shares_of prev_positions inst_name) 0]> acc.

(** The three loops in the order of the source; a set is walked in the
    order of its elements. *)
Definition institution_changes_of (current_holders prev_holders : gset string)
  : gmap string institution_change :=
  let changes := foldl (flip record_continuing) ∅
                       (elements (current_holders ∩ prev_holders)) in
  let changes := foldl (flip record_new) changes
                       (elements (current_holders ∖ prev_holders)) in
  foldl (flip record_dropped) changes
        (elements (prev_holders ∖ current_holders)).

End InstitutionChanges.

(** The body of [for security in current_holdings_pct:]. *)
Definition quarterly_add (by_cusip : gmap string prev_entry)
    (security : security) : Analyzer.security :=
  let current_holders : gset string := list_to_set (holders security) in
  let current_positions := positions security in
  let prev_security := default no_prev_entry (by_cusip !! cusip security) in
  let prev_holders := pe_holders prev_security in
  let prev_positions := pe_positions prev_security in
  let shares_change := shares security - pe_shares prev_security in
  let value_change := value security - pe_value prev_security in
  let new_holders := current_holders ∖ prev_holders in
  let dropped_holders := prev_holders ∖ current_holders in
  let net_institutional_change :=
    Z.of_nat (size new_holders) - Z.of_nat (size dropped_holders) in
  let institution_changes :=
    institution_changes_of current_positions prev_positions
                           current_holders prev_holders in
  mkSecurity (cusip security) (ticker security) (name security)
    (shares security) (value security) (shares_outstanding security)
    (float security) (pct_of_shares security) (num_holders security)
    (holders security) (positions security)
    (held_pct_institutions security) (held_pct_insiders security)
    (Some (mkChanges shares_change value_change net_institutional_change
             net_institutional_change (elements new_holders)
             (elements dropped_holders) institution_changes
             (pe_shares prev_security) (pe_value prev_security)
             (Z.of_nat (size prev_holders)))).

(** [x['net_institutional_change']] as a sort key. *)
Definition net_change_key (s : security) : Z :=
  match changes s with
  | Some c => net_institutional_change c
  | None => 0
  end.

(** Everything after the prior quarter's file has been loaded. *)
Definition net_adds_against (data : prev_data)
    (current_holdings_pct : list security) : list security :=
  let by_cusip := prev_positions_by_cusip data in
  sort_desc (fun x y => net_change_key x <? net_change_key y)
            (quarterly_add by_cusip <$> current_holdings_pct).

(** *** The prior quarter on disk *)

Record filing_dir : Type := mkFilingDir {
  fd_is_dir : bool;
  (** the first 10,000 characters of [full-submission.txt], if it exists *)
  fd_submission : option string
}.

Record cik_dir : Type := mkCikDir {
  cd_is_dir : bool;
  (** the entries of the [13F-HR] subdirectory, if it exists *)
  cd_13f_hr : option (list filing_dir)
}.

Record filesystem : Type := mkFilesystem {
  (** the entries of the filings directory *)
  filings : list cik_dir;
  (** [output/<quarter>_<year>/total_holdings_data.json] *)
  total_holdings_data : gmap (string * Z) prev_data
}.

Record analyzer : Type := mkAnalyzer {
  quarter : string;
  year : Z
}.

(** [int(self.quarter[1])] *)
Definition quarter_number (quarter : string) : result Z :=
  match quarter with
  | String _ (String c _) =>
      let n := N_of_ascii c in
      if (48 <=? n)%N && (n <=? 57)%N then Ok (Z.of_N n - 48)
      else Raise (ValueError "invalid literal for int()")
  | _ => Raise (KeyError "string index out of range")
  end.

Definition tab : string := String (ascii_of_nat 9) "".

(** [s in content] *)
Definition contains (s content : string) : bool :=
  match String.index 0 s content with Some _ => true | None => false end.

Definition quarter_end (quarter : string) : string :=
  if String.eqb quarter "Q1" then "0331"
  else if String.eqb quarter "Q2" then "0630"
  else if String.eqb quarter "Q3" then "0930"
  else if String.eqb quarter "Q4" then "1231"
  else "0630".

Definition period_marker (quarter : string) (year : Z) : string :=
  "CONFORMED PERIOD OF REPORT:" +:+ tab +:+ pretty year +:+ quarter_end quarter.

(** The inner loop of [has_filings_for_quarter]; the flag is set when
    the tenth hit returns [True] on the spot. *)
Fixpoint scan_filing_dirs (marker : string) (dirs : list filing_dir)
    (filing_count : nat) : bool * nat :=
  match dirs with
  | [] => (false, filing_count)
  | d :: rest =>
      if negb (fd_is_dir d) then scan_filing_dirs marker rest filing_count
      else
        match fd_submission d with
        | Some content =>
            if contains marker content then
              let filing_count := S filing_count in
              if (10 <=? filing_count)%nat then (true, filing_count)
              else scan_filing_dirs marker rest filing_count
            else scan_filing_dirs marker rest filing_count
        | None => scan_filing_dirs marker rest filing_count
        end
  end.

Fixpoint scan_cik_dirs (marker : string) (dirs : list cik_dir)
    (filing_count : nat) : bool * nat :=
  match dirs with
  | [] => (false, filing_count)
  | d :: rest =>
      if negb (cd_is_dir d) then scan_cik_dirs marker rest filing_count
      else
        match cd_13f_hr d with
        | None => scan_cik_dirs marker rest filing_count
        | Some filing_dirs =>
            let '(returned, filing_count) :=
              scan_filing_dirs marker filing_dirs filing_count in
            if returned then (true, filing_count)
            else scan_cik_dirs marker rest filing_count
        end
  end.

Definition has_filings_for_quarter (fs : filesystem) (quarter : string)
    (year : Z) : bool :=
  let '(returned, filing_count) :=
    scan_cik_dirs (period_marker quarter year) (filings fs) 0 in
  returned || (0 <? filing_count)%nat.

(** The names bound in the body of [class Filing13FAnalyzer]. *)
Definition Filing13FAnalyzer_methods : list string :=
  [ "__init__"; "load_cik_metadata"; "load_filing_metadata";
    "is_amendment_filing"; "extract_filing_period";
    "extract_company_name_from_filing"; "parse_13f_filing";
    "process_all_filings"; "save_progress"; "load_progress";
    "save_enriched_holdings"; "load_enriched_holdings"; "calculate_metrics";
    "has_filings_for_quarter"; "calculate_quarterly_net_adds";
    "generate_markdown_report"; "generate_json_output"; "run_analysis" ].

(** The attributes [__init__] assigns on the instance. *)
Definition Filing13FAnalyzer_fields : list string :=
  [ "filings_dir"; "quarter"; "year"; "output_dir"; "data_dir";
    "progress_file"; "config"; "filing_metadata"; "cik_metadata";
    "institution_filing_periods"; "data_enricher"; "current_holdings";
    "previous_holdings"; "net_additions" ].

(** Looking a name up on an analyzer instance. *)
Definition getattr (attr : string) : result unit :=
  if bool_decide (attr ∈ Filing13FAnalyzer_fields ++ Filing13FAnalyzer_methods)
  then Ok ()
  else Raise (AttributeError attr).

(** [generate_json_output(data, "total_holdings_data.json")] as far as
    the comparison reads it back. *)
Definition to_json_security (s : security) : json_security :=
  mkJsonSecurity (Some (cusip s)) (Some (shares s)) (Some (value s))
    (Some (holders s))
    (Some ((fun p => mkJsonPosition (Some (pp_shares p)) (Some (pp_value p)))
             <$> positions s)).

Definition generate_json_output (self : analyzer) (data : list security)
    (fs : filesystem) : filesystem :=
  mkFilesystem (filings fs)
    (<[(quarter self, year self) := to_json_security <$> data]>
       (total_holdings_data fs)).

Section PriorQuarter.

(** The two calls made on the nested analyzer: the body of
    [process_all_filings], and whatever a method answering to
    [analyze_holdings] would compute. *)
Variable process_all_filings :
  analyzer -> filesystem -> result filesystem.
Variable analyze_holdings :
  analyzer -> filesystem -> result (list security * list security * filesystem).

Definition calculate_quarterly_net_adds (self : analyzer) (fs : filesystem)
    (current_holdings_pct : list security)
  : result (list security * filesystem) :=
  current_q ← quarter_number (quarter self);
  let prev_quarter :=
    if current_q >? 1 then "Q" +:+ pretty (current_q - 1) else "Q4" in
  let prev_year := if current_q >? 1 then year self else year self - 1 in
  let compare (fs : filesystem) : result (list security * filesystem) :=
    match total_holdings_data fs !! (prev_quarter, prev_year) with
    | Some data => Ok (net_adds_against data current_holdings_pct, fs)
    | None => Raise IOError
    end in
  match total_holdings_data fs !! (prev_quarter, prev_year) with
  | Some _ => compare fs
  | None =>
      if has_filings_for_quarter fs prev_quarter prev_year then
        let prev_analyzer := mkAnalyzer prev_quarter prev_year in
        fs ← process_all_filings prev_analyzer fs;
        _ ← getattr "analyze_holdings";
        '(prev_total_holdings, _, fs) ← analyze_holdings prev_analyzer fs;
        compare (generate_json_output prev_analyzer prev_total_holdings fs)
      else Ok (current_holdings_pct, fs)
  end.

End PriorQuarter.

End Analyzer.

(** ** app.py: loading one quarter into the dashboard *)

Module Dashboard.

Definition DAYS_PER_QUARTER : Z := 92.

(** The default of [CONFIG.get('analysis', {}).get('max_data_age_days', 365)]. *)
Definition default_max_data_age_days : Z := 365.

(** A value of [filing_periods]. *)
Record filing_period : Type := mkPeriod {
  period_year : Z;
  period_quarter : Z
}.

(** A security of [total_holdings_data.json] as the dashboard reads it.
    [positions] is [None] when the key is absent; [holder_count] is the
    key the filter adds. *)
Record security : Type := mkSecurity {
  cusip : string;
  ticker : string;
  name : string;
  shares_held : Z;
  value_usd : Z;
  num_holders : Z;
  holders : list string;
  positions : option (gmap string Analyzer.json_position);
  holder_count : option Z
}.

Record institution_breakdown : Type := mkBreakdown {
  filtered_total : Z;
  filtered_current_quarter : Z;
  excluded_stale : Z
}.

(** The test applied to one institution's period. *)
Definition is_stale (year current_quarter max_age_days : Z)
    (period : filing_period) : bool :=
  if (period_year period <? year)
     || ((period_year period =? year)
         && (period_quarter period <? current_quarter)) then
    let quarters_old :=
      (year - period_year period) * 4
      + (current_quarter - period_quarter period) in
    let days_old := quarters_old * DAYS_PER_QUARTER in
    days_old >? max_age_days
  else false.

(** [for inst_name, period in filing_periods.items(): ... stale_institutions.add(inst_name)] *)
Definition stale_institutions (year current_quarter max_age_days : Z)
    (filing_periods : gmap string filing_period) : gset string :=
  map_fold (fun inst_name period stale =>
              if is_stale year current_quarter max_age_days period
              then {[inst_name]} ∪ stale else stale)
           ∅ filing_periods.

(** The body of [for sec in data['securities']:]; [None] when the
    security is not appended. *)
Definition filter_security (stale : gset string) (sec : security)
  : option security :=
  match positions sec with
  | Some held =>
      if bool_decide (held = ∅) then Some sec
      else
        let filtered_positions := filter (fun kv => kv.1 ∉ stale) held in
        if bool_decide (filtered_positions = ∅) then None
        else Some (mkSecurity (cusip sec) (ticker sec) (name sec)
                     (shares_held sec) (value_usd sec) (num_holders sec)
                     (holders sec) (Some filtered_positions)
                     (Some (Z.of_nat (size filtered_positions))))
  | None => Some sec
  end.

(** [load_holdings_data(quarter, year)] on the parsed file, up to the
    conversion into a data frame. *)
Definition load_holdings_data (max_age_days : Z) (quarter : string) (year : Z)
    (filing_periods : gmap string filing_period) (securities : list security)
  : result (list security * institution_breakdown) :=
  current_quarter ← Analyzer.quarter_number quarter;
  let stale := stale_institutions year current_quarter max_age_days filing_periods in
  let filtered_securities := omap (filter_security stale) securities in
  let current_institutions :=
    filter (fun kv => period_quarter kv.2 = current_quarter
                      ∧ period_year kv.2 = year ∧ kv.1 ∉ stale)
           filing_periods in
  Ok (filtered_securities,
      mkBreakdown (Z.of_nat (size filing_periods) - Z.of_nat (size stale))
                  (Z.of_nat (size current_institutions))
                  (Z.of_nat (size stale))).

End Dashboard.

(** ** app.py: investor categories *)

Module Methodology.

Definition INVESTOR_TYPE_MAPPING : list (string * string) :=
  [ ("Quant Fund", "Quantitative");
    ("Quant Value", "Quantitative");
    ("Hedge Fund", "Hedge Funds");
    ("Multi-Strategy", "Hedge Funds");
    ("Tech Hedge Fund", "Hedge Funds");
    ("Event-Driven", "Hedge Funds");
    ("Macro Fund", "Hedge Funds");
    ("Tiger Cub", "Hedge Funds");
    ("Value Fund", "Value & Growth");
    ("Growth Fund", "Value & Growth");
    ("Activist Investor", "Value & Growth");
    ("Activist Hedge Fund", "Value & Growth");
    ("Conglomerate", "Value & Growth");
    ("Private Equity", "Alternative Assets");
    ("Private Credit", "Alternative Assets");
    ("Distressed Debt", "Alternative Assets");
    ("Distressed Fund", "Alternative Assets");
    ("Credit Fund", "Alternative Assets");
    ("Bank", "Banks");
    ("Investment Bank", "Banks");
    ("Pension Fund", "Other");
    ("REIT Fund", "Other");
    ("ESG Fund", "Traditional Active");
    ("Small Cap Fund", "Traditional Active");
    ("Asset Manager", "Asset Manager") ].

(** [d.get(k)] on a dictionary literal with distinct keys. *)
Fixpoint get (k : string) (d : list (string * string)) : option string :=
  match d with
  | [] => None
  | (k', v) :: rest => if String.eqb k k' then Some v else get k rest
  end.

Definition passive_firms : list string :=
  [ "BlackRock"; "Vanguard"; "State Street"; "Geode"; "Dimensional";
    "Northern Trust"; "BNY Mellon" ].

(** [get_methodology_category(firm_name, original_type)] *)
Definition get_methodology_category (firm_name original_type : string)
  : string :=
  if String.eqb original_type "Asset Manager" then
    if existsb (fun p => Analyzer.contains p firm_name) passive_firms
    then "Passive/Index"
    else "Traditional Active"
  else
    let mapped := default "Other" (get original_type INVESTOR_TYPE_MAPPING) in
    if String.eqb mapped "Asset Manager" then "Traditional Active"
    else mapped.

(** The categories the dashboard offers. *)
Definition categories : list string :=
  [ "Quantitative"; "Hedge Funds"; "Value & Growth"; "Alternative Assets";
    "Banks"; "Other"; "Traditional Active"; "Passive/Index" ].

End Methodology.
(** ** pipeline/04_complete_cusip_mapping.py: composing the chain *)

(** The sum of a quantity over the values of a dictionary. *)
Definition map_sum {V} (f : V -> Z) (m : gmap string V) : Z :=
  map_fold (fun _ v acc => f v + acc) 0 m.

Module ChainBuilder.

(** A value of [ticker_to_cik_map.json]. *)
Record ticker_entry : Type := mkTickerEntry {
  te_cik : option string;
  te_company_name : option string
}.

(** A value of the consolidated SEC shares file. *)
Record shares_entry : Type := mkSharesEntry {
  se_entity_name : option string;
  se_shares_outstanding : Z;
  se_shares_date : option string;
  se_last_updated : option string
}.

(** A value of [self.cusip_to_shares]. *)
Record mapping_entry : Type := mkMappingEntry {
  me_cusip : string;
  me_ticker : string;
  me_cik : string;
  me_company_name : option string;
  me_sec_entity_name : option string;
  me_shares_outstanding : Z;
  me_shares_date : option string;
  me_last_updated : option string
}.

(** The text of a verdict, as [is_valid_shares_data] formats it. *)
Definition reason_text (r : ChainMapper.reason) : string :=
  match r with
  | ChainMapper.Placeholder_value => "Placeholder value"
  | ChainMapper.Too_few_shares => "Too few shares for public company"
  | ChainMapper.Stale_data days_old =>
      "Stale data (" +:+ pretty days_old +:+ " days old)"
  | ChainMapper.Data_too_old shares_date =>
      "Data too old (before Q3 2024: " +:+ shares_date +:+ ")"
  | ChainMapper.No_date_information => "No date information"
  | ChainMapper.Valid => "Valid"
  end.

(** The mapping under construction and the counters of the loop. *)
Record state : Type := mkState {
  cusip_to_shares : gmap string mapping_entry;
  successful_mappings : Z;
  missing_ticker_to_cik : Z;
  missing_cik_to_shares : Z;
  invalid_shares_data : Z;
  validation_reasons : gmap string Z
}.

Definition initial : state := mkState ∅ 0 0 0 0 ∅.

Section Build.

(** [str.upper], the date parser, and the clock reading at the moment
    a given CUSIP is validated. *)
Variable upper : string -> string.
Variable parse_date : string -> option ChainMapper.date.
Variable clock : string -> ChainMapper.datetime.

Variable ticker_to_cik : gmap string ticker_entry.
Variable cik_to_shares : gmap string shares_entry.

(** The body of [for cusip, ticker in self.cusip_to_ticker.items():]. *)
Definition step (cusip ticker : string) (st : state) : state :=
  match ticker with
  | EmptyString => st
  | String _ _ =>
      let ticker := upper ticker in
      match ticker_to_cik !! ticker with
      | None =>
          mkState (cusip_to_shares st) (successful_mappings st)
                  (missing_ticker_to_cik st + 1) (missing_cik_to_shares st)
                  (invalid_shares_data st) (validation_reasons st)
      | Some ticker_data =>
          match te_cik ticker_data with
          | None | Some EmptyString => st
          | Some cik =>
              match cik_to_shares !! cik with
              | None =>
                  mkState (cusip_to_shares st) (successful_mappings st)
                          (missing_ticker_to_cik st) (missing_cik_to_shares st + 1)
                          (invalid_shares_data st) (validation_reasons st)
              | Some shares_data =>
                  let shares_outstanding := se_shares_outstanding shares_data in
                  let shares_date := se_shares_date shares_data in
                  let '(is_valid, reason) :=
                    ChainMapper.is_valid_shares_data parse_date (clock cusip)
                      shares_outstanding shares_date in
                  if negb is_valid then
                    mkState (cusip_to_shares st) (successful_mappings st)
                            (missing_ticker_to_cik st) (missing_cik_to_shares st)
                            (invalid_shares_data st + 1)
                            (<[reason_text reason :=
                                 default 0 (validation_reasons st !! reason_text reason) + 1]>
                               (validation_reasons st))
                  else
                    mkState
                      (<[cusip := mkMappingEntry cusip ticker cik
                                    (te_company_name ticker_data)
                                    (se_entity_name shares_data)
                                    shares_outstanding shares_date
                                    (se_last_updated shares_data)]>
                         (cusip_to_shares st))
                      (successful_mappings st + 1)
                      (missing_ticker_to_cik st) (missing_cik_to_shares st)
                      (invalid_shares_data st) (validation_reasons st)
              end
          end
      end
  end.

(** [build_complete_mapping] on a mapper fresh from [__init__]. *)
Definition build_complete_mapping (cusip_to_ticker : gmap string string)
  : state :=
  map_fold step initial cusip_to_ticker.

(** What a CUSIP needs for an entry: a ticker, its CIK, that CIK's
    shares record, and a record that passes the validity check. *)
Definition chain (cusip ticker : string) : option mapping_entry :=
  match ticker with
  | EmptyString => None
  | String _ _ =>
      ticker_data ← ticker_to_cik !! upper ticker;
      cik ← te_cik ticker_data;
      if String.eqb cik "" then None else
      shares_data ← cik_to_shares !! cik;
      if (ChainMapper.is_valid_shares_data parse_date (clock cusip)
            (se_shares_outstanding shares_data) (se_shares_date shares_data)).1
      then Some (mkMappingEntry cusip (upper ticker) cik
                   (te_company_name ticker_data) (se_entity_name shares_data)
                   (se_shares_outstanding shares_data)
                   (se_shares_date shares_data) (se_last_updated shares_data))
      else None
  end.

End Build.

End ChainBuilder.

(** ** modules/data_enrichment_sec.py *)

Module Enricher.

Record statistics : Type := mkStats {
  cusip_lookups : Z;
  shares_found : Z;
  shares_missing : Z
}.

(** [get_shares_outstanding] *)
Definition get_shares_outstanding
    (cusip_to_shares : gmap string ChainBuilder.mapping_entry)
    (cusip : string) (stats : statistics)
  : option ChainBuilder.mapping_entry * statistics :=
  match cusip_to_shares !! cusip with
  | Some shares_data =>
      (Some shares_data,
       mkStats (cusip_lookups stats + 1) (shares_found stats + 1)
               (shares_missing stats))
  | None =>
      (None,
       mkStats (cusip_lookups stats + 1) (shares_found stats)
               (shares_missing stats + 1))
  end.

(** The body of the loop of [enrich_holdings], on the keys that the
    analyzer reads afterwards ([ticker] and [shares_outstanding]). *)
Definition enrich_holding
    (cusip_to_shares : gmap string ChainBuilder.mapping_entry)
    (entry : string * Analyzer.holding) (stats : statistics)
  : (string * Analyzer.holding) * statistics :=
  let '(cusip, data) := entry in
  let '(shares_data, stats) := get_shares_outstanding cusip_to_shares cusip stats in
  match shares_data with
  | Some shares_data =>
      ((cusip,
        Analyzer.mkHolding (Analyzer.h_name data)
          (Some (ChainBuilder.me_ticker shares_data))
          (Analyzer.h_shares data) (Analyzer.h_value data)
          (Analyzer.h_holders data) (Analyzer.h_positions data)
          (Some (ChainBuilder.me_shares_outstanding shares_data))
          (Analyzer.h_float_shares data)
          (Analyzer.h_held_pct_institutions data)
          (Analyzer.h_held_pct_insiders data)),
       stats)
  | None => ((cusip, data), stats)
  end.

(** [enrich_holdings] over the items of the holdings dictionary. *)
Fixpoint enrich_holdings
    (cusip_to_shares : gmap string ChainBuilder.mapping_entry)
    (holdings : list (string * Analyzer.holding)) (stats : statistics)
  : list (string * Analyzer.holding) * statistics :=
  match holdings with
  | [] => ([], stats)
  | entry :: rest =>
      let '(entry, stats) := enrich_holding cusip_to_shares entry stats in
      let '(rest, stats) := enrich_holdings cusip_to_shares rest stats in
      (entry :: rest, stats)
  end.

End Enricher.

(** ** pipeline/05_analyze_net_adds.py: aggregation and filing periods *)

(** The entry that the lookup-map loop stores for a prior security. *)
Definition prev_entry_of (security : Analyzer.json_security) : Analyzer.prev_entry :=
  Analyzer.mkPrevEntry
    (default 0 (Analyzer.js_shares_held security))
    (default 0 (Analyzer.js_value_usd security))
    (list_to_set (default [] (Analyzer.js_holders security)))
    (default ∅ (Analyzer.js_positions security)).

(** A filing that [has_filings_for_quarter] counts. *)
Definition filing_counts (marker : string) (d : Analyzer.filing_dir) : bool :=
  Analyzer.fd_is_dir d
  && match Analyzer.fd_submission d with
     | Some content => Analyzer.contains marker content
     | None => false
     end.

Definition cik_dir_counts (marker : string) (d : Analyzer.cik_dir) : bool :=
  Analyzer.cd_is_dir d
  && match Analyzer.cd_13f_hr d with
     | Some filing_dirs => existsb (filing_counts marker) filing_dirs
     | None => false
     end.

Module Aggregator.

(** One row of [parse_13f_filing]. *)
Record parsed_holding : Type := mkParsed {
  ph_cusip : string;
  ph_name : string;
  ph_shares : Z;
  ph_value : Z
}.

(** What the [defaultdict] creates for a CUSIP seen for the first time. *)
Definition new_holding : Analyzer.holding :=
  Analyzer.mkHolding "" None 0 0 [] ∅ None None None None.

(** The body of [for holding in holdings:] for the institution
    [company_name]. *)
Definition add_holding (company_name : string) (holding : parsed_holding)
    (current_holdings : gmap string Analyzer.holding)
  : gmap string Analyzer.holding :=
  let cusip := ph_cusip holding in
  let data := default new_holding (current_holdings !! cusip) in
  let position :=
    default (Analyzer.mkPosition 0 0) (Analyzer.h_positions data !! company_name) in
  <[cusip :=
      Analyzer.mkHolding (ph_name holding) (Analyzer.h_ticker data)
        (Analyzer.h_shares data + ph_shares holding)
        (Analyzer.h_value data + ph_value holding)
        (if bool_decide (company_name ∈ Analyzer.h_holders data)
         then Analyzer.h_holders data
         else Analyzer.h_holders data ++ [company_name])
        (<[company_name :=
             Analyzer.mkPosition
               (Analyzer.pos_shares position + ph_shares holding)
               (Analyzer.pos_value position + ph_value holding)]>
           (Analyzer.h_positions data))
        (Analyzer.h_shares_outstanding data) (Analyzer.h_float_shares data)
        (Analyzer.h_held_pct_institutions data)
        (Analyzer.h_held_pct_insiders data)]>
    current_holdings.

(** The aggregation of one institution's parsed filing. *)
Definition aggregate_filing (current_holdings : gmap string Analyzer.holding)
    (filing : string * list parsed_holding) : gmap string Analyzer.holding :=
  foldl (fun acc holding => add_holding filing.1 holding acc)
        current_holdings filing.2.

(** The aggregation over every selected filing, from an empty
    [current_holdings]. *)
Definition aggregate (filings : list (string * list parsed_holding))
  : gmap string Analyzer.holding :=
  foldl aggregate_filing ∅ filings.

(** The books of one security balance. *)
Definition balanced (data : Analyzer.holding) : Prop :=
  Analyzer.h_shares data = map_sum Analyzer.pos_shares (Analyzer.h_positions data)
  ∧ Analyzer.h_value data = map_sum Analyzer.pos_value (Analyzer.h_positions data)
  ∧ NoDup (Analyzer.h_holders data)
  ∧ ∀ inst, inst ∈ Analyzer.h_holders data
            ↔ is_Some (Analyzer.h_positions data !! inst).

End Aggregator.

Module FilingPeriod.

Record period : Type := mkPeriod {
  period_year : Z;
  period_quarter : Z;
  period_month : Z
}.

(** ASCII white space as [\s] matches it. *)
Definition is_space (c : ascii) : bool :=
  let n := N_of_ascii c in
  ((9 <=? n)%N && (n <=? 13)%N) || ((28 <=? n)%N && (n <=? 32)%N).

Fixpoint skip_spaces (s : string) : string :=
  match s with
  | String c rest => if is_space c then skip_spaces rest else s
  | EmptyString => s
  end.

(** The characters of [s] after the prefix [p], when [s] starts with it. *)
Fixpoint strip_prefix (p s : string) : option string :=
  match p with
  | EmptyString => Some s
  | String a p' =>
      match s with
      | String b s' => if Ascii.eqb a b then strip_prefix p' s' else None
      | EmptyString => None
      end
  end.

(** [\d{8}] at the head of a string: the eight digits. *)
Definition eight_digits (s : string) : option (list ascii) :=
  match list_ascii_of_string s with
  | d1 :: d2 :: d3 :: d4 :: d5 :: d6 :: d7 :: d8 :: _ =>
      let ds := [d1; d2; d3; d4; d5; d6; d7; d8] in
      if forallb (fun c => bool_decide (is_Some (ChainMapper.digit c))) ds
      then Some ds else None
  | _ => None
  end.

(** The pattern [CONFORMED PERIOD OF REPORT:\s*(\d{8})] tried at the
    head of [s]; white space and digits do not overlap, so the greedy
    [\s*] never has to give back. *)
Definition match_here (s : string) : option (list ascii) :=
  rest ← strip_prefix "CONFORMED PERIOD OF REPORT:" s;
  eight_digits (skip_spaces rest).

(** [re.search]: the leftmost position at which the pattern matches. *)
Fixpoint search (s : string) : option (list ascii) :=
  match match_here s with
  | Some group => Some group
  | None =>
      match s with
      | String _ rest => search rest
      | EmptyString => None
      end
  end.

(** From the matched group onwards. *)
Definition period_of_group (period_date : list ascii) : option period :=
  year ← ChainMapper.digits_value (take 4 period_date);
  month ← ChainMapper.digits_value (take 2 (drop 4 period_date));
  let quarter :=
    if month <=? 3 then 1
    else if month <=? 6 then 2
    else if month <=? 9 then 3
    else 4 in
  Some (mkPeriod year quarter month).

(** [extract_filing_period] on the first 50,000 characters of an
    ASCII submission. *)
Definition extract_filing_period (content : string) : option period :=
  search content ≫= period_of_group.

End FilingPeriod.

#[global] Instance period_eq_dec : EqDecision FilingPeriod.period.
Proof. solve_decision. Defined.

(** The pattern of [extract_filing_period] matches the marker of
    quarter [n] of [year] at its head and reads the period back. *)
Definition marker_is_read_back (year n : Z) : bool :=
  bool_decide
    (FilingPeriod.match_here (Analyzer.period_marker ("Q" +:+ pretty n) year)
       ≫= FilingPeriod.period_of_group
     = Some (FilingPeriod.mkPeriod year n (3 * n))).


(** Every four-digit year and every quarter, checked by evaluation. *)
Definition markers_are_read_back : bool :=
  forallb (fun year => forallb (marker_is_read_back year) [1; 2; 3; 4])
          (seqZ 1000 9000).
(** ** Quarters and dates: pipeline/path_config.py and
    pipeline/00_download_13f_filings.py *)

Module Datetime.

(** [datetime(y, m, d)]: midnight of a calendar date, and a
    [ValueError] for anything else. *)
Definition new_datetime (y m d : Z) : result ChainMapper.datetime :=
  match ChainMapper.make_date y m d with
  | Some date => Ok (ChainMapper.mkDatetime date 0)
  | None => Raise (ValueError "day is out of range for month")
  end.

Definition date_eqb (a b : ChainMapper.date) : bool :=
  (ChainMapper.year a =? ChainMapper.year b)
  && (ChainMapper.month a =? ChainMapper.month b)
  && (ChainMapper.day a =? ChainMapper.day b).

(** Datetimes compare as (date, time of day). *)
Definition datetime_ltb (a b : ChainMapper.datetime) : bool :=
  ChainMapper.date_ltb (ChainMapper.dt_date a) (ChainMapper.dt_date b)
  || (date_eqb (ChainMapper.dt_date a) (ChainMapper.dt_date b)
      && (ChainMapper.dt_micro a <? ChainMapper.dt_micro b)).




(** Whether the month and day of [today] come before month [m],
    day [d]. *)
Definition before_month_day (today : ChainMapper.datetime) (m d : Z) : bool :=
  let date := ChainMapper.dt_date today in
  (ChainMapper.month date <? m)
  || ((ChainMapper.month date =? m) && (ChainMapper.day date <? d)).

End Datetime.

Module PathConfig.

(** An element of the list [quarters]. *)
Record quarter_entry : Type := mkQuarter {
  q_quarter : Z;
  q_year : Z;
  q_end_date : ChainMapper.datetime;
  q_filing_deadline : ChainMapper.datetime
}.

(** [get_latest_completed_quarter()] at clock reading [today]. *)
Definition get_latest_completed_quarter (today : ChainMapper.datetime)
  : result (Z * Z) :=
  let current_year := ChainMapper.year (ChainMapper.dt_date today) in
  e1 ← Datetime.new_datetime current_year 3 31;
  d1 ← Datetime.new_datetime current_year 5 15;
  e2 ← Datetime.new_datetime current_year 6 30;
  d2 ← Datetime.new_datetime current_year 8 14;
  e3 ← Datetime.new_datetime current_year 9 30;
  d3 ← Datetime.new_datetime current_year 11 14;
  e4 ← Datetime.new_datetime (current_year - 1) 12 31;
  d4 ← Datetime.new_datetime current_year 2 14;
  let quarters :=
    [ mkQuarter 1 current_year e1 d1;
      mkQuarter 2 current_year e2 d2;
      mkQuarter 3 current_year e3 d3;
      mkQuarter 4 (current_year - 1) e4 d4 ] in
  quarters ←
    (if ChainMapper.month (ChainMapper.dt_date today) <=? 2 then
       e5 ← Datetime.new_datetime (current_year - 2) 12 31;
       d5 ← Datetime.new_datetime (current_year - 1) 2 14;
       Ok (quarters ++ [mkQuarter 4 (current_year - 2) e5 d5])
     else Ok quarters);
  let by_deadline :=
    Analyzer.sort_desc
      (fun a b => Datetime.datetime_ltb (q_filing_deadline a) (q_filing_deadline b))
      quarters in
  match find (fun q => negb (Datetime.datetime_ltb today (q_filing_deadline q)))
             by_deadline with
  | Some latest_available =>
      Ok (q_year latest_available, q_quarter latest_available)
  | None => Ok (current_year - 1, 4)
  end.

(** [get_current_quarter()] *)
Definition get_current_quarter (today : ChainMapper.datetime) : Z * Z :=
  let current_month := ChainMapper.month (ChainMapper.dt_date today) in
  let current_year := ChainMapper.year (ChainMapper.dt_date today) in
  if current_month <=? 3 then (current_year, 1)
  else if current_month <=? 6 then (current_year, 2)
  else if current_month <=? 9 then (current_year, 3)
  else (current_year, 4).

End PathConfig.

Module DownloaderCalendar.



(** [get_latest_completed_quarter()] at clock reading [today]. *)
Definition get_latest_completed_quarter (today : ChainMapper.datetime)
  : Z * Z :=
  let current_month := ChainMapper.month (ChainMapper.dt_date today) in
  let current_year := ChainMapper.year (ChainMapper.dt_date today) in
  if current_month <=? 3 then (current_year - 1, 4)
  else if current_month <=? 6 then (current_year, 1)
  else if current_month <=? 9 then (current_year, 2)
  else (current_year, 3).

End DownloaderCalendar.
(** ** Sample data *)

(** A security held by institution B alone. *)
Definition sample_security : Analyzer.security :=
  Analyzer.mkSecurity "123456789" "XYZ" "XYZ CORP" 500 4500 1000000 None
    (Analyzer.percent_of 500 1000000) 1 ["B"]
    {[ "B" := Analyzer.mkPositionPct 500 4500 (Analyzer.percent_of 500 1000000) ]}
    None None None.


(** A dashboard security with one stale and one current holder. *)
Definition sample_dashboard_security : Dashboard.security :=
  Dashboard.mkSecurity "123456789" "XYZ" "XYZ CORP" 1500 13500 2
    ["Old Fund"; "New Fund"]
    (Some {[ "Old Fund" := Analyzer.mkJsonPosition (Some 1000) (Some 9000);
             "New Fund" := Analyzer.mkJsonPosition (Some 500) (Some 4500) ]})
    None.

(** A downloader that has fetched nothing yet, and a client whose fetch
    for every CIK returns without an error and without a filing on
    disk. *)
Definition sample_downloader : Downloader.downloader :=
  Downloader.mkDownloader ∅ ∅ ∅ [] [] [] 0 0 0 ∅.

Definition sample_environment : Downloader.environment :=
  Downloader.mkEnv (fun _ => None) (fun _ => false) (fun _ => None)
                   (fun _ => None).


(** A one-CUSIP chain: the ticker, its CIK and a two-million-share
    record dated on the cut-off day, read at noon on 2025-03-01. *)
Definition sample_clock (cusip : string) : ChainMapper.datetime :=
  ChainMapper.mkDatetime (ChainMapper.mkDate 2025 3 1) 43200000000.

Definition sample_ticker_to_cik : gmap string ChainBuilder.ticker_entry :=
  {[ "XYZ" := ChainBuilder.mkTickerEntry (Some "0000012345") (Some "XYZ CORP") ]}.

Definition sample_cik_to_shares : gmap string ChainBuilder.shares_entry :=
  {[ "0000012345" :=
       ChainBuilder.mkSharesEntry (Some "XYZ Corp") 2000000 (Some "2024-07-01")
         (Some "2025-02-01") ]}.

Definition sample_cusip_to_ticker : gmap string string :=
  {[ "123456789" := "XYZ" ]}.

Definition sample_mapping_entry : ChainBuilder.mapping_entry :=
  ChainBuilder.mkMappingEntry "123456789" "XYZ" "0000012345" (Some "XYZ CORP")
    (Some "XYZ Corp") 2000000 (Some "2024-07-01") (Some "2025-02-01").

(** A raw holding of that CUSIP, and the security it becomes. *)
Definition sample_raw_holding : Analyzer.holding :=
  Analyzer.mkHolding "XYZ CORP" None 500 4500 ["B"]
    {[ "B" := Analyzer.mkPosition 500 4500 ]} None None None None.

Definition sample_enriched_security : Analyzer.security :=
  Analyzer.mkSecurity "123456789" "XYZ" "XYZ CORP" 500 4500 2000000 None
    (Analyzer.percent_of 500 2000000) 1 ["B"]
    {[ "B" := Analyzer.mkPositionPct 500 4500 (Analyzer.percent_of 500 2000000) ]}
    None None None.

(** A prior file that lists one CUSIP twice. *)
Definition sample_prior_first : Analyzer.json_security :=
  Analyzer.mkJsonSecurity (Some "123456789") (Some 100) (Some 900)
    (Some ["A"]) None.

Definition sample_prior_last : Analyzer.json_security :=
  Analyzer.mkJsonSecurity (Some "123456789") (Some 500) (Some 4500)
    (Some ["B"]) None.

(** Two filings of one security: institution A reports it on two rows. *)
Definition sample_filings : list (string * list Aggregator.parsed_holding) :=
  [ ("A", [ Aggregator.mkParsed "123456789" "XYZ CORP" 100 900;
            Aggregator.mkParsed "123456789" "XYZ CORP" 50 450 ]);
    ("B", [ Aggregator.mkParsed "123456789" "XYZ" 500 4500 ]) ].

Definition sample_aggregated : Analyzer.holding :=
  Analyzer.mkHolding "XYZ" None 650 5850 ["A"; "B"]
    {[ "A" := Analyzer.mkPosition 150 1350;
       "B" := Analyzer.mkPosition 500 4500 ]} None None None None.

(** A submission header whose period line names September 2024. *)
Definition sample_submission : string :=
  "ACCESSION NUMBER: 0000012345-24-000001
CONFORMED PERIOD OF REPORT:   20240930
FILED AS OF DATE: 20241114".

(** Three institutions seen from Q3 2025: one last filed for Q1 2024. *)
Definition sample_filing_periods : gmap string Dashboard.filing_period :=
  {[ "Old Fund" := Dashboard.mkPeriod 2024 1;
     "New Fund" := Dashboard.mkPeriod 2025 2;
     "Current Fund" := Dashboard.mkPeriod 2025 3 ]}.

Definition sample_filtered_security : Dashboard.security :=
  Dashboard.mkSecurity "123456789" "XYZ" "XYZ CORP" 1500 13500 2
    ["Old Fund"; "New Fund"]
    (Some {[ "New Fund" := Analyzer.mkJsonPosition (Some 500) (Some 4500) ]})
    (Some 1).

(** * Verified properties *)

(** ** Configuration loader *)

Section ConfigLoaderFacts.
Import ConfigLoader.

Lemma dict_get_set_eq k v d : dict_get k (dict_set k v d) = Some v.
Proof.
  induction d as [|[k' v'] d IH]; simpl.
  - by rewrite String.eqb_refl.
  - destruct (String.eqb k k') eqn:E; simpl; rewrite E; auto.
Qed.

Lemma dict_get_set_ne k k' v d :
  k ≠ k' → dict_get k' (dict_set k v d) = dict_get k' d.
Proof.
  intros Hne. induction d as [|[k0 v0] d IH]; simpl.
  - destruct (String.eqb k' k) eqn:E; [|done].
    apply String.eqb_eq in E. congruence.
  - destruct (String.eqb k k0) eqn:E; simpl.
    + apply String.eqb_eq in E. subst k0.
      destruct (String.eqb k' k) eqn:E'; [|done].
      apply String.eqb_eq in E'. congruence.
    + by rewrite IH.
Qed.

(** What one overlay block does to a well-formed configuration. *)
Lemma overlay_spec environ var field config :
  well_formed config →
  ∃ config',
    overlay environ var field config = Ok config' ∧
    well_formed config' ∧
    user_agent_field field config' = resolved environ var field config ∧
    (∀ f, f ≠ field → user_agent_field f config' = user_agent_field f config) ∧
    (∀ k, k ≠ "user_agent" → dict_get k config' = dict_get k config).
Proof.
  unfold well_formed, overlay, resolved, user_agent_field, dict_has, set_nested.
  intros Hwf. destruct (environ !! var) as [value|] eqn:Henv.
  - destruct (dict_get "user_agent" config) as [ua|] eqn:Hua; simpl.
    + destruct ua; try done. rewrite Hua.
      eexists; split; [reflexivity|]. rewrite dict_get_set_eq.
      repeat split; [apply dict_get_set_eq| |].
      * intros f Hf. by apply dict_get_set_ne.
      * intros k Hk. by apply dict_get_set_ne.
    + rewrite dict_get_set_eq.
      eexists; split; [reflexivity|]. rewrite dict_get_set_eq.
      repeat split.
      * simpl. by rewrite String.eqb_refl.
      * intros f Hf. simpl. destruct (String.eqb f field) eqn:E; [|done].
        apply String.eqb_eq in E. congruence.
      * intros k Hk. rewrite !dict_get_set_ne by done. done.
  - exists config. repeat split; auto.
Qed.

End ConfigLoaderFacts.

(** C8. [load_config_with_env] raises its configuration error exactly
    when, once SEC_USER_NAME and SEC_USER_EMAIL are laid over the JSON
    configuration, no non-empty [user_agent.email] results; otherwise it
    returns the configuration in which [user_agent.name] and
    [user_agent.email] carry the overlaid values and nothing else has
    changed. *)
Theorem load_config_with_env_email_required
    (environ : gmap string string) (config : list (string * json)) :
  ConfigLoader.well_formed config →
  let email := ConfigLoader.resolved environ "SEC_USER_EMAIL" "email" config in
  let name := ConfigLoader.resolved environ "SEC_USER_NAME" "name" config in
  (ConfigLoader.load_config_with_env environ config
     = Raise (ValueError ConfigLoader.missing_email_message)
   ↔ ConfigLoader.non_empty email = false) ∧
  (ConfigLoader.non_empty email = true →
   ∃ config',
     ConfigLoader.load_config_with_env environ config = Ok config' ∧
     ConfigLoader.user_agent_field "email" config' = email ∧
     ConfigLoader.user_agent_field "name" config' = name ∧
     (∀ f, f ≠ "name" → f ≠ "email" →
        ConfigLoader.user_agent_field f config'
        = ConfigLoader.user_agent_field f config) ∧
     (∀ k, k ≠ "user_agent" → dict_get k config' = dict_get k config)).
Proof.
  intros Hwf email name.
  destruct (overlay_spec environ "SEC_USER_NAME" "name" config Hwf)
    as (c1 & H1 & Hwf1 & Hn1 & Ho1 & Hk1).
  destruct (overlay_spec environ "SEC_USER_EMAIL" "email" c1 Hwf1)
    as (c2 & H2 & Hwf2 & He2 & Ho2 & Hk2).
  assert (Hemail : ConfigLoader.user_agent_field "email" c2 = email).
  { rewrite He2. unfold email, ConfigLoader.resolved.
    destruct (environ !! "SEC_USER_EMAIL"); [done|]. by apply Ho1. }
  assert (Hname : ConfigLoader.user_agent_field "name" c2 = name).
  { rewrite Ho2 by done. exact Hn1. }
  assert (Hrun : ConfigLoader.load_config_with_env environ config
                 = ConfigLoader.validate c2).
  { unfold ConfigLoader.load_config_with_env. rewrite H1. simpl.
    rewrite H2. done. }
  rewrite Hrun. clearbody email name.
  unfold ConfigLoader.validate, ConfigLoader.user_agent_field,
    ConfigLoader.well_formed, ConfigLoader.non_empty in *.
  destruct (dict_get "user_agent" c2) as [ua|] eqn:Hua.
  - destruct ua; try done. rewrite <- Hemail.
    destruct (dict_get "email" fields) as [e|] eqn:He; simpl.
    + destruct (truthy e); simpl; (split; [split; done|]); [|done].
      intros _. exists c2. rewrite Hua. split_and!; [done..| |].
      * intros f Hf1 Hf2. rewrite <- (Ho1 f) by done.
        by apply Ho2.
      * intros k Hk. rewrite Hk2 by done. by apply Hk1.
    + split; done.
  - rewrite <- Hemail. split; done.
Qed.

(** An environment that supplies the e-mail for a configuration without
    a [user_agent] entry. *)
Lemma load_config_with_env_email_required_witness :
  ∃ config',
    ConfigLoader.load_config_with_env
      {[ "SEC_USER_EMAIL" := "ops@example.com" ]} [("quarter", JStr "Q2")]
    = Ok config'
    ∧ ConfigLoader.user_agent_field "email" config'
      = Some (JStr "ops@example.com").
Proof.
  destruct (proj2 (load_config_with_env_email_required
                     {[ "SEC_USER_EMAIL" := "ops@example.com" ]}
                     [("quarter", JStr "Q2")] I))
    as (config' & Hrun & Hemail & _).
  - vm_compute. reflexivity.
  - exists config'. split; [exact Hrun|]. rewrite Hemail. vm_compute. reflexivity.
Defined.


(** ** Loading twice, and a malformed [user_agent] *)

Section ConfigLoaderReplay.
Import ConfigLoader.

Lemma dict_set_same k v d : dict_get k d = Some v → dict_set k v d = d.
Proof.
  induction d as [|[k' v'] d IH]; simpl; [done|].
  destruct (String.eqb k k') eqn:E.
  - by intros [= ->].
  - intros H. by rewrite IH.
Qed.

(** An overlay block that ran to its end either found no variable or
    left its value in an object under [user_agent]. *)
Lemma overlay_ok_inv environ var field config config' :
  overlay environ var field config = Ok config' →
  (environ !! var = None ∧ config' = config)
  ∨ (∃ value ua,
       environ !! var = Some value
       ∧ dict_get "user_agent" config' = Some (JObj ua)
       ∧ dict_get field ua = Some (JStr value)
       ∧ ∀ f, f ≠ field →
              user_agent_field f config' = user_agent_field f config).
Proof.
  unfold overlay, dict_has, set_nested, user_agent_field.
  destruct (environ !! var) as [value|]; [|intros [= <-]; auto].
  destruct (dict_get "user_agent" config) as [ua|] eqn:Hua; simpl.
  - rewrite Hua. destruct ua; try done. intros [= <-]. right.
    eexists _, _. rewrite dict_get_set_eq. split_and!; try done.
    + apply dict_get_set_eq.
    + intros f Hf. by apply dict_get_set_ne.
  - rewrite dict_get_set_eq. intros [= <-]. right.
    eexists _, _. rewrite dict_get_set_eq. split_and!; try done.
    + simpl. by rewrite String.eqb_refl.
    + intros f Hf. simpl. destruct (String.eqb f field) eqn:E; [|done].
      apply String.eqb_eq in E. congruence.
Qed.

(** An overlay block changes nothing when its value is already there. *)
Lemma overlay_fixed environ var field config ua :
  dict_get "user_agent" config = Some (JObj ua) →
  (∀ value, environ !! var = Some value →
            dict_get field ua = Some (JStr value)) →
  overlay environ var field config = Ok config.
Proof.
  intros Hua Hfield. unfold overlay, dict_has, set_nested.
  destruct (environ !! var) as [value|]; [|done].
  rewrite Hua. simpl. rewrite Hua.
  rewrite (dict_set_same field (JStr value) ua) by auto.
  by rewrite dict_set_same.
Qed.

Lemma validate_ok_inv config config' :
  validate config = Ok config' →
  config' = config ∧ ∃ ua, dict_get "user_agent" config = Some (JObj ua).
Proof.
  unfold validate.
  destruct (dict_get "user_agent" config) as [ua|]; [|done].
  destruct ua; try done.
  destruct (dict_get "email" fields) as [e|]; [|done].
  destruct (truthy e); [|done]. simpl. intros [= <-]. eauto.
Qed.

End ConfigLoaderReplay.

(** X27. Loading is idempotent: a configuration that
    [load_config_with_env] returned is returned unchanged when it is
    loaded again under the same environment. *)
Theorem load_config_with_env_replay
    (environ : gmap string string) (config config' : list (string * json)) :
  ConfigLoader.load_config_with_env environ config = Ok config' →
  ConfigLoader.load_config_with_env environ config' = Ok config'.
Proof.
  unfold ConfigLoader.load_config_with_env.
  destruct (ConfigLoader.overlay environ "SEC_USER_NAME" "name" config)
    as [c1|] eqn:H1; [|done].
  simpl.
  destruct (ConfigLoader.overlay environ "SEC_USER_EMAIL" "email" c1)
    as [c2|] eqn:H2; [|done].
  simpl. intros Hv.
  destruct (validate_ok_inv _ _ Hv) as [-> [ua Hua]].
  assert (∀ value, environ !! "SEC_USER_EMAIL" = Some value →
                   dict_get "email" ua = Some (JStr value)) as Hemail.
  { intros value Hval.
    destruct (overlay_ok_inv _ _ _ _ _ H2) as [[Hn _]|(v & ua' & Hv' & Hua' & Hf & _)];
      congruence. }
  assert (∀ value, environ !! "SEC_USER_NAME" = Some value →
                   dict_get "name" ua = Some (JStr value)) as Hname.
  { intros value Hval.
    destruct (overlay_ok_inv _ _ _ _ _ H1) as [[Hn _]|(v & ua1 & Hv1 & Hua1 & Hf1 & _)];
      [congruence|].
    assert (ConfigLoader.user_agent_field "name" c1 = Some (JStr value)) as Hc1.
    { unfold ConfigLoader.user_agent_field. rewrite Hua1. congruence. }
    assert (ConfigLoader.user_agent_field "name" c2
            = ConfigLoader.user_agent_field "name" c1) as Hkeep.
    { destruct (overlay_ok_inv _ _ _ _ _ H2) as [[_ ->]|(? & ? & _ & _ & _ & Hk)];
        [done|by apply Hk]. }
    rewrite Hc1 in Hkeep. unfold ConfigLoader.user_agent_field in Hkeep.
    by rewrite Hua in Hkeep. }
  rewrite (overlay_fixed _ _ _ _ ua Hua Hname). simpl.
  rewrite (overlay_fixed _ _ _ _ ua Hua Hemail). simpl. done.
Qed.

Lemma load_config_with_env_replay_witness :
  ConfigLoader.load_config_with_env {[ "SEC_USER_EMAIL" := "ops@example.com" ]}
    [("quarter", JStr "Q2");
     ("user_agent", JObj [("email", JStr "ops@example.com")])]
  = Ok [("quarter", JStr "Q2");
        ("user_agent", JObj [("email", JStr "ops@example.com")])].
Proof.
  apply (load_config_with_env_replay _ [("quarter", JStr "Q2")]).
  vm_compute. reflexivity.
Defined.

(** X28. A configuration whose [user_agent] is anything but an object
    never loads, and never with the configuration error: the item
    assignment raises a [TypeError] as soon as one of the two variables
    is set, and with neither set the [.get] of the validation raises an
    [AttributeError]. *)
Theorem malformed_user_agent_never_loads
    (environ : gmap string string) (config : list (string * json))
    (user_agent : json) :
  dict_get "user_agent" config = Some user_agent →
  (∀ fields, user_agent ≠ JObj fields) →
  ConfigLoader.load_config_with_env environ config
  = if bool_decide (is_Some (environ !! "SEC_USER_NAME")
                    ∨ is_Some (environ !! "SEC_USER_EMAIL"))
    then Raise TypeError else Raise (AttributeError "get").
Proof.
  intros Hua Hne.
  unfold ConfigLoader.load_config_with_env, ConfigLoader.overlay,
    ConfigLoader.set_nested, ConfigLoader.validate.
  destruct (environ !! "SEC_USER_NAME") as [name|] eqn:Hn.
  - rewrite bool_decide_eq_true_2 by eauto.
    unfold dict_has. rewrite Hua. simpl. rewrite Hua.
    destruct user_agent; try done. by destruct (Hne fields).
  - simpl. destruct (environ !! "SEC_USER_EMAIL") as [email|] eqn:He.
    + rewrite bool_decide_eq_true_2 by eauto.
      unfold dict_has. rewrite Hua. simpl. rewrite Hua.
      destruct user_agent; try done. by destruct (Hne fields).
    + rewrite bool_decide_eq_false_2.
      * simpl. rewrite Hua. destruct user_agent; try done. by destruct (Hne fields).
      * intros [[? ?]|[? ?]]; done.
Qed.

Lemma malformed_user_agent_never_loads_witness :
  ConfigLoader.load_config_with_env {[ "SEC_USER_EMAIL" := "ops@example.com" ]}
    [("user_agent", JStr "Example Fund ops@example.com")]
  = Raise TypeError.
Proof.
  etransitivity.
  - apply (malformed_user_agent_never_loads
             {[ "SEC_USER_EMAIL" := "ops@example.com" ]}
             [("user_agent", JStr "Example Fund ops@example.com")]
             (JStr "Example Fund ops@example.com") eq_refl).
    intros fields. discriminate.
  - vm_compute. reflexivity.
Defined.
(** ** Complete-chain mapper: the validity gate *)

Section ChainMapperFacts.
Import ChainMapper.


Lemma digit_bound c v : digit c = Some v → 0 <= v <= 9.
Proof.
  unfold digit. destruct (_ && _) eqn:E; [|done].
  intros [= <-]. apply andb_true_iff in E as [E1 E2].
  apply N.leb_le in E1, E2. lia.
Qed.









(** The two guards on the share count come first and ignore the date. *)
Lemma share_count_guards parse_date now so sd :
  so ∈ placeholder_values ∨ so < 100000 →
  (is_valid_shares_data parse_date now so sd).1 = false.
Proof.
  unfold is_valid_shares_data. intros [Hin|Hlt].
  - by rewrite bool_decide_eq_true_2.
  - case_bool_decide; [done|].
    destruct (Z.ltb_spec so 100000); [done|lia].
Qed.

(** Past the two guards only the date decides. *)
Lemma share_count_passes parse_date now so sd :
  so ∉ placeholder_values → 100000 <= so →
  is_valid_shares_data parse_date now so sd =
  match sd with
  | Some (String c rest as s) =>
      match parse_date (date_part s) with
      | Some date_obj =>
          if timedelta_days now date_obj >? 365
          then (false, Stale_data (timedelta_days now date_obj))
          else if String.ltb s q3_2024_cutoff then (false, Data_too_old s)
          else (true, Valid)
      | None => (true, Valid)
      end
  | _ => (false, No_date_information)
  end.
Proof.
  intros Hnot Hge. unfold is_valid_shares_data.
  rewrite bool_decide_eq_false_2 by done.
  destruct (Z.ltb_spec so 100000); [lia|]. by destruct sd as [[|]|].
Qed.

End ChainMapperFacts.



(** C10. Once the share count passes its two guards, a non-empty date
    string whose date part the parser refuses makes
    [is_valid_shares_data] answer valid: the failed parse skips both the
    365-day check and the 2024-07-01 cut-off, whereas the same record
    without any date is rejected. *)
Theorem is_valid_shares_data_unparseable_date
    (parse_date : string → option ChainMapper.date)
    (now : ChainMapper.datetime) (shares_outstanding : Z) (s : string) :
  shares_outstanding ∉ ChainMapper.placeholder_values →
  100000 <= shares_outstanding →
  s ≠ "" →
  parse_date (ChainMapper.date_part s) = None →
  ChainMapper.is_valid_shares_data parse_date now shares_outstanding (Some s)
    = (true, ChainMapper.Valid)
  ∧ ChainMapper.is_valid_shares_data parse_date now shares_outstanding None
    = (false, ChainMapper.No_date_information).
Proof.
  intros Hnot Hge Hne Hfail.
  rewrite !share_count_passes by done.
  destruct s as [|c rest]; [done|]. by rewrite Hfail.
Qed.

(** A date written day-first does not parse, and the record passes. *)
Lemma is_valid_shares_data_unparseable_date_witness :
  ChainMapper.is_valid_shares_data ChainMapper.fromisoformat
    (ChainMapper.mkDatetime (ChainMapper.mkDate 2025 3 1) 0)
    2000000 (Some "30/06/2019")
  = (true, ChainMapper.Valid).
Proof.
  refine (proj1 (is_valid_shares_data_unparseable_date
    ChainMapper.fromisoformat
    (ChainMapper.mkDatetime (ChainMapper.mkDate 2025 3 1) 0)
    2000000 "30/06/2019" _ _ _ _)).
  - vm_compute. intros H. by repeat (inversion H as [|? ? ? H']; clear H; rename H' into H).
  - lia.
  - discriminate.
  - reflexivity.
Defined.

(** ** CUSIP to ticker mapper *)

Section CusipMapperFacts.
Import CusipMapper.

(** The merge loop is a union in which the cached entry wins. *)
Lemma merge_manual_union (cached manual : gmap string string) :
  map_fold merge_manual cached manual = cached ∪ manual.
Proof.
  apply (map_fold_weak_ind (fun r m => r = cached ∪ m)).
  - by rewrite map_union_empty.
  - intros cusip ticker m r Hfresh ->. unfold merge_manual.
    rewrite lookup_union, Hfresh, (right_id_L None union).
    destruct (cached !! cusip) as [old|] eqn:Hc.
    + apply map_eq. intros k. rewrite !lookup_union.
      destruct (decide (k = cusip)) as [->|Hne].
      * by rewrite Hc, lookup_insert_eq, Hfresh.
      * by rewrite lookup_insert_ne.
    + by apply insert_union_r.
Qed.

Lemma identify_unmapped_fold (l : list (string * string)) acc m :
  let r := foldl (fun '((unmapped, m) : list (string * string) * mapper)
                      '((cusip, name) : string * string) =>
                    match cusip_ticker_cache m !! cusip with
                    | None => (unmapped ++ [(cusip, name)], m)
                    | Some _ => (unmapped, set_stats (count_already_mapped (stats m)) m)
                    end) (acc, m) l in
  r.1 = acc ++ filter (fun p => cusip_ticker_cache m !! p.1 = None) l
  ∧ cusip_ticker_cache r.2 = cusip_ticker_cache m
  ∧ trace r.2 = trace m.
Proof.
  revert acc m. induction l as [|[cusip name] l IH]; intros acc m; simpl.
  - by rewrite app_nil_r.
  - destruct (cusip_ticker_cache m !! cusip) eqn:Hc.
    + destruct (IH acc (set_stats (count_already_mapped (stats m)) m))
        as (H1 & H2 & H3).
      rewrite filter_cons_False by (simpl; congruence). done.
    + destruct (IH (acc ++ [(cusip, name)]) m) as (H1 & H2 & H3).
      rewrite filter_cons_True by done.
      rewrite H1, <- app_assoc. done.
Qed.

Lemma identify_unmapped_spec m :
  (identify_unmapped m).1
    = filter (fun p => cusip_ticker_cache m !! p.1 = None) (all_cusips m)
  ∧ cusip_ticker_cache (identify_unmapped m).2 = cusip_ticker_cache m
  ∧ trace (identify_unmapped m).2 = trace m.
Proof. apply (identify_unmapped_fold (all_cusips m) [] m). Qed.

Lemma record_answers_trace batch data m :
  trace (record_answers batch data m).1 = trace m.
Proof.
  revert batch m. induction data as [|results data IH]; intros batch m; [done|].
  simpl. destruct batch as [|[cusip name] batch]; [done|].
  rewrite IH. by destruct (first_ticker results).
Qed.

(** Whatever the service answers, an iteration sends exactly one
    request, for the batch at the start it was handed. *)
Lemma process_batch_posts answers unmapped m start :
  posts (trace (process_batch answers unmapped m start).1)
  = posts (trace m)
    ++ [(take batch_size (drop (Z.to_nat start) unmapped)).*1].
Proof.
  unfold process_batch.
  destruct (answers _) as [data| | | |]; simpl;
    try (unfold posts; rewrite ?omap_app; simpl; by rewrite ?app_nil_r).
  destruct (record_answers _ data _) as [m' complete] eqn:Hr.
  assert (Ht : trace m' = trace m
                 ++ [Post (take batch_size (drop (Z.to_nat start) unmapped)).*1]).
  { change m' with (m', complete).1. rewrite <- Hr.
    by rewrite record_answers_trace. }
  destruct complete; simpl; rewrite Ht; unfold posts; by rewrite omap_app.
Qed.

Lemma batch_loop_posts answers unmapped starts m :
  posts (trace (foldl (fun m start => (process_batch answers unmapped m start).1)
                      m starts))
  = posts (trace m)
    ++ ((fun start => (take batch_size (drop (Z.to_nat start) unmapped)).*1)
          <$> starts).
Proof.
  revert m. induction starts as [|start starts IH]; intros m; simpl.
  - by rewrite app_nil_r.
  - rewrite IH, process_batch_posts, <- app_assoc. done.
Qed.

(** The requests of a whole run are the batches of the unmapped list,
    each sent once. *)
Lemma run_posts cached manual found answers :
  posts (trace (run cached manual found answers))
  = batches (filter (fun p => (cached ∪ manual) !! p.1 = None) found).
Proof.
  unfold run, map_cusips_via_api.
  pose proof (identify_unmapped_spec
                (collect_all_cusips found (init cached manual)))
    as (Hu & _ & Ht).
  destruct (identify_unmapped _) as [unmapped m] eqn:Hi. simpl in Hu, Ht.
  rewrite merge_manual_union in Hu. rewrite <- Hu.
  destruct unmapped as [|u unmapped]; [by rewrite Ht|].
  unfold batch_loop. rewrite batch_loop_posts, Ht. done.
Qed.

Lemma batch_members unmapped ids cusip :
  ids ∈ batches unmapped → cusip ∈ ids → cusip ∈ unmapped.*1.
Proof.
  unfold batches. intros (start & -> & _)%list_elem_of_fmap Hin.
  apply list_elem_of_fmap in Hin as (p & -> & Hp).
  apply list_elem_of_fmap_2.
  apply subseteq_take in Hp. revert Hp. apply subseteq_drop.
Qed.

End CusipMapperFacts.

(** C6 (what the code does).  Whatever the service answers, a run sends
    one request per batch of unmapped CUSIPs and never a second one: the
    429 branch sleeps 60 seconds and lowers a loop variable that the
    iterator then overwrites.  With one unmapped CUSIP, a 429 on the
    first request and a service that would answer every later request
    with a ticker, the run ends after that single request with the
    CUSIP still unmapped. *)
Theorem rate_limited_batch_is_skipped :
  (∀ cached manual found answers,
     CusipMapper.posts
       (CusipMapper.trace (CusipMapper.run cached manual found answers))
     = CusipMapper.batches
         (filter (fun p => (cached ∪ manual) !! p.1 = None) found)) ∧
  (let answers k :=
     match k with
     | O => CusipMapper.Status429
     | S _ => CusipMapper.Status200 [[Some "AAPL"]]
     end in
   let m := CusipMapper.run ∅ ∅ [("037833100", "APPLE INC")] answers in
   CusipMapper.trace m
     = [CusipMapper.Post ["037833100"]; CusipMapper.Sleep 60]
   ∧ CusipMapper.cusip_ticker_cache m !! "037833100" = None).
Proof.
  split; [apply run_posts|]. by vm_compute.
Qed.

(** C7 (counterexample).  A CUSIP cached as OLD and overridden as NEW in
    the manual file keeps OLD. *)
Lemma manual_override_does_not_win :
  let cached : gmap string string := {[ "037833100" := "OLD" ]} in
  let manual : gmap string string := {[ "037833100" := "NEW" ]} in
  manual !! "037833100" = Some "NEW"
  ∧ CusipMapper.cusip_ticker_cache (CusipMapper.init cached manual)
      !! "037833100" = Some "OLD".
Proof. by vm_compute. Qed.

(** C7 (amended).  Initialisation sends nothing and leaves in the cache
    the previously cached ticker of every cached CUSIP and the manual
    ticker of every other CUSIP of the manual file; no CUSIP covered by
    the cached map or by the manual file is ever part of a request. *)
Theorem manual_mappings_fill_gaps
    (cached manual : gmap string string)
    (found : list (string * string))
    (answers : nat → CusipMapper.response) :
  let m0 := CusipMapper.init cached manual in
  CusipMapper.trace m0 = [] ∧
  (∀ cusip,
     CusipMapper.cusip_ticker_cache m0 !! cusip
     = match cached !! cusip with
       | Some ticker => Some ticker
       | None => manual !! cusip
       end) ∧
  (∀ cusip, is_Some (manual !! cusip) →
     is_Some (CusipMapper.cusip_ticker_cache m0 !! cusip)) ∧
  (∀ ids cusip,
     ids ∈ CusipMapper.posts
             (CusipMapper.trace (CusipMapper.run cached manual found answers)) →
     cusip ∈ ids →
     cached !! cusip = None ∧ manual !! cusip = None).
Proof.
  assert (Hlook : ∀ cusip,
            CusipMapper.cusip_ticker_cache (CusipMapper.init cached manual) !! cusip
            = match cached !! cusip with
              | Some ticker => Some ticker
              | None => manual !! cusip
              end).
  { intros cusip. simpl. rewrite merge_manual_union, lookup_union.
    destruct (cached !! cusip), (manual !! cusip); done. }
  split_and!; [done|exact Hlook| |].
  - intros cusip [t Ht]. rewrite Hlook, Ht. by destruct (cached !! cusip).
  - intros ids cusip Hids Hin. rewrite run_posts in Hids.
    pose proof (batch_members _ _ _ Hids Hin) as Hmem.
    apply list_elem_of_fmap in Hmem as ([c n] & -> & Hp).
    apply list_elem_of_filter in Hp as [Hnone _].
    by apply lookup_union_None in Hnone.
Qed.

(** ** CUSIP to ticker mapper: batching, cache growth, resolution *)

Section CusipMapperBatching.
Import CusipMapper.

(** Cutting a list into consecutive slices of ten loses nothing. *)
Lemma slices_concat {A} (n : nat) (l : list A) :
  (length l ≤ n * batch_size)%nat →
  concat ((fun k => take batch_size (drop (k * batch_size) l)) <$> seq 0 n) = l.
Proof.
  revert l. induction n as [|n IH]; intros l Hlen.
  - destruct l; [done|simpl in Hlen; lia].
  - rewrite <- cons_seq, <- fmap_S_seq, fmap_cons, <- list_fmap_compose. simpl concat.
    rewrite drop_0.
    transitivity (take batch_size l ++ drop batch_size l); [|apply take_drop].
    f_equal.
    etransitivity; [|apply (IH (drop batch_size l))].
    + f_equal. apply list_fmap_ext. intros _ k _. simpl.
      rewrite drop_drop. do 2 f_equal.
    + rewrite length_drop. unfold batch_size in *. lia.
Qed.

Lemma batch_starts_cover (n : nat) :
  (n ≤ (n + (batch_size - 1)) / batch_size * batch_size)%nat.
Proof.
  unfold batch_size.
  pose proof (Nat.div_mod_eq (n + (10 - 1)) 10).
  pose proof (Nat.mod_upper_bound (n + (10 - 1)) 10). lia.
Qed.

Lemma batches_concat (unmapped : list (string * string)) :
  concat (batches unmapped) = unmapped.*1.
Proof.
  unfold batches, batch_starts. rewrite <- list_fmap_compose.
  etransitivity;
    [|apply (slices_concat ((length unmapped + (batch_size - 1)) / batch_size))].
  - f_equal. apply list_fmap_ext. intros _ k _. simpl.
    rewrite Nat2Z.id. by rewrite fmap_take, fmap_drop.
  - rewrite length_fmap. apply batch_starts_cover.
Qed.

Lemma batches_sizes (unmapped : list (string * string)) :
  Forall (fun ids => (0 < length ids ≤ batch_size)%nat) (batches unmapped).
Proof.
  unfold batches, batch_starts. rewrite <- list_fmap_compose.
  apply Forall_fmap, Forall_forall. intros k Hk. simpl.
  apply elem_of_seq in Hk as [_ Hk].
  rewrite Nat2Z.id, length_fmap, length_take, length_drop.
  unfold batch_size in *.
  pose proof (Nat.div_mod_eq (length unmapped + (10 - 1)) 10).
  pose proof (Nat.mod_upper_bound (length unmapped + (10 - 1)) 10). lia.
Qed.

End CusipMapperBatching.

(** X1. The requests of a run, read one after the other, list the
    unmapped CUSIPs in dictionary order, each exactly once, in batches
    of one to ten. *)
Theorem requests_partition_unmapped
    (cached manual : gmap string string)
    (found : list (string * string))
    (answers : nat → CusipMapper.response) :
  let requests :=
    CusipMapper.posts
      (CusipMapper.trace (CusipMapper.run cached manual found answers)) in
  concat requests
    = (filter (fun p => (cached ∪ manual) !! p.1 = None) found).*1
  ∧ Forall (fun ids => (0 < length ids ≤ 10)%nat) requests.
Proof.
  intros requests. subst requests. rewrite run_posts. split.
  - apply batches_concat.
  - apply batches_sizes.
Qed.

Section CusipMapperCache.
Import CusipMapper.

(** Answers are recorded under the CUSIPs of the batch only. *)
Lemma record_answers_other batch data m c :
  c ∉ batch.*1 →
  cusip_ticker_cache (record_answers batch data m).1 !! c
  = cusip_ticker_cache m !! c.
Proof.
  revert batch m. induction data as [|results data IH]; intros batch m Hc; [done|].
  simpl. destruct batch as [|[cusip name] batch]; [done|].
  rewrite fmap_cons, not_elem_of_cons in Hc. destruct Hc as [Hne Hc].
  rewrite IH by done.
  destruct (first_ticker results); simpl; [|done].
  by rewrite lookup_insert_ne.
Qed.

Lemma process_batch_other answers unmapped m start c :
  c ∉ unmapped.*1 →
  cusip_ticker_cache (process_batch answers unmapped m start).1 !! c
  = cusip_ticker_cache m !! c.
Proof.
  intros Hc. unfold process_batch.
  destruct (answers _) as [data| | | |]; simpl; try done.
  destruct (record_answers _ data _) as [m' complete] eqn:Hr.
  assert (cusip_ticker_cache m' !! c = cusip_ticker_cache m !! c) as Hm.
  { change m' with (m', complete).1. rewrite <- Hr.
    rewrite record_answers_other; [done|].
    intros Hin. apply Hc. revert Hin. rewrite fmap_take, fmap_drop.
    intros Hin. apply subseteq_take in Hin. revert Hin. apply subseteq_drop. }
  by destruct complete.
Qed.

Lemma batch_loop_other answers unmapped starts m c :
  c ∉ unmapped.*1 →
  cusip_ticker_cache
    (foldl (fun m start => (process_batch answers unmapped m start).1) m starts)
    !! c
  = cusip_ticker_cache m !! c.
Proof.
  intros Hc. revert m. induction starts as [|start starts IH]; intros m; [done|].
  simpl. by rewrite IH, process_batch_other.
Qed.

(** The position of a resolved CUSIP in its batch decides its ticker. *)
Lemma record_answers_resolved batch data m i cusip name results ticker :
  NoDup batch.*1 →
  batch !! i = Some (cusip, name) →
  data !! i = Some results →
  first_ticker results = Some ticker →
  cusip_ticker_cache (record_answers batch data m).1 !! cusip = Some ticker.
Proof.
  revert batch m i. induction data as [|r data IH]; intros batch m i Hnd Hb Hd Hf;
    [done|].
  destruct batch as [|[c n] batch]; [done|].
  rewrite fmap_cons in Hnd. apply NoDup_cons in Hnd as [Hfresh Hnd].
  destruct i as [|i]; simpl in *.
  - injection Hb as -> ->. injection Hd as ->. rewrite Hf.
    rewrite record_answers_other by done. simpl. apply lookup_insert_eq.
  - by apply (IH batch _ i).
Qed.

Lemma first_ticker_first results j ticker :
  results !! j = Some (Some ticker) →
  (∀ k, (k < j)%nat → results !! k = Some None) →
  first_ticker results = Some ticker.
Proof.
  revert j. induction results as [|r results IH]; intros j Hj Hbefore; [done|].
  destruct j as [|j]; simpl in *.
  - by injection Hj as ->.
  - pose proof (Hbefore 0%nat ltac:(lia)) as H0. simpl in H0.
    injection H0 as ->. apply (IH j); [done|].
    intros k Hk. apply (Hbefore (S k)). lia.
Qed.

End CusipMapperCache.

(** X2. A run only adds to the cache: every ticker that the cached
    map or the manual file supplied at start-up is still there,
    unchanged, whatever the service answers. *)
Theorem run_keeps_resolved_entries
    (cached manual : gmap string string)
    (found : list (string * string))
    (answers : nat → CusipMapper.response) :
  cached ∪ manual
  ⊆ CusipMapper.cusip_ticker_cache
      (CusipMapper.run cached manual found answers).
Proof.
  apply map_subseteq_spec. intros c t Hc.
  unfold CusipMapper.run, CusipMapper.map_cusips_via_api.
  pose proof (identify_unmapped_spec
                (CusipMapper.collect_all_cusips found
                   (CusipMapper.init cached manual))) as (Hu & Hcache & _).
  destruct (CusipMapper.identify_unmapped _) as [unmapped m] eqn:Hi.
  simpl in Hu, Hcache. rewrite merge_manual_union in Hu, Hcache.
  assert (CusipMapper.cusip_ticker_cache m !! c = Some t) as Hm
    by (by rewrite Hcache).
  destruct unmapped as [|u unmapped]; [done|].
  unfold CusipMapper.batch_loop. rewrite batch_loop_other; [done|].
  rewrite Hu. intros ([c' n'] & -> & Hin)%list_elem_of_fmap.
  apply list_elem_of_filter in Hin as [Hnone _]. simpl in *. congruence.
Qed.

(** X3. When a 200 answer is recorded against a batch of distinct
    CUSIPs, the CUSIP at position [i] gets the ticker of the first
    candidate of item [i] that has one; candidates without a ticker in
    front of it are passed over. *)
Theorem first_candidate_with_ticker_wins
    (batch : list (string * string)) (data : list CusipMapper.item)
    (m : CusipMapper.mapper) (i j : nat) (cusip name : string)
    (results : CusipMapper.item) (ticker : string) :
  NoDup batch.*1 →
  batch !! i = Some (cusip, name) →
  data !! i = Some results →
  results !! j = Some (Some ticker) →
  (∀ k, (k < j)%nat → results !! k = Some None) →
  CusipMapper.cusip_ticker_cache (CusipMapper.record_answers batch data m).1
    !! cusip = Some ticker.
Proof.
  intros Hnd Hb Hd Hj Hbefore.
  eapply record_answers_resolved; eauto using first_ticker_first.
Qed.

Lemma first_candidate_with_ticker_wins_witness :
  CusipMapper.cusip_ticker_cache
    (CusipMapper.record_answers
       [("037833100", "APPLE INC"); ("594918104", "MICROSOFT CORP")]
       [[None; Some "AAPL"; Some "APC"]; []]
       (CusipMapper.init ∅ ∅)).1
    !! "037833100" = Some "AAPL".
Proof.
  apply (first_candidate_with_ticker_wins
           [("037833100", "APPLE INC"); ("594918104", "MICROSOFT CORP")]
           [[None; Some "AAPL"; Some "APC"]; []]
           (CusipMapper.init ∅ ∅) 0 1 "037833100" "APPLE INC"
           [None; Some "AAPL"; Some "APC"] "AAPL").
  - apply (bool_decide_unpack _). by vm_compute.
  - reflexivity.
  - reflexivity.
  - reflexivity.
  - intros [|k] Hk; [reflexivity|lia].
Defined.

(** X4. The first loop of the API stage splits the collected CUSIPs in
    two: those already in the cache, counted in [already_mapped], and
    the unmapped ones it returns; nothing is lost and the cache is not
    touched. *)
Theorem identify_unmapped_accounting (m : CusipMapper.mapper) :
  let '(unmapped, m') := CusipMapper.identify_unmapped m in
  Z.of_nat (length unmapped)
    + (CusipMapper.already_mapped (CusipMapper.stats m')
       - CusipMapper.already_mapped (CusipMapper.stats m))
    = Z.of_nat (length (CusipMapper.all_cusips m))
  ∧ unmapped
    = filter (fun p => CusipMapper.cusip_ticker_cache m !! p.1 = None)
             (CusipMapper.all_cusips m)
  ∧ CusipMapper.cusip_ticker_cache m' = CusipMapper.cusip_ticker_cache m.
Proof.
  unfold CusipMapper.identify_unmapped.
  assert (∀ (l : list (string * string)) acc m0,
    let r := foldl (fun '((unmapped, m) : list (string * string) * CusipMapper.mapper)
                        '((cusip, name) : string * string) =>
                      match CusipMapper.cusip_ticker_cache m !! cusip with
                      | None => (unmapped ++ [(cusip, name)], m)
                      | Some _ =>
                          (unmapped,
                           CusipMapper.set_stats
                             (CusipMapper.count_already_mapped (CusipMapper.stats m)) m)
                      end) (acc, m0) l in
    Z.of_nat (length r.1)
      + (CusipMapper.already_mapped (CusipMapper.stats r.2)
         - CusipMapper.already_mapped (CusipMapper.stats m0))
    = Z.of_nat (length acc) + Z.of_nat (length l)) as Hcount.
  { induction l as [|[c n] l IH]; intros acc m0; simpl; [lia|].
    destruct (CusipMapper.cusip_ticker_cache m0 !! c).
    - specialize (IH acc (CusipMapper.set_stats
        (CusipMapper.count_already_mapped (CusipMapper.stats m0)) m0)).
      simpl in IH. lia.
    - specialize (IH (acc ++ [(c, n)]) m0). simpl in IH.
      rewrite length_app in IH. simpl in IH. lia. }
  pose proof (Hcount (CusipMapper.all_cusips m) [] m) as Hc.
  pose proof (identify_unmapped_fold (CusipMapper.all_cusips m) [] m)
    as (Hu & Hcache & _).
  simpl in Hc, Hu, Hcache.
  destruct (foldl _ _ _) as [unmapped m']. simpl in *.
  split_and!; [lia|done|done].
Qed.

(** ** Filing downloader *)

(** C9 (what the code does).  A CIK of the progress set is recorded
    as a skip and nothing is fetched; a fetch that raises is recorded as
    a failure; but a fetch that returns is recorded as a success and the
    CIK enters the progress set whether or not a filing directory exists
    afterwards: without one the success row merely has no filing
    period. *)
Theorem fetch_without_filing_is_a_success
    (env : Downloader.environment) (d : Downloader.downloader) (cik : string) :
  let d' := Downloader.download_cik env d cik in
  let info := default Downloader.no_info (Downloader.cik_metadata d !! cik) in
  (cik ∈ Downloader.downloaded_ciks d →
   d' = Downloader.record_skip cik d) ∧
  (cik ∉ Downloader.downloaded_ciks d →
   ∀ error, Downloader.get_raises env cik = Some error →
   d' = Downloader.record_failure cik error d) ∧
  (cik ∉ Downloader.downloaded_ciks d →
   Downloader.get_raises env cik = None →
   Downloader.save_progress_raises env cik = None →
   Downloader.has_filing_directory env cik = false →
   Downloader.successful_downloads d'
     = Downloader.successful_downloads d ++ [Downloader.row info cik None None]
   ∧ Downloader.success_count d' = Downloader.success_count d + 1
   ∧ Downloader.failed_downloads d' = Downloader.failed_downloads d
   ∧ Downloader.failed_count d' = Downloader.failed_count d
   ∧ cik ∈ Downloader.downloaded_ciks d'
   ∧ cik ∈ Downloader.progress_file d').
Proof.
  intros d' info. subst d'. unfold Downloader.download_cik. split_and!.
  - intros Hin. by rewrite bool_decide_eq_true_2.
  - intros Hnot error Hget. rewrite bool_decide_eq_false_2 by done.
    by rewrite Hget.
  - intros Hnot Hget Hsave Hdir. rewrite bool_decide_eq_false_2 by done.
    rewrite Hget, Hsave, Hdir. simpl. split_and!; try done; set_solver.
Qed.

(** One CIK, a fetch that brings nothing: counted as a success. *)
Lemma fetch_without_filing_is_a_success_witness :
  Downloader.success_count
    (Downloader.download_quarter_filings sample_environment
       sample_downloader ["0001067983"]) = 1
  ∧ Downloader.failed_count
      (Downloader.download_quarter_filings sample_environment
         sample_downloader ["0001067983"]) = 0.
Proof.
  destruct (proj2 (proj2 (fetch_without_filing_is_a_success
                            sample_environment sample_downloader "0001067983")))
    as (_ & Hs & _ & Hf & _).
  - set_solver.
  - reflexivity.
  - reflexivity.
  - reflexivity.
  - split; [exact Hs|exact Hf].
Defined.


(** ** The download loop as a whole *)

Section DownloadLoop.
Import Downloader.

(** What holds after every iteration of [for cik in cik_list:]. *)
Lemma download_loop_invariant (env : environment) (d : downloader)
    (cik_list : list string) :
  let d' := download_quarter_filings env d cik_list in
  (success_count d' = Z.of_nat (length (successful_downloads d'))
   ∧ failed_count d' = Z.of_nat (length (failed_downloads d'))
   ∧ skipped_count d' = Z.of_nat (length (skipped_downloads d')))
  ∧ (∀ c, c ∈ downloaded_ciks d'
          ↔ c ∈ downloaded_ciks d ∨ (c ∈ cik_list ∧ get_raises env c = None))
  ∧ NoDup (row_cik <$> successful_downloads d')
  ∧ (∀ c, c ∈ row_cik <$> successful_downloads d'
          ↔ (c ∉ downloaded_ciks d) ∧ c ∈ cik_list ∧ get_raises env c = None)
  ∧ Z.of_nat (length cik_list)
      <= success_count d' + failed_count d' + skipped_count d'
      <= 2 * Z.of_nat (length cik_list)
  ∧ ((∀ c, c ∈ cik_list → save_progress_raises env c = None) →
     success_count d' + failed_count d' + skipped_count d'
     = Z.of_nat (length cik_list))
  ∧ (∀ c, c ∈ row_cik <$> skipped_downloads d' →
          c ∈ cik_list ∧ c ∈ downloaded_ciks d').
Proof.
  unfold download_quarter_filings.
  induction cik_list as [|cik l IH] using rev_ind.
  - simpl. split_and!; try done; try lia.
    + intros c. split; [auto|]. intros [?|[Hc _]]; [done|]. by apply elem_of_nil in Hc.
    + constructor.
    + intros c. split; [by intros ?%elem_of_nil|].
      intros (_ & Hc & _). by apply elem_of_nil in Hc.
    + by intros c ?%elem_of_nil.
  - rewrite foldl_snoc, length_app. simpl length.
    match goal with |- context [download_cik env ?s0 cik] => set (s := s0) in * end.
    destruct IH as ((Hs & Hf & Hk) & Hd & Hnd & Hsucc & Hb & Heq & Hskip).
    assert (∀ c, c ∈ l ++ [cik] ↔ c ∈ l ∨ c = cik) as Happ.
    { intros c. rewrite elem_of_app, list_elem_of_singleton. done. }
    unfold download_cik. case_bool_decide as Hin.
    + (* already downloaded: a skip *)
      simpl. rewrite length_app. simpl length.
      split_and!; try done; try lia.
      * intros c. rewrite Hd, Happ. split; [naive_solver|].
        intros [?|[[?| ->] Hg]]; [auto|auto|]. by apply Hd.
      * intros c. rewrite Hsucc, Happ. split; [naive_solver|].
        intros (Hn & [?| ->] & Hg); [done|].
        apply Hd in Hin as [?|[? ?]]; done.
      * intros Hall.
           pose proof (Heq (fun c Hc => Hall c (proj2 (Happ c) (or_introl Hc)))).
           lia.
      * intros c. rewrite fmap_app, elem_of_app. simpl.
        rewrite list_elem_of_singleton, Happ.
        intros [Hc| ->]; [|auto]. apply Hskip in Hc as [? ?]. auto.
    + destruct (get_raises env cik) as [error|] eqn:Hget.
      * (* the fetch raises: a failure *)
        simpl. rewrite length_app. simpl length.
        split_and!; try done; try lia.
        -- intros c. rewrite Hd, Happ. split; [naive_solver|].
           intros [?|[[?| ->] Hg]]; [auto|auto|congruence].
        -- intros c. rewrite Hsucc, Happ. split; [naive_solver|].
           intros (Hn & [?| ->] & Hg); [done|congruence].
        -- intros Hall.
           pose proof (Heq (fun c Hc => Hall c (proj2 (Happ c) (or_introl Hc)))).
           lia.
        -- intros c Hc. apply Hskip in Hc as [? ?]. rewrite Happ. auto.
      * (* the fetch returns: a success, and a failure on top of it
           when the progress file cannot be written *)
        assert (cik ∉ row_cik <$> successful_downloads s) as Hfresh.
        { intros Hc. apply Hsucc in Hc as (Hn & Hl & _).
          apply Hin, Hd. auto. }
        assert (cik ∉ downloaded_ciks d) as Hnew.
        { intros Hc. apply Hin, Hd. auto. }
        destruct (save_progress_raises env cik) as [error|] eqn:Hsave;
          simpl; rewrite ?length_app; simpl length;
          rewrite fmap_app; simpl.
        -- split_and!; try done; try lia.
           ++ intros c. rewrite elem_of_union, elem_of_singleton, Hd, Happ.
              split; [naive_solver|].
              intros [?|[[?| ->] Hg]]; auto.
           ++ apply NoDup_app. split_and!; [done| |apply NoDup_singleton].
              intros c Hc ->%list_elem_of_singleton. done.
           ++ intros c. rewrite elem_of_app, list_elem_of_singleton, Hsucc, Happ.
              split; [naive_solver|].
              intros (Hn & [?| ->] & Hg); auto.
           ++ intros Hall. specialize (Hall cik). rewrite Happ in Hall.
              rewrite Hall in Hsave by auto. done.
           ++ intros c Hc. apply Hskip in Hc as [? ?]. rewrite Happ.
              split; [auto|]. apply elem_of_union. auto.
        -- split_and!; try done; try lia.
           ++ intros c. rewrite elem_of_union, elem_of_singleton, Hd, Happ.
              split; [naive_solver|].
              intros [?|[[?| ->] Hg]]; auto.
           ++ apply NoDup_app. split_and!; [done| |apply NoDup_singleton].
              intros c Hc ->%list_elem_of_singleton. done.
           ++ intros c. rewrite elem_of_app, list_elem_of_singleton, Hsucc, Happ.
              split; [naive_solver|].
              intros (Hn & [?| ->] & Hg); auto.
           ++ intros Hall.
           pose proof (Heq (fun c Hc => Hall c (proj2 (Happ c) (or_introl Hc)))).
           lia.
           ++ intros c Hc. apply Hskip in Hc as [? ?]. rewrite Happ.
              split; [auto|]. apply elem_of_union. auto.
Qed.

End DownloadLoop.

(** X21. After [download_quarter_filings] the three counters are the
    lengths of the three result lists, and together they cover every
    CIK of the list at least once and at most twice; they add up to
    the number of CIKs whenever the progress file can always be
    written. *)
Theorem download_counts_match_lists
    (env : Downloader.environment) (d : Downloader.downloader)
    (cik_list : list string) :
  let d' := Downloader.download_quarter_filings env d cik_list in
  Downloader.success_count d'
    = Z.of_nat (length (Downloader.successful_downloads d'))
  ∧ Downloader.failed_count d'
    = Z.of_nat (length (Downloader.failed_downloads d'))
  ∧ Downloader.skipped_count d'
    = Z.of_nat (length (Downloader.skipped_downloads d'))
  ∧ Z.of_nat (length cik_list)
      <= Downloader.success_count d' + Downloader.failed_count d'
         + Downloader.skipped_count d'
      <= 2 * Z.of_nat (length cik_list)
  ∧ ((∀ c, c ∈ cik_list → Downloader.save_progress_raises env c = None) →
     Downloader.success_count d' + Downloader.failed_count d'
       + Downloader.skipped_count d'
     = Z.of_nat (length cik_list)).
Proof.
  intros d'.
  destruct (download_loop_invariant env d cik_list)
    as ((Hs & Hf & Hk) & _ & _ & _ & Hb & Heq & _).
  fold d' in Hs, Hf, Hk, Hb, Heq. split_and!; try done; lia.
Qed.



(** X23. The progress set after a run: a CIK is in it exactly when it
    was there before or is a CIK of the list whose fetch returned.
    Each such new CIK has exactly one success row, even when the list
    names it several times, and every skipped row is for a CIK of the
    progress set. *)
Theorem progress_set_after_download
    (env : Downloader.environment) (d : Downloader.downloader)
    (cik_list : list string) :
  let d' := Downloader.download_quarter_filings env d cik_list in
  (∀ c, c ∈ Downloader.downloaded_ciks d'
        ↔ c ∈ Downloader.downloaded_ciks d
          ∨ (c ∈ cik_list ∧ Downloader.get_raises env c = None))
  ∧ NoDup (Downloader.row_cik <$> Downloader.successful_downloads d')
  ∧ (∀ c, c ∈ Downloader.row_cik <$> Downloader.successful_downloads d'
          ↔ (c ∉ Downloader.downloaded_ciks d) ∧ c ∈ cik_list
            ∧ Downloader.get_raises env c = None)
  ∧ (∀ c, c ∈ Downloader.row_cik <$> Downloader.skipped_downloads d' →
          c ∈ cik_list ∧ c ∈ Downloader.downloaded_ciks d').
Proof.
  intros d'.
  destruct (download_loop_invariant env d cik_list)
    as (_ & Hd & Hnd & Hsucc & _ & _ & Hskip).
  by split_and!.
Qed.
(** ** Filing analyzer *)

Section SortFacts.
Context {A : Type} (key_lt : A → A → bool).

Lemma insert_desc_perm (x : A) (l : list A) :
  Analyzer.insert_desc key_lt x l ≡ₚ x :: l.
Proof.
  induction l as [|y l IH]; simpl; [done|].
  destruct (key_lt x y); [|done].
  rewrite IH. apply Permutation_swap.
Qed.

Lemma sort_desc_perm (l : list A) : Analyzer.sort_desc key_lt l ≡ₚ l.
Proof.
  induction l as [|x l IH]; simpl; [done|].
  by rewrite insert_desc_perm, IH.
Qed.

Lemma elem_of_sort_desc (x : A) (l : list A) :
  x ∈ Analyzer.sort_desc key_lt l ↔ x ∈ l.
Proof. by rewrite sort_desc_perm. Qed.

End SortFacts.

Section MetricsFacts.
Import Analyzer.




End MetricsFacts.



Section QuarterlyFacts.
Import Analyzer.

(** A loop that stores [g k] under every key [k] that passes [keep]. *)
Lemma foldl_record_lookup {V} (f : string → gmap string V → gmap string V)
    (keep : string → bool) (g : string → V) :
  (∀ k acc, f k acc = if keep k then <[k := g k]> acc else acc) →
  ∀ (l : list string) (acc : gmap string V) (i : string),
    foldl (flip f) acc l !! i
    = if bool_decide (i ∈ l) && keep i then Some (g i) else acc !! i.
Proof.
  intros Hf l. induction l as [|k l IH]; intros acc i; simpl; [done|].
  rewrite IH, Hf.
  destruct (decide (i = k)) as [->|Hne].
  - rewrite (bool_decide_eq_true_2 (k ∈ k :: l)) by left.
    destruct (keep k); simpl.
    + rewrite lookup_insert_eq. by destruct (bool_decide _).
    + by rewrite andb_false_r.
  - assert (bool_decide (i ∈ k :: l) = bool_decide (i ∈ l)) as ->.
    { apply bool_decide_ext. rewrite elem_of_cons. tauto. }
    destruct (keep k); [by rewrite lookup_insert_ne|done].
Qed.

Section Changes.
Variable current_positions : gmap string position_pct.
Variable prev_positions : gmap string json_position.
Variables current_holders prev_holders : gset string.

Let cur := current_shares_of current_positions.
Let prv := prev_shares_of prev_positions.

(** What the three loops leave under each institution. *)
Lemma institution_changes_lookup (i : string) :
  institution_changes_of current_positions prev_positions
                         current_holders prev_holders !! i
  = if bool_decide (i ∈ prev_holders ∖ current_holders) then
      Some (mkChange (- prv i) (prv i) 0)
    else if bool_decide (i ∈ current_holders ∖ prev_holders) then
      Some (mkChange (cur i) 0 (cur i))
    else if bool_decide (i ∈ current_holders ∩ prev_holders)
            && negb (cur i - prv i =? 0) then
      Some (mkChange (cur i - prv i) (prv i) (cur i))
    else None.
Proof.
  unfold institution_changes_of.
  rewrite (foldl_record_lookup (record_dropped prev_positions)
             (fun _ => true)
             (fun k => mkChange (- prv k) (prv k) 0)) by done.
  rewrite (foldl_record_lookup (record_new current_positions)
             (fun _ => true)
             (fun k => mkChange (cur k) 0 (cur k))) by done.
  rewrite (foldl_record_lookup
             (record_continuing current_positions prev_positions)
             (fun k => negb (cur k - prv k =? 0))
             (fun k => mkChange (cur k - prv k) (prv k) (cur k))) by done.
  rewrite !andb_true_r, lookup_empty.
  repeat (match goal with
          | |- context [bool_decide (i ∈ elements ?X)] =>
              replace (bool_decide (i ∈ elements X)) with (bool_decide (i ∈ X))
                by (apply bool_decide_ext; by rewrite elem_of_elements)
          end).
  done.
Qed.

End Changes.

(** With the prior quarter's file on disk the result is the diff
    against it and nothing on disk changes. *)
Lemma calculate_quarterly_net_adds_loaded process_all_filings analyze_holdings
    self fs current q data :
  quarter_number (quarter self) = Ok q →
  total_holdings_data fs
    !! (if q >? 1 then "Q" +:+ pretty (q - 1) else "Q4",
        if q >? 1 then year self else year self - 1) = Some data →
  calculate_quarterly_net_adds process_all_filings analyze_holdings
    self fs current
  = Ok (net_adds_against data current, fs).
Proof.
  intros Hq Hfile. unfold calculate_quarterly_net_adds.
  rewrite Hq. simpl. by rewrite Hfile.
Qed.

End QuarterlyFacts.

(** C1. With the prior quarter's file on disk the computation returns
    the diff against it, in which every current security appears with
    its change fields: share and value deltas are
    current minus prior totals; the new holders are the current holders
    that were not prior holders and the dropped holders the prior ones
    that are not current; the net institutional change is the number of
    new holders minus the number of dropped ones; a new holder is
    recorded with its whole current share count (previous 0), a dropped
    holder with minus its prior share count (current 0), and a holder of
    both quarters only when its share count changed, with the delta and
    both counts.  For a security held by A alone (1,000 shares) before
    and by B alone (500 shares) now: A dropped with -1000, B new with
    +500, net change 0. *)
Theorem quarterly_net_adds_diff
    (data : Analyzer.prev_data) (current : list Analyzer.security)
    (sec : Analyzer.security) :
  sec ∈ current →
  let by_cusip := Analyzer.prev_positions_by_cusip data in
  let prev := default Analyzer.no_prev_entry (by_cusip !! Analyzer.cusip sec) in
  let current_holders : gset string := list_to_set (Analyzer.holders sec) in
  let prev_holders := Analyzer.pe_holders prev in
  let cur_shares := Analyzer.current_shares_of (Analyzer.positions sec) in
  let prev_shares := Analyzer.prev_shares_of (Analyzer.pe_positions prev) in
  (∃ c,
     Analyzer.quarterly_add by_cusip sec ∈ Analyzer.net_adds_against data current ∧
     Analyzer.changes (Analyzer.quarterly_add by_cusip sec) = Some c ∧
     Analyzer.shares_change c = Analyzer.shares sec - Analyzer.pe_shares prev ∧
     Analyzer.value_change c = Analyzer.value sec - Analyzer.pe_value prev ∧
     NoDup (Analyzer.new_holders c) ∧
     (∀ i, i ∈ Analyzer.new_holders c ↔ i ∈ current_holders ∧ i ∉ prev_holders) ∧
     NoDup (Analyzer.dropped_holders c) ∧
     (∀ i, i ∈ Analyzer.dropped_holders c ↔ i ∈ prev_holders ∧ i ∉ current_holders) ∧
     Analyzer.net_institutional_change c
       = Z.of_nat (length (Analyzer.new_holders c))
         - Z.of_nat (length (Analyzer.dropped_holders c)) ∧
     (∀ i, i ∈ current_holders → i ∉ prev_holders →
        Analyzer.institution_changes c !! i
        = Some (Analyzer.mkChange (cur_shares i) 0 (cur_shares i))) ∧
     (∀ i, i ∈ prev_holders → i ∉ current_holders →
        Analyzer.institution_changes c !! i
        = Some (Analyzer.mkChange (- prev_shares i) (prev_shares i) 0)) ∧
     (∀ i, i ∈ current_holders → i ∈ prev_holders →
        Analyzer.institution_changes c !! i
        = if decide (cur_shares i = prev_shares i) then None
          else Some (Analyzer.mkChange (cur_shares i - prev_shares i)
                       (prev_shares i) (cur_shares i))) ∧
     (∀ i, i ∉ current_holders → i ∉ prev_holders →
        Analyzer.institution_changes c !! i = None)) ∧
  (∀ process_all_filings analyze_holdings self fs q,
     Analyzer.quarter_number (Analyzer.quarter self) = Ok q →
     Analyzer.total_holdings_data fs
       !! (if q >? 1 then "Q" +:+ pretty (q - 1) else "Q4",
           if q >? 1 then Analyzer.year self else Analyzer.year self - 1)
     = Some data →
     Analyzer.calculate_quarterly_net_adds process_all_filings
       analyze_holdings self fs current
     = Ok (Analyzer.net_adds_against data current, fs)) ∧
  (let before :=
     Analyzer.mkJsonSecurity (Some "123456789") (Some 1000) (Some 9000)
       (Some ["A"])
       (Some {[ "A" := Analyzer.mkJsonPosition (Some 1000) (Some 9000) ]}) in
   let now :=
     Analyzer.mkSecurity "123456789" "XYZ" "XYZ CORP" 500 4500 1000000 None
       (Analyzer.percent_of 500 1000000) 1 ["B"]
       {[ "B" := Analyzer.mkPositionPct 500 4500
                   (Analyzer.percent_of 500 1000000) ]}
       None None None in
   Analyzer.changes <$> Analyzer.net_adds_against [before] [now]
   = [Some (Analyzer.mkChanges (-500) (-4500) 0 0 ["B"] ["A"]
              {[ "A" := Analyzer.mkChange (-1000) 1000 0;
                 "B" := Analyzer.mkChange 500 0 500 ]}
              1000 9000 1)]).
Proof.
  intros Hin by_cusip prev current_holders prev_holders cur_shares prev_shares.
  split_and!.
  - eexists. split.
    { apply elem_of_sort_desc, list_elem_of_fmap_2, Hin. }
    split; [reflexivity|]. cbn [Analyzer.changes Analyzer.quarterly_add
      Analyzer.shares_change Analyzer.value_change Analyzer.new_holders
      Analyzer.dropped_holders Analyzer.net_institutional_change
      Analyzer.institution_changes].
    fold by_cusip prev current_holders prev_holders.
    split_and!; try done.
    + apply NoDup_elements.
    + intros i. by rewrite elem_of_elements, elem_of_difference.
    + apply NoDup_elements.
    + intros i. by rewrite elem_of_elements, elem_of_difference.
    + intros i H1 H2. rewrite institution_changes_lookup.
      rewrite bool_decide_eq_false_2 by set_solver.
      by rewrite bool_decide_eq_true_2 by set_solver.
    + intros i H1 H2. rewrite institution_changes_lookup.
      by rewrite bool_decide_eq_true_2 by set_solver.
    + intros i H1 H2. rewrite institution_changes_lookup.
      rewrite !bool_decide_eq_false_2 by set_solver.
      rewrite bool_decide_eq_true_2 by set_solver. simpl.
      fold cur_shares prev_shares.
      destruct (Z.eqb_spec (cur_shares i - prev_shares i) 0);
        case_decide; simpl; done || lia.
    + intros i H1 H2. rewrite institution_changes_lookup.
      by rewrite !bool_decide_eq_false_2 by set_solver.
  - intros process_all_filings analyze_holdings self fs q Hq Hfile.
    by apply calculate_quarterly_net_adds_loaded with (q := q).
  - vm_compute. reflexivity.
Qed.

Lemma quarterly_net_adds_diff_witness :
  Analyzer.quarterly_add (Analyzer.prev_positions_by_cusip []) sample_security
    ∈ Analyzer.net_adds_against [] [sample_security].
Proof.
  destruct (quarterly_net_adds_diff [] [sample_security] sample_security)
    as [(c & Hin & _) _].
  - apply list_elem_of_here.
  - exact Hin.
Defined.

(** C4 (what the code does).  When the prior quarter's
    [total_holdings_data.json] is missing and no raw filing carries the
    prior period, the current securities come back unchanged and the
    disk is untouched.  When raw filings for the prior quarter exist,
    the nested analyzer processes them and the call then stops with an
    [AttributeError]: the class has no [analyze_holdings] method, so no
    prior-quarter file is written and no diff is computed. *)
Theorem missing_prior_quarter_output
    (process_all_filings :
       Analyzer.analyzer → Analyzer.filesystem → result Analyzer.filesystem)
    (analyze_holdings :
       Analyzer.analyzer → Analyzer.filesystem →
       result (list Analyzer.security * list Analyzer.security
               * Analyzer.filesystem))
    (self : Analyzer.analyzer) (fs : Analyzer.filesystem)
    (current : list Analyzer.security) (q : Z) :
  Analyzer.quarter_number (Analyzer.quarter self) = Ok q →
  let prev_quarter := if q >? 1 then "Q" +:+ pretty (q - 1) else "Q4" in
  let prev_year :=
    if q >? 1 then Analyzer.year self else Analyzer.year self - 1 in
  let outcome :=
    Analyzer.calculate_quarterly_net_adds process_all_filings analyze_holdings
      self fs current in
  Analyzer.total_holdings_data fs !! (prev_quarter, prev_year) = None →
  (Analyzer.has_filings_for_quarter fs prev_quarter prev_year = false →
   outcome = Ok (current, fs)) ∧
  (Analyzer.has_filings_for_quarter fs prev_quarter prev_year = true →
   is_ok outcome = false ∧
   (∀ fs',
      process_all_filings (Analyzer.mkAnalyzer prev_quarter prev_year) fs
        = Ok fs' →
      outcome = Raise (AttributeError "analyze_holdings"))).
Proof.
  intros Hq prev_quarter prev_year outcome Hmissing.
  subst outcome. unfold Analyzer.calculate_quarterly_net_adds.
  rewrite Hq. simpl. fold prev_quarter prev_year. rewrite Hmissing.
  split; intros Hfilings; rewrite Hfilings; [done|].
  destruct (process_all_filings _ fs) as [fs1|e]; simpl; [|done].
  split; [done|]. by intros fs' _.
Qed.

(** A Q2 2025 run over a disk that holds one Q1 2025 filing and no
    output yet. *)
Lemma missing_prior_quarter_output_witness :
  let fs :=
    Analyzer.mkFilesystem
      [Analyzer.mkCikDir true
         (Some [Analyzer.mkFilingDir true
                  (Some (Analyzer.period_marker "Q1" 2025))])] ∅ in
  Analyzer.calculate_quarterly_net_adds
    (fun _ fs => Ok fs) (fun _ fs => Ok ([], [], fs))
    (Analyzer.mkAnalyzer "Q2" 2025) fs [sample_security]
  = Raise (AttributeError "analyze_holdings").
Proof.
  intros fs.
  refine (proj2 (proj2 (missing_prior_quarter_output
    (fun _ fs => Ok fs) (fun _ fs => Ok ([], [], fs))
    (Analyzer.mkAnalyzer "Q2" 2025) fs [sample_security] 2 eq_refl eq_refl)
    _) fs eq_refl).
  reflexivity.
Defined.

(** ** Filing analyzer: order, round trip, prior-quarter lookup *)

Section SortOrder.
Context {A : Type} (key : A → Z).

Let lt := fun x y => key x <? key y.
Let ge := fun x y => key y <= key x.

Lemma insert_desc_sorted (x : A) (l : list A) :
  StronglySorted ge l → StronglySorted ge (Analyzer.insert_desc lt x l).
Proof.
  induction 1 as [|y l Hs IH Hall]; simpl.
  - repeat constructor.
  - unfold lt at 1. destruct (Z.ltb_spec (key x) (key y)).
    + constructor; [done|].
      rewrite insert_desc_perm. constructor; [unfold ge; lia|done].
    + constructor; [by constructor|].
      constructor; [done|].
      eapply Forall_impl; [exact Hall|]. unfold ge. simpl. lia.
Qed.

Lemma sort_desc_sorted (l : list A) :
  StronglySorted ge (Analyzer.sort_desc lt l).
Proof.
  induction l as [|x l IH]; simpl; [constructor|].
  by apply insert_desc_sorted.
Qed.

(** Elements with the same key keep their relative order. *)
Lemma insert_desc_stable (k : Z) (x : A) (l : list A) :
  StronglySorted ge l →
  filter (fun y => key y = k) (Analyzer.insert_desc lt x l)
  = filter (fun y => key y = k) (x :: l).
Proof.
  induction 1 as [|y l Hs IH Hall]; simpl; [done|].
  unfold lt at 1. destruct (Z.ltb_spec (key x) (key y)); [|done].
  rewrite !filter_cons, IH, !filter_cons.
  destruct (decide (key y = k)), (decide (key x = k)); try done. lia.
Qed.

Lemma sort_desc_stable (k : Z) (l : list A) :
  filter (fun y => key y = k) (Analyzer.sort_desc lt l)
  = filter (fun y => key y = k) l.
Proof.
  induction l as [|x l IH]; simpl; [done|].
  rewrite insert_desc_stable by apply sort_desc_sorted.
  by rewrite !filter_cons, IH.
Qed.

End SortOrder.

(** X10. The net-additions list holds one record per current security
    and nothing else, ordered by net institutional change from the
    largest down; securities with the same net change stay in the order
    in which the current list had them. *)
Theorem net_adds_sorted_and_stable
    (data : Analyzer.prev_data) (current : list Analyzer.security) :
  let by_cusip := Analyzer.prev_positions_by_cusip data in
  let result := Analyzer.net_adds_against data current in
  result ≡ₚ Analyzer.quarterly_add by_cusip <$> current
  ∧ length result = length current
  ∧ StronglySorted
      (fun x y => Analyzer.net_change_key y <= Analyzer.net_change_key x)
      result
  ∧ ∀ k, filter (fun s => Analyzer.net_change_key s = k) result
         = filter (fun s => Analyzer.net_change_key s = k)
                  (Analyzer.quarterly_add by_cusip <$> current).
Proof.
  intros by_cusip result. subst result. unfold Analyzer.net_adds_against.
  fold by_cusip. split_and!.
  - apply sort_desc_perm.
  - by rewrite sort_desc_perm, length_fmap.
  - apply (sort_desc_sorted Analyzer.net_change_key).
  - intros k. apply (sort_desc_stable Analyzer.net_change_key).
Qed.

Section HolderCounts.
Import Analyzer.

Lemma size_difference_balance (X Y : gset string) :
  Z.of_nat (size (X ∖ Y)) - Z.of_nat (size (Y ∖ X))
  = Z.of_nat (size X) - Z.of_nat (size Y).
Proof.
  assert (size X = size (X ∖ Y) + size (X ∩ Y))%nat as HX.
  { rewrite <- size_union by set_solver. f_equal.
    apply set_eq. intros i. rewrite elem_of_union, elem_of_difference,
      elem_of_intersection. destruct (decide (i ∈ Y)); tauto. }
  assert (size Y = size (Y ∖ X) + size (X ∩ Y))%nat as HY.
  { rewrite <- size_union by set_solver. f_equal.
    apply set_eq. intros i. rewrite elem_of_union, elem_of_difference,
      elem_of_intersection. destruct (decide (i ∈ X)); tauto. }
  lia.
Qed.

End HolderCounts.

(** X11. The net institutional change of a security is the number of
    its distinct current holders minus the number of its prior holders,
    and [net_adds] repeats it. *)
Theorem net_change_is_holder_count_difference
    (by_cusip : gmap string Analyzer.prev_entry) (sec : Analyzer.security) :
  let prev := default Analyzer.no_prev_entry (by_cusip !! Analyzer.cusip sec) in
  ∃ c, Analyzer.changes (Analyzer.quarterly_add by_cusip sec) = Some c
       ∧ Analyzer.net_institutional_change c
         = Z.of_nat (size (list_to_set (Analyzer.holders sec) : gset string))
           - Z.of_nat (size (Analyzer.pe_holders prev))
       ∧ Analyzer.net_adds c = Analyzer.net_institutional_change c
       ∧ Analyzer.prev_num_holders c = Z.of_nat (size (Analyzer.pe_holders prev)).
Proof.
  intros prev. eexists. split; [reflexivity|]. simpl.
  split_and!; [|done..]. apply size_difference_balance.
Qed.

(** ** Filing analyzer: prior-quarter lookup, round trip, raw filings *)

Section PrevLookup.
Import Analyzer.

Lemma prev_positions_snoc (data : list json_security) security :
  prev_positions_by_cusip (data ++ [security])
  = match js_cusip security with
    | Some (String a r) =>
        <[String a r := prev_entry_of security]> (prev_positions_by_cusip data)
    | _ => prev_positions_by_cusip data
    end.
Proof.
  unfold prev_positions_by_cusip. rewrite foldl_snoc.
  by destruct (js_cusip security) as [[|a r]|].
Qed.

Lemma prev_positions_empty_cusip (data : list json_security) :
  prev_positions_by_cusip data !! "" = None.
Proof.
  induction data as [|security data IH] using rev_ind; [done|].
  rewrite prev_positions_snoc.
  destruct (js_cusip security) as [[|a r]|]; try done.
  by rewrite lookup_insert_ne.
Qed.

Lemma prev_positions_last (data : list json_security) i security c :
  data !! i = Some security →
  js_cusip security = Some c → c ≠ "" →
  (∀ j later, (i < j)%nat → data !! j = Some later → js_cusip later ≠ Some c) →
  prev_positions_by_cusip data !! c = Some (prev_entry_of security).
Proof.
  revert i. induction data as [|x data IH] using rev_ind; intros i Hi Hc Hne Hlater;
    [done|].
  rewrite prev_positions_snoc.
  destruct (decide (i = length data)) as [->|Hi'].
  - rewrite lookup_app_r, Nat.sub_diag in Hi by lia. injection Hi as ->.
    rewrite Hc. destruct c; [done|]. apply lookup_insert_eq.
  - assert (i < length data)%nat as Hlt.
    { apply lookup_lt_Some in Hi. rewrite length_app in Hi. simpl in Hi. lia. }
    rewrite lookup_app_l in Hi by done.
    assert (js_cusip x ≠ Some c) as Hx.
    { apply (Hlater (length data)); [done|].
      by rewrite lookup_app_r, Nat.sub_diag by lia. }
    assert (prev_positions_by_cusip data !! c = Some (prev_entry_of security)) as IH'.
    { apply (IH i); try done. intros j later Hj Hl.
      apply (Hlater j); [done|]. rewrite lookup_app_l; [done|].
      by apply lookup_lt_Some in Hl. }
    destruct (js_cusip x) as [[|a r]|]; try done.
    rewrite lookup_insert_ne; [done|congruence].
Qed.

End PrevLookup.

(** X12. The prior quarter is looked up by CUSIP with the last record
    winning: when the prior file lists a CUSIP more than once the
    current security is compared with the last of those records, and a
    prior record whose CUSIP is missing or empty is never compared with
    anything. *)
Theorem prior_record_last_one_wins
    (data : list Analyzer.json_security) (i : nat)
    (security : Analyzer.json_security) (c : string) :
  data !! i = Some security →
  Analyzer.js_cusip security = Some c → c ≠ "" →
  (∀ j later, (i < j)%nat → data !! j = Some later →
              Analyzer.js_cusip later ≠ Some c) →
  Analyzer.prev_positions_by_cusip data !! c = Some (prev_entry_of security)
  ∧ Analyzer.prev_positions_by_cusip data !! "" = None.
Proof.
  intros. split; [by eapply prev_positions_last|apply prev_positions_empty_cusip].
Qed.

(** Of two prior records with one CUSIP the second is the one used. *)
Lemma prior_record_last_one_wins_witness :
  Analyzer.prev_positions_by_cusip [sample_prior_first; sample_prior_last]
    !! "123456789" = Some (prev_entry_of sample_prior_last).
Proof.
  refine (proj1 (prior_record_last_one_wins
                   [sample_prior_first; sample_prior_last] 1
                   sample_prior_last "123456789" eq_refl eq_refl _ _)).
  - discriminate.
  - intros [|[|[|j]]] later Hj Hl; try lia; discriminate.
Defined.


Section RoundTrip.
Import Analyzer.

Lemma self_lookup (current : list security) (sec : security) :
  NoDup (cusip <$> current) →
  sec ∈ current → cusip sec ≠ "" →
  prev_positions_by_cusip (to_json_security <$> current) !! cusip sec
  = Some (prev_entry_of (to_json_security sec)).
Proof.
  intros Hnd Hin Hne.
  apply list_elem_of_lookup in Hin as [i Hi].
  apply (prev_positions_last _ i); [by rewrite list_lookup_fmap, Hi|done|done|].
  intros j later Hj Hl Hc. rewrite list_lookup_fmap in Hl.
  destruct (current !! j) as [s|] eqn:Hs; [|done]. injection Hl as <-.
  simpl in Hc. injection Hc as Hc.
  assert (i = j); [|lia].
  eapply NoDup_lookup; [exact Hnd| |]; rewrite list_lookup_fmap.
  - by rewrite Hi.
  - rewrite Hs. simpl. by rewrite Hc.
Qed.

Lemma self_changes_empty (sec : security) :
  let holders : gset string := list_to_set (Analyzer.holders sec) in
  institution_changes_of (positions sec)
    ((fun p => mkJsonPosition (Some (pp_shares p)) (Some (pp_value p)))
       <$> positions sec) holders holders = ∅.
Proof.
  intros holders. apply map_eq. intros i.
  rewrite institution_changes_lookup, lookup_empty.
  rewrite !bool_decide_eq_false_2 by set_solver.
  unfold current_shares_of, prev_shares_of. rewrite lookup_fmap.
  destruct (positions sec !! i); simpl; rewrite Z.sub_diag, andb_false_r; done.
Qed.

End RoundTrip.

(** X13. Writing a quarter's securities to [total_holdings_data.json]
    and diffing the same securities against that file finds no change:
    with distinct non-empty CUSIPs every record has zero share and
    value deltas, no new and no dropped holder, net change 0 and an
    empty institution-change map. *)
Theorem diff_against_own_output_is_empty
    (self : Analyzer.analyzer) (fs : Analyzer.filesystem)
    (current : list Analyzer.security) (sec : Analyzer.security) :
  NoDup (Analyzer.cusip <$> current) →
  Forall (fun s => Analyzer.cusip s ≠ "") current →
  sec ∈ current →
  let fs' := Analyzer.generate_json_output self current fs in
  ∃ data,
    Analyzer.total_holdings_data fs' !! (Analyzer.quarter self, Analyzer.year self)
      = Some data
    ∧ Analyzer.changes
        (Analyzer.quarterly_add (Analyzer.prev_positions_by_cusip data) sec)
      = Some (Analyzer.mkChanges 0 0 0 0 [] [] ∅
                (Analyzer.shares sec) (Analyzer.value sec)
                (Z.of_nat (size (list_to_set (Analyzer.holders sec) : gset string)))).
Proof.
  intros Hnd Hne Hin fs'. eexists. split.
  { simpl. apply lookup_insert_eq. }
  rewrite Forall_forall in Hne.
  unfold Analyzer.quarterly_add. rewrite (self_lookup current sec Hnd Hin (Hne _ Hin)).
  simpl. rewrite !Z.sub_diag, difference_diag_L, elements_empty.
  rewrite self_changes_empty. done.
Qed.

(** The sample security against its own quarter file. *)
Lemma diff_against_own_output_is_empty_witness :
  ∃ data,
    Analyzer.total_holdings_data
      (Analyzer.generate_json_output (Analyzer.mkAnalyzer "Q3" 2025)
         [sample_security] (Analyzer.mkFilesystem [] ∅)) !! ("Q3", 2025)
    = Some data
    ∧ Analyzer.changes
        (Analyzer.quarterly_add (Analyzer.prev_positions_by_cusip data)
           sample_security)
      = Some (Analyzer.mkChanges 0 0 0 0 [] [] ∅ 500 4500 1).
Proof.
  destruct (diff_against_own_output_is_empty (Analyzer.mkAnalyzer "Q3" 2025)
              (Analyzer.mkFilesystem [] ∅) [sample_security] sample_security)
    as (data & Hdata & Hchanges).
  - apply NoDup_singleton.
  - by repeat constructor.
  - apply list_elem_of_here.
  - exists data. split; [exact Hdata|]. rewrite Hchanges. by vm_compute.
Defined.


Section RawFilings.
Import Analyzer.

Lemma scan_filing_dirs_spec marker dirs n :
  let r := scan_filing_dirs marker dirs n in
  (n ≤ r.2)%nat
  ∧ ((n < r.2)%nat ↔ existsb (filing_counts marker) dirs = true)
  ∧ (r.1 = true → (n < r.2)%nat).
Proof.
  revert n. induction dirs as [|d dirs IH]; intros n; cbn -[Nat.leb].
  - split_and!; [lia| |done]. split; [lia|done].
  - unfold filing_counts at 1.
    destruct (fd_is_dir d); cbn -[Nat.leb]; [|apply IH].
    destruct (fd_submission d) as [content|]; [|apply IH].
    destruct (contains marker content); cbn -[Nat.leb]; [|apply IH].
    destruct (10 <=? S n)%nat; cbn -[Nat.leb].
    + split_and!; [lia| |lia]. split; [done|lia].
    + destruct (IH (S n)) as (H1 & H2 & H3).
      split_and!; [lia| |].
      * split; [done|lia].
      * intros Hr. specialize (H3 Hr). lia.
Qed.

Lemma scan_cik_dirs_spec marker dirs n :
  let r := scan_cik_dirs marker dirs n in
  (n ≤ r.2)%nat
  ∧ ((n < r.2)%nat ↔ existsb (cik_dir_counts marker) dirs = true)
  ∧ (r.1 = true → (n < r.2)%nat).
Proof.
  revert n. induction dirs as [|d dirs IH]; intros n; simpl.
  - split_and!; [lia| |done]. split; [lia|done].
  - unfold cik_dir_counts at 1.
    destruct (cd_is_dir d); simpl; [|apply IH].
    destruct (cd_13f_hr d) as [filing_dirs|]; [|apply IH].
    pose proof (scan_filing_dirs_spec marker filing_dirs n) as (H1 & H2 & H3).
    destruct (scan_filing_dirs marker filing_dirs n) as [returned count].
    simpl in *. destruct returned.
    + simpl. specialize (H3 eq_refl).
      split_and!; [lia| |done]. split; [|done].
      intros _. apply orb_true_iff. left. by apply H2.
    + destruct (IH count) as (G1 & G2 & G3).
      split_and!; [lia| |].
      * rewrite orb_true_iff, <- H2, <- G2. lia.
      * intros Hr. specialize (G3 Hr). lia.
Qed.

End RawFilings.

(** X14. [has_filings_for_quarter] answers yes exactly when some CIK
    directory holds, under [13F-HR], a filing directory whose
    submission text carries the period marker of the quarter; stopping
    at the tenth hit does not change the answer. *)
Theorem has_filings_iff_some_filing_matches
    (fs : Analyzer.filesystem) (quarter : string) (year : Z) :
  Analyzer.has_filings_for_quarter fs quarter year = true
  ↔ ∃ cik_dir filing_dirs filing content,
      cik_dir ∈ Analyzer.filings fs
      ∧ Analyzer.cd_is_dir cik_dir = true
      ∧ Analyzer.cd_13f_hr cik_dir = Some filing_dirs
      ∧ filing ∈ filing_dirs
      ∧ Analyzer.fd_is_dir filing = true
      ∧ Analyzer.fd_submission filing = Some content
      ∧ Analyzer.contains (Analyzer.period_marker quarter year) content = true.
Proof.
  unfold Analyzer.has_filings_for_quarter.
  pose proof (scan_cik_dirs_spec (Analyzer.period_marker quarter year)
                (Analyzer.filings fs) 0) as (_ & H2 & H3).
  destruct (Analyzer.scan_cik_dirs _ _ 0) as [returned count]. simpl in *.
  assert (returned || (0 <? count)%nat = true ↔ (0 < count)%nat) as ->.
  { rewrite orb_true_iff, Nat.ltb_lt. split; [intros [?|?]; auto|auto]. }
  rewrite H2, existsb_exists. split.
  - intros (cd & Hcd & Hm). unfold cik_dir_counts in Hm.
    apply andb_true_iff in Hm as [Hd Hm].
    destruct (Analyzer.cd_13f_hr cd) as [fds|] eqn:Hf; [|done].
    apply existsb_exists in Hm as (fd & Hfd & Hm). unfold filing_counts in Hm.
    apply andb_true_iff in Hm as [Hfdd Hm].
    destruct (Analyzer.fd_submission fd) as [content|] eqn:Hs; [|done].
    exists cd, fds, fd, content. rewrite !list_elem_of_In. done.
  - intros (cd & fds & fd & content & Hcd & Hd & Hf & Hfd & Hfdd & Hs & Hm).
    exists cd. rewrite <- list_elem_of_In. split; [done|].
    unfold cik_dir_counts. rewrite Hd, Hf. simpl.
    apply existsb_exists. exists fd. rewrite <- list_elem_of_In. split; [done|].
    unfold filing_counts. by rewrite Hfdd, Hs.
Qed.

(** ** Dashboard data loading *)

Section DashboardFacts.
Import Dashboard.

Lemma is_stale_spec year current_quarter max_age_days period :
  is_stale year current_quarter max_age_days period = true ↔
  (period_year period < year
   ∨ (period_year period = year ∧ period_quarter period < current_quarter))
  ∧ ((year - period_year period) * 4
     + (current_quarter - period_quarter period)) * 92 > max_age_days.
Proof.
  unfold is_stale, DAYS_PER_QUARTER.
  destruct (Z.ltb_spec (period_year period) year);
    destruct (Z.eqb_spec (period_year period) year);
    destruct (Z.ltb_spec (period_quarter period) current_quarter); simpl;
    try (split; [done | intros [[?|[? ?]] _]; lia]);
    (destruct (Z.gtb_spec
       (((year - period_year period) * 4
         + (current_quarter - period_quarter period)) * 92) max_age_days);
     split; [intros _; split; [|lia] | done | done | intros [_ ?]; lia]);
    lia.
Qed.

Lemma elem_of_stale_institutions year current_quarter max_age_days
    (filing_periods : gmap string filing_period) (inst : string) :
  inst ∈ stale_institutions year current_quarter max_age_days filing_periods ↔
  ∃ period, filing_periods !! inst = Some period
            ∧ is_stale year current_quarter max_age_days period = true.
Proof.
  unfold stale_institutions.
  apply (map_fold_weak_ind
    (fun (stale : gset string) (m : gmap string filing_period) =>
       inst ∈ stale ↔ ∃ period, m !! inst = Some period
                      ∧ is_stale year current_quarter max_age_days period = true)).
  - rewrite elem_of_empty. split; [done|]. intros (p & Hp & _).
    by rewrite lookup_empty in Hp.
  - intros k p m stale Hfresh IH.
    destruct (decide (inst = k)) as [->|Hne].
    + rewrite lookup_insert_eq.
      destruct (is_stale year current_quarter max_age_days p) eqn:Hs.
      * split; [eauto|set_solver].
      * rewrite IH, Hfresh. split; [by intros (? & ? & _)|].
        intros (? & [= <-] & ?). congruence.
    + rewrite lookup_insert_ne by done.
      destruct (is_stale year current_quarter max_age_days p); [|done].
      rewrite <- IH. set_solver.
Qed.


End DashboardFacts.




(** ** Dashboard loading: accounting, the default threshold, replay *)

Section DashboardAccounting.
Import Dashboard.

(** A filer of the loaded quarter is never stale, whatever the limit. *)
Lemma current_filer_not_stale year current_quarter max_age_days period :
  period_quarter period = current_quarter → period_year period = year →
  is_stale year current_quarter max_age_days period = false.
Proof.
  intros <- <-. unfold is_stale.
  by rewrite !Z.ltb_irrefl, Z.eqb_refl.
Qed.

Lemma stale_institutions_dom year current_quarter max_age_days
    (filing_periods : gmap string filing_period) :
  stale_institutions year current_quarter max_age_days filing_periods
  ⊆ dom filing_periods.
Proof.
  intros inst [p [Hp _]]%elem_of_stale_institutions.
  apply elem_of_dom. eauto.
Qed.

Lemma filter_security_idem stale sec sec' :
  filter_security stale sec = Some sec' →
  filter_security stale sec' = Some sec'.
Proof.
  unfold filter_security at 1.
  destruct (positions sec) as [held|] eqn:Hpos.
  - case_bool_decide as Hempty.
    + intros [= <-]. unfold filter_security. by rewrite Hpos, bool_decide_eq_true_2.
    + case_bool_decide as Hrem; [done|]. intros [= <-].
      unfold filter_security. simpl.
      rewrite bool_decide_eq_false_2 by done.
      assert (filter (fun kv : string * Analyzer.json_position => kv.1 ∉ stale)
                (filter (fun kv : string * Analyzer.json_position => kv.1 ∉ stale) held)
              = filter (fun kv : string * Analyzer.json_position => kv.1 ∉ stale) held)
        as ->.
      { apply map_filter_id. intros i x Hx.
        by apply map_lookup_filter_Some in Hx as [_ ?]. }
      by rewrite bool_decide_eq_false_2.
  - intros [= <-]. unfold filter_security. by rewrite Hpos.
Qed.

Lemma omap_filter_security_idem stale (securities : list security) :
  omap (filter_security stale) (omap (filter_security stale) securities)
  = omap (filter_security stale) securities.
Proof.
  induction securities as [|sec rest IH]; [done|]. simpl.
  destruct (filter_security stale sec) as [sec'|] eqn:Hf; [|exact IH].
  simpl. rewrite (filter_security_idem _ _ _ Hf). f_equal. exact IH.
Qed.

End DashboardAccounting.

(** X18. The institution counts that [load_holdings_data] writes into
    the metadata account for every institution of [filing_periods]:
    kept plus excluded is the total, the filers of the loaded quarter
    are among the kept ones, and since a filer of the loaded quarter is
    never stale their count is simply the number of institutions whose
    period is the loaded quarter. *)
Theorem breakdown_accounts_for_every_institution
    (max_age_days : Z) (quarter : string) (year : Z)
    (filing_periods : gmap string Dashboard.filing_period)
    (securities kept : list Dashboard.security)
    (breakdown : Dashboard.institution_breakdown) :
  Dashboard.load_holdings_data max_age_days quarter year filing_periods
    securities = Ok (kept, breakdown) →
  Dashboard.filtered_total breakdown + Dashboard.excluded_stale breakdown
    = Z.of_nat (size filing_periods)
  ∧ 0 <= Dashboard.excluded_stale breakdown <= Z.of_nat (size filing_periods)
  ∧ 0 <= Dashboard.filtered_current_quarter breakdown
      <= Dashboard.filtered_total breakdown
  ∧ ∃ current_quarter,
      Analyzer.quarter_number quarter = Ok current_quarter
      ∧ Dashboard.filtered_current_quarter breakdown
        = Z.of_nat (size (filter
            (fun kv : string * Dashboard.filing_period =>
               Dashboard.period_quarter kv.2 = current_quarter
               ∧ Dashboard.period_year kv.2 = year) filing_periods)).
Proof.
  unfold Dashboard.load_holdings_data.
  destruct (Analyzer.quarter_number quarter) as [current_quarter|e] eqn:Hq;
    [|done].
  simpl. intros [= <- <-]. simpl.
  set (stale := Dashboard.stale_institutions year current_quarter max_age_days
                  filing_periods).
  set (current := filter _ filing_periods).
  pose proof (stale_institutions_dom year current_quarter max_age_days
                filing_periods) as Hsub. fold stale in Hsub.
  pose proof (subseteq_size _ _ Hsub) as Hsize. rewrite size_dom in Hsize.
  assert (dom current ⊆ dom filing_periods ∖ stale) as Hcur.
  { intros inst [p Hp]%elem_of_dom.
    apply map_lookup_filter_Some in Hp as [Hp (_ & _ & Hns)].
    apply elem_of_difference. split; [|done]. apply elem_of_dom. eauto. }
  apply subseteq_size in Hcur.
  rewrite size_dom, size_difference, size_dom in Hcur by done.
  split_and!; try lia.
  exists current_quarter. split; [done|]. f_equal. f_equal.
  apply map_filter_ext. intros inst p Hp. simpl. split; [tauto|].
  intros [Hpq Hpy]. split_and!; try done.
  intros [p' [Hp' Hs]]%elem_of_stale_institutions.
  rewrite Hp in Hp'. injection Hp' as <-.
  by rewrite current_filer_not_stale in Hs.
Qed.

(** Seen from Q3 2025, one of three institutions is a year and a half
    behind. *)
Lemma breakdown_accounts_for_every_institution_witness :
  Dashboard.load_holdings_data Dashboard.default_max_data_age_days "Q3" 2025
    sample_filing_periods [sample_dashboard_security]
  = Ok ([sample_filtered_security], Dashboard.mkBreakdown 2 1 1)
  ∧ Dashboard.filtered_total (Dashboard.mkBreakdown 2 1 1)
      + Dashboard.excluded_stale (Dashboard.mkBreakdown 2 1 1)
    = Z.of_nat (size sample_filing_periods).
Proof.
  assert (Dashboard.load_holdings_data Dashboard.default_max_data_age_days
            "Q3" 2025 sample_filing_periods [sample_dashboard_security]
          = Ok ([sample_filtered_security], Dashboard.mkBreakdown 2 1 1)) as H
    by (vm_compute; reflexivity).
  split; [exact H|].
  exact (proj1 (breakdown_accounts_for_every_institution _ _ _ _ _ _ _ H)).
Defined.

(** X19. With the default limit of 365 days and quarters numbered 1 to
    4, an institution is stale exactly when its last filing is four or
    more quarters behind the loaded quarter: 3 quarters count as 276
    days, 4 quarters as 368, so a filer whose latest report is for the
    same quarter of the previous year is already excluded. *)
Theorem default_limit_is_four_quarters
    (year current_quarter : Z) (period : Dashboard.filing_period) :
  1 <= current_quarter <= 4 →
  1 <= Dashboard.period_quarter period <= 4 →
  (Dashboard.is_stale year current_quarter Dashboard.default_max_data_age_days
     period = true
   ↔ 4 <= (year - Dashboard.period_year period) * 4
          + (current_quarter - Dashboard.period_quarter period))
  ∧ Dashboard.is_stale year current_quarter
      Dashboard.default_max_data_age_days
      (Dashboard.mkPeriod (year - 1) current_quarter) = true.
Proof.
  intros Hq Hp. unfold Dashboard.default_max_data_age_days.
  split.
  - rewrite is_stale_spec. lia.
  - apply is_stale_spec. simpl. lia.
Qed.

Lemma default_limit_is_four_quarters_witness :
  Dashboard.is_stale 2025 3 Dashboard.default_max_data_age_days
    (Dashboard.mkPeriod 2024 3) = true.
Proof.
  refine (proj2 (proj1 (default_limit_is_four_quarters 2025 3
                          (Dashboard.mkPeriod 2024 3) _ _)) _);
    simpl; lia.
Defined.

(** X20. Loading is a projection: feeding the securities that
    [load_holdings_data] returned through it again, with the same
    quarter, limit and filing periods, returns them unchanged with the
    same institution counts. *)
Theorem load_holdings_data_replay
    (max_age_days : Z) (quarter : string) (year : Z)
    (filing_periods : gmap string Dashboard.filing_period)
    (securities kept : list Dashboard.security)
    (breakdown : Dashboard.institution_breakdown) :
  Dashboard.load_holdings_data max_age_days quarter year filing_periods
    securities = Ok (kept, breakdown) →
  Dashboard.load_holdings_data max_age_days quarter year filing_periods kept
  = Ok (kept, breakdown).
Proof.
  unfold Dashboard.load_holdings_data.
  destruct (Analyzer.quarter_number quarter) as [current_quarter|e]; [|done].
  simpl. intros [= <- <-]. by rewrite omap_filter_security_idem.
Qed.

Lemma load_holdings_data_replay_witness :
  Dashboard.load_holdings_data Dashboard.default_max_data_age_days "Q3" 2025
    sample_filing_periods [sample_filtered_security]
  = Ok ([sample_filtered_security], Dashboard.mkBreakdown 2 1 1).
Proof.
  apply (load_holdings_data_replay _ _ _ _ [sample_dashboard_security]).
  vm_compute. reflexivity.
Defined.

(** ** Investor categories *)

(** X29. [get_methodology_category] always answers one of the eight
    methodology categories, never the placeholder of the mapping, for
    any firm name and any original type, known or not.  The answer is
    Passive/Index exactly for an asset manager whose firm name contains
    one of the seven passive firms' names. *)
Theorem methodology_category_is_closed (firm_name original_type : string) :
  Methodology.get_methodology_category firm_name original_type
    ∈ Methodology.categories
  ∧ (Methodology.get_methodology_category firm_name original_type
     = "Passive/Index"
     ↔ original_type = "Asset Manager"
       ∧ ∃ p, p ∈ Methodology.passive_firms
              ∧ Analyzer.contains p firm_name = true).
Proof.
  unfold Methodology.get_methodology_category.
  destruct (String.eqb original_type "Asset Manager") eqn:Htype.
  - apply String.eqb_eq in Htype.
    destruct (existsb _ Methodology.passive_firms) eqn:Hp.
    + split; [|split; [intros _; split; [done|]|done]].
      * unfold Methodology.categories.
        repeat first [apply list_elem_of_here | apply list_elem_of_further].
      * apply existsb_exists in Hp as (p & Hin & Hc).
        exists p. by rewrite list_elem_of_In.
    + split; [|split; [done|]].
      * unfold Methodology.categories.
        repeat first [apply list_elem_of_here | apply list_elem_of_further].
      * intros (_ & p & Hin & Hc). exfalso.
        assert (existsb (fun p => Analyzer.contains p firm_name)
                  Methodology.passive_firms = true) as Hex.
        { apply existsb_exists. exists p. by rewrite <- list_elem_of_In. }
        congruence.
  - assert (original_type ≠ "Asset Manager") as Hne.
    { intros ->. by rewrite String.eqb_refl in Htype. }
    unfold Methodology.INVESTOR_TYPE_MAPPING, Methodology.get.
    rewrite Htype.
    repeat match goal with
    | |- context [String.eqb original_type ?s] =>
        destruct (String.eqb original_type s)
    end;
      (split;
       [unfold Methodology.categories; simpl;
        repeat first [apply list_elem_of_here | apply list_elem_of_further]
       |split; [simpl; discriminate|intros [? _]; done]]).
Qed.
(** ** Complete-chain mapper: composing the chain *)

Section MapSum.
Context {V : Type} (f : V → Z).

Lemma map_sum_empty : map_sum f (∅ : gmap string V) = 0.
Proof. apply map_fold_empty. Qed.

Lemma map_sum_insert_None (m : gmap string V) k v :
  m !! k = None → map_sum f (<[k := v]> m) = f v + map_sum f m.
Proof.
  intros Hk. unfold map_sum. rewrite map_fold_insert_L; [done| |done].
  intros. lia.
Qed.

Lemma map_sum_insert_Some (m : gmap string V) k v v0 :
  m !! k = Some v0 → map_sum f (<[k := v]> m) = f v - f v0 + map_sum f m.
Proof.
  intros Hk. rewrite <- (insert_delete_id m k v0 Hk) at 2.
  rewrite <- insert_delete_eq.
  rewrite !map_sum_insert_None by apply lookup_delete_eq. lia.
Qed.

End MapSum.

Section ChainBuilderFacts.
Import ChainBuilder.
Variable upper : string → string.
Variable parse_date : string → option ChainMapper.date.
Variable clock : string → ChainMapper.datetime.
Variable ticker_to_cik : gmap string ticker_entry.
Variable cik_to_shares : gmap string shares_entry.

Let step := step upper parse_date clock ticker_to_cik cik_to_shares.
Let chain := chain upper parse_date clock ticker_to_cik cik_to_shares.

(** One iteration: an entry is written exactly when the chain holds,
    and exactly one counter moves unless the ticker or the CIK is
    empty. *)
Lemma step_spec cusip ticker st :
  cusip_to_shares (step cusip ticker st)
  = match chain cusip ticker with
    | Some e => <[cusip := e]> (cusip_to_shares st)
    | None => cusip_to_shares st
    end
  ∧ successful_mappings (step cusip ticker st)
    = successful_mappings st + (if chain cusip ticker is Some _ then 1 else 0)
  ∧ 0 <= (missing_ticker_to_cik (step cusip ticker st) - missing_ticker_to_cik st)
         + (missing_cik_to_shares (step cusip ticker st) - missing_cik_to_shares st)
         + (invalid_shares_data (step cusip ticker st) - invalid_shares_data st)
      <= (if chain cusip ticker is Some _ then 0 else 1)
  ∧ map_sum id (validation_reasons (step cusip ticker st))
      - map_sum id (validation_reasons st)
    = invalid_shares_data (step cusip ticker st) - invalid_shares_data st.
Proof.
  unfold step, chain, ChainBuilder.step, ChainBuilder.chain.
  destruct ticker as [|a ticker]; [simpl; split_and!; lia || done|].
  destruct (ticker_to_cik !! upper (String a ticker)) as [td|]; simpl;
    [|split_and!; lia || done].
  destruct (te_cik td) as [[|b cik]|]; simpl; [split_and!; lia || done| |split_and!; lia || done].
  destruct (cik_to_shares !! String b cik) as [sd|]; simpl;
    [|split_and!; lia || done].
  destruct (ChainMapper.is_valid_shares_data _ _ _ _) as [[] reason]; simpl.
  - split_and!; lia || done.
  - split_and!; try (lia || done).
    destruct (validation_reasons st !! reason_text reason) as [n|] eqn:Hn; simpl.
    + rewrite (map_sum_insert_Some id _ _ _ n Hn). unfold id. lia.
    + rewrite (map_sum_insert_None id _ _ _ Hn). unfold id. lia.
Qed.

(** The loop invariant of [build_complete_mapping]. *)
Lemma build_complete_mapping_invariant (cusip_to_ticker : gmap string string) :
  let st := build_complete_mapping upper parse_date clock ticker_to_cik
              cik_to_shares cusip_to_ticker in
  (∀ cusip, cusip_to_shares st !! cusip
            = (cusip_to_ticker !! cusip) ≫= chain cusip)
  ∧ successful_mappings st = Z.of_nat (size (cusip_to_shares st))
  ∧ 0 <= missing_ticker_to_cik st ∧ 0 <= missing_cik_to_shares st
  ∧ 0 <= invalid_shares_data st
  ∧ successful_mappings st + missing_ticker_to_cik st
      + missing_cik_to_shares st + invalid_shares_data st
    <= Z.of_nat (size cusip_to_ticker)
  ∧ map_sum id (validation_reasons st) = invalid_shares_data st.
Proof.
  intros st. subst st. unfold build_complete_mapping.
  apply (map_fold_weak_ind (fun st (m : gmap string string) =>
    (∀ cusip, cusip_to_shares st !! cusip = (m !! cusip) ≫= chain cusip)
    ∧ successful_mappings st = Z.of_nat (size (cusip_to_shares st))
    ∧ 0 <= missing_ticker_to_cik st ∧ 0 <= missing_cik_to_shares st
    ∧ 0 <= invalid_shares_data st
    ∧ successful_mappings st + missing_ticker_to_cik st
        + missing_cik_to_shares st + invalid_shares_data st
      <= Z.of_nat (size m)
    ∧ map_sum id (validation_reasons st) = invalid_shares_data st)).
  - simpl. rewrite map_sum_empty, !map_size_empty.
    split_and!; done.
  - intros cusip ticker m st Hfresh (Hlook & Hsucc & H1 & H2 & H3 & Hsum & Hreasons).
    fold (step cusip ticker st).
    destruct (step_spec cusip ticker st) as (Hmap & Hs & Hc & Hr).
    assert (cusip_to_shares st !! cusip = None) as Hnone
      by (by rewrite Hlook, Hfresh).
    rewrite map_size_insert_None by done.
    split_and!.
    + intros c. rewrite Hmap. destruct (decide (c = cusip)) as [->|Hne].
      * rewrite lookup_insert_eq. simpl.
        destruct (chain cusip ticker); [by rewrite lookup_insert_eq|done].
      * rewrite lookup_insert_ne by done. rewrite <- Hlook.
        destruct (chain cusip ticker); [by rewrite lookup_insert_ne|done].
    + rewrite Hs, Hmap. destruct (chain cusip ticker).
      * rewrite map_size_insert_None by done. lia.
      * lia.
    + unfold step, ChainBuilder.step.
      repeat (case_match; simpl; try lia).
    + unfold step, ChainBuilder.step.
      repeat (case_match; simpl; try lia).
    + unfold step, ChainBuilder.step.
      repeat (case_match; simpl; try lia).
    + destruct (chain cusip ticker); lia.
    + lia.
Qed.

End ChainBuilderFacts.

Section ValidityFacts.
Import ChainMapper.

(** A record that passes has a real share count and a date. *)
Lemma valid_record parse_date now so sd :
  (is_valid_shares_data parse_date now so sd).1 = true →
  100000 <= so ∧ (so ∉ placeholder_values)
  ∧ (∃ c rest, sd = Some (String c rest))
  ∧ is_valid_shares_data parse_date now so sd = (true, Valid).
Proof.
  intros Hv.
  destruct (decide (so ∈ placeholder_values ∨ so < 100000)) as [Hg|Hg].
  { by rewrite share_count_guards in Hv. }
  assert ((so ∉ placeholder_values) ∧ 100000 <= so) as [Hp Hge] by (split; [tauto|lia]).
  rewrite share_count_passes in Hv |- * by done.
  split_and!; [done..| |].
  - destruct sd as [[|c rest]|]; [done| |done]. eauto.
  - destruct sd as [[|c rest]|]; [done| |done].
    destruct (parse_date _); [|done].
    destruct (_ >? _); [done|]. by destruct (String.ltb _ _).
Qed.

End ValidityFacts.

(** The entries of the mapping, read off the loop invariant. *)
Lemma build_complete_mapping_lookup
    (upper : string → string)
    (parse_date : string → option ChainMapper.date)
    (clock : string → ChainMapper.datetime)
    (ticker_to_cik : gmap string ChainBuilder.ticker_entry)
    (cik_to_shares : gmap string ChainBuilder.shares_entry)
    (cusip_to_ticker : gmap string string)
    (cusip : string) (e : ChainBuilder.mapping_entry) :
  ChainBuilder.cusip_to_shares
    (ChainBuilder.build_complete_mapping upper parse_date clock ticker_to_cik
       cik_to_shares cusip_to_ticker) !! cusip = Some e
  ↔ ∃ ticker ticker_data cik shares_data,
      cusip_to_ticker !! cusip = Some ticker ∧ ticker ≠ "" ∧
      ticker_to_cik !! upper ticker = Some ticker_data ∧
      ChainBuilder.te_cik ticker_data = Some cik ∧ cik ≠ "" ∧
      cik_to_shares !! cik = Some shares_data ∧
      ChainMapper.is_valid_shares_data parse_date (clock cusip)
        (ChainBuilder.se_shares_outstanding shares_data)
        (ChainBuilder.se_shares_date shares_data) = (true, ChainMapper.Valid) ∧
      e = ChainBuilder.mkMappingEntry cusip (upper ticker) cik
            (ChainBuilder.te_company_name ticker_data)
            (ChainBuilder.se_entity_name shares_data)
            (ChainBuilder.se_shares_outstanding shares_data)
            (ChainBuilder.se_shares_date shares_data)
            (ChainBuilder.se_last_updated shares_data).
Proof.
  destruct (build_complete_mapping_invariant upper parse_date clock
              ticker_to_cik cik_to_shares cusip_to_ticker) as [Hlook _].
  rewrite Hlook. unfold ChainBuilder.chain.
  split.
  - destruct (cusip_to_ticker !! cusip) as [[|a ticker]|] eqn:Ht; simpl;
      [done| |done].
    destruct (ticker_to_cik !! upper (String a ticker)) as [td|] eqn:Htd; simpl;
      [|done].
    destruct (ChainBuilder.te_cik td) as [cik|] eqn:Hcik; simpl; [|done].
    destruct (String.eqb_spec cik ""); [done|].
    destruct (cik_to_shares !! cik) as [sd|] eqn:Hsd; simpl; [|done].
    destruct (ChainMapper.is_valid_shares_data _ _ _ _).1 eqn:Hv; [|done].
    intros [= <-]. apply valid_record in Hv as (_ & _ & _ & Hv).
    exists (String a ticker), td, cik, sd. split_and!; done.
  - intros (ticker & td & cik & sd & Ht & Hne & Htd & Hcik & Hcne & Hsd & Hv & ->).
    rewrite Ht. simpl. destruct ticker as [|a ticker]; [done|].
    rewrite Htd. simpl. rewrite Hcik. simpl.
    destruct (String.eqb_spec cik ""); [done|].
    rewrite Hsd. simpl. by rewrite Hv.
Qed.

Lemma build_complete_mapping_entry_valid
    (upper : string → string)
    (parse_date : string → option ChainMapper.date)
    (clock : string → ChainMapper.datetime)
    (ticker_to_cik : gmap string ChainBuilder.ticker_entry)
    (cik_to_shares : gmap string ChainBuilder.shares_entry)
    (cusip_to_ticker : gmap string string)
    (cusip : string) (e : ChainBuilder.mapping_entry) :
  ChainBuilder.cusip_to_shares
    (ChainBuilder.build_complete_mapping upper parse_date clock ticker_to_cik
       cik_to_shares cusip_to_ticker) !! cusip = Some e →
  ChainBuilder.me_cusip e = cusip
  ∧ 100000 <= ChainBuilder.me_shares_outstanding e
  ∧ (ChainBuilder.me_shares_outstanding e ∉ ChainMapper.placeholder_values)
  ∧ ∃ c rest, ChainBuilder.me_shares_date e = Some (String c rest).
Proof.
  intros He. apply build_complete_mapping_lookup in He
    as (ticker & td & cik & sd & _ & _ & _ & _ & _ & _ & Hv & ->).
  simpl. assert ((ChainMapper.is_valid_shares_data parse_date (clock cusip)
                    (ChainBuilder.se_shares_outstanding sd)
                    (ChainBuilder.se_shares_date sd)).1 = true) as Hv1
    by (by rewrite Hv).
  apply valid_record in Hv1 as (? & ? & ? & _). done.
Qed.

(** X5. [build_complete_mapping] maps a CUSIP exactly when its whole
    chain holds: a non-empty ticker, the upper-cased ticker's entry with
    a non-empty CIK, that CIK's shares record, and a record that passes
    [is_valid_shares_data]; the entry then carries the upper-cased
    ticker, the CIK and the record's share count and date. *)
Theorem complete_mapping_follows_chain
    (upper : string → string)
    (parse_date : string → option ChainMapper.date)
    (clock : string → ChainMapper.datetime)
    (ticker_to_cik : gmap string ChainBuilder.ticker_entry)
    (cik_to_shares : gmap string ChainBuilder.shares_entry)
    (cusip_to_ticker : gmap string string)
    (cusip : string) (e : ChainBuilder.mapping_entry) :
  ChainBuilder.cusip_to_shares
    (ChainBuilder.build_complete_mapping upper parse_date clock ticker_to_cik
       cik_to_shares cusip_to_ticker) !! cusip = Some e
  ↔ ∃ ticker ticker_data cik shares_data,
      cusip_to_ticker !! cusip = Some ticker ∧ ticker ≠ "" ∧
      ticker_to_cik !! upper ticker = Some ticker_data ∧
      ChainBuilder.te_cik ticker_data = Some cik ∧ cik ≠ "" ∧
      cik_to_shares !! cik = Some shares_data ∧
      ChainMapper.is_valid_shares_data parse_date (clock cusip)
        (ChainBuilder.se_shares_outstanding shares_data)
        (ChainBuilder.se_shares_date shares_data) = (true, ChainMapper.Valid) ∧
      e = ChainBuilder.mkMappingEntry cusip (upper ticker) cik
            (ChainBuilder.te_company_name ticker_data)
            (ChainBuilder.se_entity_name shares_data)
            (ChainBuilder.se_shares_outstanding shares_data)
            (ChainBuilder.se_shares_date shares_data)
            (ChainBuilder.se_last_updated shares_data).
Proof. apply build_complete_mapping_lookup. Qed.

(** X6. Every entry of the complete mapping has at least 100,000
    shares outstanding, none of the placeholder counts, and a non-empty
    as-of date. *)
Theorem complete_mapping_entries_are_valid
    (upper : string → string)
    (parse_date : string → option ChainMapper.date)
    (clock : string → ChainMapper.datetime)
    (ticker_to_cik : gmap string ChainBuilder.ticker_entry)
    (cik_to_shares : gmap string ChainBuilder.shares_entry)
    (cusip_to_ticker : gmap string string)
    (cusip : string) (e : ChainBuilder.mapping_entry) :
  ChainBuilder.cusip_to_shares
    (ChainBuilder.build_complete_mapping upper parse_date clock ticker_to_cik
       cik_to_shares cusip_to_ticker) !! cusip = Some e →
  ChainBuilder.me_cusip e = cusip
  ∧ 100000 <= ChainBuilder.me_shares_outstanding e
  ∧ (ChainBuilder.me_shares_outstanding e ∉ ChainMapper.placeholder_values)
  ∧ ∃ c rest, ChainBuilder.me_shares_date e = Some (String c rest).
Proof. apply build_complete_mapping_entry_valid. Qed.

(** The sample chain yields the sample entry, with its two million
    shares. *)
Lemma complete_mapping_entries_are_valid_witness :
  ChainBuilder.cusip_to_shares
    (ChainBuilder.build_complete_mapping (fun s => s) ChainMapper.fromisoformat
       sample_clock sample_ticker_to_cik sample_cik_to_shares
       sample_cusip_to_ticker) !! "123456789" = Some sample_mapping_entry
  ∧ 100000 <= ChainBuilder.me_shares_outstanding sample_mapping_entry.
Proof.
  assert (ChainBuilder.cusip_to_shares
            (ChainBuilder.build_complete_mapping (fun s => s)
               ChainMapper.fromisoformat sample_clock sample_ticker_to_cik
               sample_cik_to_shares sample_cusip_to_ticker) !! "123456789"
          = Some sample_mapping_entry) as H by (vm_compute; reflexivity).
  split; [exact H|].
  exact (proj1 (proj2 (complete_mapping_entries_are_valid _ _ _ _ _ _ _ _ H))).
Defined.


(** X7. The counters of [build_complete_mapping] add up: the number
    of successful mappings is the size of the mapping; successes and
    the three kinds of misses together never exceed the number of
    CUSIPs (a CUSIP with an empty ticker or an empty CIK is counted
    nowhere); and the per-reason tallies sum to the invalid count. *)
Theorem complete_mapping_counters
    (upper : string → string)
    (parse_date : string → option ChainMapper.date)
    (clock : string → ChainMapper.datetime)
    (ticker_to_cik : gmap string ChainBuilder.ticker_entry)
    (cik_to_shares : gmap string ChainBuilder.shares_entry)
    (cusip_to_ticker : gmap string string) :
  let st := ChainBuilder.build_complete_mapping upper parse_date clock
              ticker_to_cik cik_to_shares cusip_to_ticker in
  ChainBuilder.successful_mappings st
    = Z.of_nat (size (ChainBuilder.cusip_to_shares st))
  ∧ 0 <= ChainBuilder.missing_ticker_to_cik st
  ∧ 0 <= ChainBuilder.missing_cik_to_shares st
  ∧ 0 <= ChainBuilder.invalid_shares_data st
  ∧ ChainBuilder.successful_mappings st + ChainBuilder.missing_ticker_to_cik st
      + ChainBuilder.missing_cik_to_shares st + ChainBuilder.invalid_shares_data st
    <= Z.of_nat (size cusip_to_ticker)
  ∧ map_sum id (ChainBuilder.validation_reasons st)
    = ChainBuilder.invalid_shares_data st
  ∧ dom (ChainBuilder.cusip_to_shares st) ⊆ dom cusip_to_ticker.
Proof.
  intros st.
  destruct (build_complete_mapping_invariant upper parse_date clock
              ticker_to_cik cik_to_shares cusip_to_ticker)
    as (Hlook & Hs & H1 & H2 & H3 & Hsum & Hr).
  fold st in Hlook, Hs, H1, H2, H3, Hsum, Hr.
  split_and!; try done.
  intros c [e He]%elem_of_dom. rewrite Hlook in He.
  apply elem_of_dom. destruct (cusip_to_ticker !! c); [eauto|done].
Qed.

(** ** Filing analyzer: aggregation and filing periods *)

Section AggregatorFacts.
Import Aggregator.

Lemma new_holding_balanced : balanced new_holding.
Proof.
  unfold balanced, new_holding. simpl. rewrite !map_sum_empty.
  split_and!; [done|done|constructor|].
  intros inst. rewrite lookup_empty, elem_of_nil. split; [done|by intros []].
Qed.

Lemma map_sum_upsert {V} (f : V → Z) (m : gmap string V) k (zero v : V) :
  f zero = 0 →
  map_sum f (<[k := v]> m) = map_sum f m + (f v - f (default zero (m !! k))).
Proof.
  intros Hz. destruct (m !! k) as [v0|] eqn:Hk; simpl.
  - rewrite (map_sum_insert_Some f m k v v0 Hk). lia.
  - rewrite (map_sum_insert_None f m k v Hk). lia.
Qed.

Lemma add_holding_balanced company holding current :
  (∀ c d, current !! c = Some d → balanced d) →
  ∀ c d, add_holding company holding current !! c = Some d → balanced d.
Proof.
  intros Hall c d. unfold add_holding.
  destruct (decide (c = ph_cusip holding)) as [->|Hne];
    [|rewrite lookup_insert_ne by done; apply Hall].
  rewrite lookup_insert_eq. intros [= <-].
  assert (balanced (default new_holding (current !! ph_cusip holding)))
    as (Hs & Hv & Hnd & Hmem).
  { destruct (current !! ph_cusip holding) eqn:Hc; simpl;
      [by eapply Hall|apply new_holding_balanced]. }
  set (data := default new_holding (current !! ph_cusip holding)) in *.
  unfold balanced. simpl. split_and!.
  - rewrite (map_sum_upsert Analyzer.pos_shares _ _ (Analyzer.mkPosition 0 0)) by done.
    simpl. lia.
  - rewrite (map_sum_upsert Analyzer.pos_value _ _ (Analyzer.mkPosition 0 0)) by done.
    simpl. lia.
  - case_bool_decide as Hin; [done|].
    apply NoDup_app. split_and!; [done| |apply NoDup_singleton].
    intros x Hx ->%list_elem_of_singleton. done.
  - intros inst. destruct (decide (inst = company)) as [->|Hi].
    + rewrite lookup_insert_eq. split; [eauto|intros _].
      case_bool_decide; [done|]. apply elem_of_app. right. by left.
    + rewrite lookup_insert_ne by done. rewrite <- Hmem.
      case_bool_decide; [done|]. rewrite elem_of_app, list_elem_of_singleton.
      tauto.
Qed.

Lemma aggregate_filing_balanced current filing :
  (∀ c d, current !! c = Some d → balanced d) →
  ∀ c d, aggregate_filing current filing !! c = Some d → balanced d.
Proof.
  destruct filing as [company holdings]. unfold aggregate_filing. simpl.
  revert current. induction holdings as [|h holdings IH]; intros current Hall;
    [done|].
  simpl. apply IH. by apply add_holding_balanced.
Qed.

End AggregatorFacts.

(** X15. However many filings are aggregated, the books of every
    security balance: its share and value totals are the sums over its
    per-institution positions, and its holder list names every
    institution with a position exactly once. *)
Theorem aggregated_holdings_balance
    (filings : list (string * list Aggregator.parsed_holding))
    (c : string) (data : Analyzer.holding) :
  Aggregator.aggregate filings !! c = Some data →
  Analyzer.h_shares data
    = map_sum Analyzer.pos_shares (Analyzer.h_positions data)
  ∧ Analyzer.h_value data
    = map_sum Analyzer.pos_value (Analyzer.h_positions data)
  ∧ NoDup (Analyzer.h_holders data)
  ∧ (∀ inst, inst ∈ Analyzer.h_holders data
             ↔ is_Some (Analyzer.h_positions data !! inst))
  ∧ length (Analyzer.h_holders data) = size (Analyzer.h_positions data).
Proof.
  assert (∀ current,
            (∀ c d, current !! c = Some d → Aggregator.balanced d) →
            ∀ c d, foldl Aggregator.aggregate_filing current filings !! c = Some d →
                   Aggregator.balanced d) as Hfold.
  { induction filings as [|f fs IH]; intros current Hall; [done|].
    simpl. apply IH. by apply aggregate_filing_balanced. }
  intros Hd. apply (Hfold ∅) in Hd as (Hs & Hv & Hnd & Hmem).
  - split_and!; try done.
    rewrite <- size_dom, <- (size_list_to_set (C := gset string)) by done.
    f_equal. apply set_eq. intros inst.
    by rewrite elem_of_list_to_set, elem_of_dom.
  - intros c0 d0. by rewrite lookup_empty.
Qed.

(** Three rows of one security from two institutions. *)
Lemma aggregated_holdings_balance_witness :
  Aggregator.aggregate sample_filings !! "123456789" = Some sample_aggregated
  ∧ Analyzer.h_shares sample_aggregated
    = map_sum Analyzer.pos_shares (Analyzer.h_positions sample_aggregated)
  ∧ length (Analyzer.h_holders sample_aggregated)
    = size (Analyzer.h_positions sample_aggregated).
Proof.
  assert (Aggregator.aggregate sample_filings !! "123456789"
          = Some sample_aggregated) as H by (vm_compute; reflexivity).
  destruct (aggregated_holdings_balance _ _ _ H) as (Hs & _ & _ & _ & Hl).
  split; [exact H|]. split; [exact Hs|exact Hl].
Defined.


Section FilingPeriodFacts.
Import FilingPeriod.

Lemma digit_value_bound c : is_Some (ChainMapper.digit c) →
  ∃ v, ChainMapper.digit c = Some v ∧ 0 <= v <= 9.
Proof. intros [v Hv]. exists v. split; [done|]. by eapply digit_bound. Qed.

Lemma eight_digits_inv s g :
  eight_digits s = Some g →
  length g = 8%nat ∧ Forall (fun c => is_Some (ChainMapper.digit c)) g.
Proof.
  unfold eight_digits.
  destruct (list_ascii_of_string s) as [|d1 [|d2 [|d3 [|d4 [|d5 [|d6 [|d7 [|d8 ?]]]]]]]];
    try done.
  destruct (forallb _ _) eqn:Hall; [|done]. intros [= <-]. split; [done|].
  apply Forall_forall. intros c Hc. rewrite forallb_forall in Hall.
  apply list_elem_of_In, Hall in Hc. by apply bool_decide_eq_true in Hc.
Qed.

Lemma search_inv s g :
  search s = Some g →
  length g = 8%nat ∧ Forall (fun c => is_Some (ChainMapper.digit c)) g.
Proof.
  induction s as [|c s IH]; simpl.
  - done.
  - destruct (match_here (String c s)) eqn:Hm; [|exact IH]. intros [= <-].
    unfold match_here in Hm. destruct (strip_prefix _ _); [|done].
    by apply eight_digits_inv in Hm.
Qed.

(** The period read from eight digits. *)
Lemma period_of_group_spec g :
  length g = 8%nat → Forall (fun c => is_Some (ChainMapper.digit c)) g →
  ∃ year month,
    period_of_group g
    = Some (mkPeriod year
              (if month <=? 3 then 1 else if month <=? 6 then 2
               else if month <=? 9 then 3 else 4) month)
    ∧ 0 <= year <= 9999 ∧ 0 <= month <= 99.
Proof.
  intros Hlen Hall.
  destruct g as [|d1 [|d2 [|d3 [|d4 [|d5 [|d6 [|d7 [|d8 [|? ?]]]]]]]]]; try done.
  repeat (apply Forall_cons in Hall as [?%digit_value_bound Hall]).
  repeat match goal with H : ∃ _, _ |- _ => destruct H as (? & ? & ?) end.
  unfold period_of_group, ChainMapper.digits_value. simpl.
  repeat match goal with H : ChainMapper.digit _ = Some _ |- _ =>
    rewrite H; clear H; simpl end.
  eexists _, _. split; [reflexivity|]. lia.
Qed.

Lemma strip_prefix_app p s t r :
  strip_prefix p s = Some t → strip_prefix p (s +:+ r) = Some (t +:+ r).
Proof.
  revert s. induction p as [|a p IH]; intros s; simpl.
  - by intros [= ->].
  - destruct s as [|b s]; [done|]. simpl.
    destruct (Ascii.eqb a b); [apply IH|done].
Qed.

Lemma skip_spaces_app t r c u :
  skip_spaces t = String c u → skip_spaces (t +:+ r) = String c u +:+ r.
Proof.
  induction t as [|a t IH]; simpl; [done|].
  destruct (is_space a); [exact IH|]. by intros [= -> ->].
Qed.

Lemma eight_digits_app s r g :
  eight_digits s = Some g → eight_digits (s +:+ r) = Some g.
Proof.
  unfold eight_digits.
  destruct s as [|d1 [|d2 [|d3 [|d4 [|d5 [|d6 [|d7 [|d8 s]]]]]]]]; try done.
Qed.

Lemma extract_filing_period_app s r p :
  match_here s ≫= period_of_group = Some p →
  extract_filing_period (s +:+ r) = Some p.
Proof.
  unfold extract_filing_period. intros Hm.
  destruct (match_here s) as [g|] eqn:Hg; [|done].
  assert (match_here (s +:+ r) = Some g) as Hg'.
  { unfold match_here in *.
    destruct (strip_prefix _ s) as [t|] eqn:Ht; [|done].
    rewrite (strip_prefix_app _ _ _ r Ht). simpl in *.
    destruct (skip_spaces t) as [|c u] eqn:Hu; [done|].
    rewrite (skip_spaces_app _ r _ _ Hu). by apply eight_digits_app. }
  destruct (s +:+ r) as [|c0 s0] eqn:Hs; [by vm_compute in Hg'|].
  simpl. by rewrite Hg'.
Qed.

End FilingPeriodFacts.

(** X16. Whatever period line [extract_filing_period] finds, the
    quarter it reports lies between 1 and 4 and follows the month by
    thresholds only: months 1 to 12 give quarter (month + 2) / 3, but
    the month is not checked, so 00 is reported as quarter 1 and 13 to
    99 as quarter 4. *)
Theorem extracted_quarter_follows_month
    (content : string) (p : FilingPeriod.period) :
  FilingPeriod.extract_filing_period content = Some p →
  1 <= FilingPeriod.period_quarter p <= 4
  ∧ 0 <= FilingPeriod.period_year p <= 9999
  ∧ 0 <= FilingPeriod.period_month p <= 99
  ∧ (1 <= FilingPeriod.period_month p <= 12 →
     FilingPeriod.period_quarter p = (FilingPeriod.period_month p + 2) / 3)
  ∧ (FilingPeriod.period_month p = 0 → FilingPeriod.period_quarter p = 1)
  ∧ (13 <= FilingPeriod.period_month p → FilingPeriod.period_quarter p = 4).
Proof.
  unfold FilingPeriod.extract_filing_period.
  destruct (FilingPeriod.search content) as [g|] eqn:Hg; [|done]. simpl.
  apply search_inv in Hg as [Hlen Hall].
  destruct (period_of_group_spec g Hlen Hall) as (year & month & -> & Hy & Hm).
  intros [= <-]. simpl.
  destruct (Z.leb_spec month 3), (Z.leb_spec month 6), (Z.leb_spec month 9);
    split_and!; try lia; intros; apply Z.div_unique with (r := (month + 2) mod 3);
    try (pose proof (Z.mod_pos_bound (month + 2) 3); lia);
    pose proof (Z.div_mod (month + 2) 3); pose proof (Z.mod_pos_bound (month + 2) 3);
    lia.
Qed.

(** A period line for September 2024 is read as the third quarter. *)
Lemma extracted_quarter_follows_month_witness :
  FilingPeriod.extract_filing_period sample_submission
  = Some (FilingPeriod.mkPeriod 2024 3 9)
  ∧ 1 <= FilingPeriod.period_quarter (FilingPeriod.mkPeriod 2024 3 9) <= 4.
Proof.
  assert (FilingPeriod.extract_filing_period sample_submission
          = Some (FilingPeriod.mkPeriod 2024 3 9)) as H
    by (vm_compute; reflexivity).
  split; [exact H|].
  exact (proj1 (extracted_quarter_follows_month _ _ H)).
Defined.



Lemma markers_are_read_back_true : markers_are_read_back = true.
Proof. vm_compute. reflexivity. Qed.

(** X17. The two readers of the period line agree: a submission that
    starts with the line [has_filings_for_quarter] looks for, for
    quarter [n] of a four-digit [year], is read by
    [extract_filing_period] as that year, quarter [n] and month [3 n],
    whatever follows the line. *)
Theorem marker_line_is_read_back (year n : Z) (rest : string) :
  1000 <= year <= 9999 → 1 <= n <= 4 →
  FilingPeriod.extract_filing_period
    (Analyzer.period_marker ("Q" +:+ pretty n) year +:+ rest)
  = Some (FilingPeriod.mkPeriod year n (3 * n)).
Proof.
  intros Hy Hn. apply extract_filing_period_app.
  pose proof markers_are_read_back_true as Hall.
  unfold markers_are_read_back in Hall. rewrite forallb_forall in Hall.
  assert (In year (seqZ 1000 9000)) as Hin.
  { apply list_elem_of_In, elem_of_seqZ. lia. }
  specialize (Hall year Hin). rewrite forallb_forall in Hall.
  assert (In n [1; 2; 3; 4]) as Hin'.
  { simpl. lia. }
  specialize (Hall n Hin'). unfold marker_is_read_back in Hall.
  by apply bool_decide_eq_true in Hall.
Qed.

Lemma marker_line_is_read_back_witness :
  FilingPeriod.extract_filing_period
    (Analyzer.period_marker ("Q" +:+ pretty 3) 2024 +:+ "
FILED AS OF DATE: 20241114")
  = Some (FilingPeriod.mkPeriod 2024 3 (3 * 3)).
Proof. apply (marker_line_is_read_back 2024 3); lia. Defined.
(** ** Enrichment and the chain it closes *)

Section EnricherFacts.
Import Enricher.

Lemma enrich_holdings_spec mapping holdings stats :
  (enrich_holdings mapping holdings stats).1
  = (fun entry => (enrich_holding mapping entry stats).1) <$> holdings
  ∧ cusip_lookups (enrich_holdings mapping holdings stats).2
    = cusip_lookups stats + Z.of_nat (length holdings)
  ∧ shares_found (enrich_holdings mapping holdings stats).2
      + shares_missing (enrich_holdings mapping holdings stats).2
    = shares_found stats + shares_missing stats + Z.of_nat (length holdings).
Proof.
  revert stats. induction holdings as [|[cusip data] rest IH]; intros stats; simpl.
  - split_and!; lia || done.
  - unfold get_shares_outstanding.
    destruct (mapping !! cusip) as [sd|] eqn:Hsd.
    + specialize (IH (mkStats (cusip_lookups stats + 1) (shares_found stats + 1)
                         (shares_missing stats))).
      destruct (enrich_holdings mapping rest _) as [rest' stats'].
      simpl in *. destruct IH as (-> & H1 & H2). split_and!; [|lia..].
      f_equal. apply list_fmap_ext. intros _ [c d] _. simpl.
      unfold get_shares_outstanding. by destruct (mapping !! c).
    + specialize (IH (mkStats (cusip_lookups stats + 1) (shares_found stats)
                         (shares_missing stats + 1))).
      destruct (enrich_holdings mapping rest _) as [rest' stats'].
      simpl in *. destruct IH as (-> & H1 & H2). split_and!; [|lia..].
      f_equal. apply list_fmap_ext. intros _ [c d] _. simpl.
      unfold get_shares_outstanding. by destruct (mapping !! c).
Qed.

Lemma enrich_holding_fields mapping cusip data stats :
  let '(c, d) := (enrich_holding mapping (cusip, data) stats).1 in
  c = cusip
  ∧ Analyzer.h_shares d = Analyzer.h_shares data
  ∧ Analyzer.h_value d = Analyzer.h_value data
  ∧ Analyzer.h_holders d = Analyzer.h_holders data
  ∧ Analyzer.h_positions d = Analyzer.h_positions data
  ∧ Analyzer.h_name d = Analyzer.h_name data
  ∧ match mapping !! cusip with
    | Some e =>
        Analyzer.h_shares_outstanding d = Some (ChainBuilder.me_shares_outstanding e)
        ∧ Analyzer.h_ticker d = Some (ChainBuilder.me_ticker e)
    | None => d = data
    end.
Proof.
  simpl. unfold get_shares_outstanding.
  destruct (mapping !! cusip); simpl; split_and!; done.
Qed.

End EnricherFacts.


(** X9. End to end: when the raw holdings carry no share count of
    their own, every security that the percentage stage accepts was
    enriched from the complete mapping, so its shares outstanding are
    that entry's, at least 100,000 and not a placeholder, and its
    ticker is the entry's. *)
Theorem accepted_securities_come_from_valid_chain
    (upper : string → string)
    (parse_date : string → option ChainMapper.date)
    (clock : string → ChainMapper.datetime)
    (ticker_to_cik : gmap string ChainBuilder.ticker_entry)
    (cik_to_shares : gmap string ChainBuilder.shares_entry)
    (cusip_to_ticker : gmap string string)
    (holdings : list (string * Analyzer.holding))
    (stats : Enricher.statistics) (s : Analyzer.security) :
  Forall (fun entry => Analyzer.h_shares_outstanding entry.2 = None) holdings →
  let mapping :=
    ChainBuilder.cusip_to_shares
      (ChainBuilder.build_complete_mapping upper parse_date clock
         ticker_to_cik cik_to_shares cusip_to_ticker) in
  s ∈ Analyzer.total_holdings_pct
        (Enricher.enrich_holdings mapping holdings stats).1 →
  ∃ e, mapping !! Analyzer.cusip s = Some e
       ∧ Analyzer.shares_outstanding s = ChainBuilder.me_shares_outstanding e
       ∧ Analyzer.ticker s = ChainBuilder.me_ticker e
       ∧ 100000 <= Analyzer.shares_outstanding s
       ∧ (Analyzer.shares_outstanding s ∉ ChainMapper.placeholder_values).
Proof.
  intros Hraw mapping Hs.
  apply elem_of_sort_desc, list_elem_of_omap in Hs as ([c d] & Hin & Hacc).
  destruct (enrich_holdings_spec mapping holdings stats) as (Heq & _).
  rewrite Heq in Hin. apply list_elem_of_fmap in Hin as ([c0 d0] & Hcd & Hin0).
  pose proof (enrich_holding_fields mapping c0 d0 stats) as Hf.
  rewrite <- Hcd in Hf. destruct Hf as (-> & _ & _ & _ & _ & _ & Hm).
  rewrite Forall_forall in Hraw. specialize (Hraw _ Hin0). simpl in Hraw.
  unfold Analyzer.accept_holding in Hacc.
  destruct (mapping !! c0) as [e|] eqn:He.
  - destruct Hm as [Hso Ht]. rewrite Hso in Hacc.
    destruct (negb _ && _); [|done].
    destruct (Analyzer.float_gt_int _ _); [done|].
    injection Hacc as <-. simpl. rewrite Ht. simpl.
    exists e. split; [done|].
    apply build_complete_mapping_entry_valid in He as (_ & ? & ? & _). done.
  - subst d. by rewrite Hraw in Hacc.
Qed.

(** The sample holding, enriched from the sample chain. *)
Lemma accepted_securities_come_from_valid_chain_witness :
  ∃ e,
    ChainBuilder.cusip_to_shares
      (ChainBuilder.build_complete_mapping (fun s => s) ChainMapper.fromisoformat
         sample_clock sample_ticker_to_cik sample_cik_to_shares
         sample_cusip_to_ticker) !! "123456789" = Some e
    ∧ ChainBuilder.me_shares_outstanding e = 2000000
    ∧ ChainBuilder.me_ticker e = "XYZ".
Proof.
  destruct (accepted_securities_come_from_valid_chain (fun s => s)
              ChainMapper.fromisoformat sample_clock sample_ticker_to_cik
              sample_cik_to_shares sample_cusip_to_ticker
              [("123456789", sample_raw_holding)]
              (Enricher.mkStats 0 0 0) sample_enriched_security)
    as (e & He & Hs & Ht & _).
  - by repeat constructor.
  - vm_compute. apply list_elem_of_here.
  - exists e. split; [exact He|]. split; [by rewrite <- Hs|by rewrite <- Ht].
Defined.



(** ** Quarters and filing deadlines *)

Section QuarterFacts.
Import ChainMapper Datetime.

Lemma new_datetime_ok y m d :
  1 <= y → 1 <= m <= 12 → 1 <= d <= days_in_month y m →
  new_datetime y m d = Ok (mkDatetime (mkDate y m d) 0).
Proof.
  intros Hy Hm Hd. unfold new_datetime, make_date.
  destruct (Z.leb_spec 1 y); [|lia].
  destruct (Z.leb_spec 1 m); [|lia].
  destruct (Z.leb_spec m 12); [|lia].
  destruct (Z.leb_spec 1 d); [|lia].
  destruct (Z.leb_spec d (days_in_month y m)); [|lia]. done.
Qed.

Lemma february_has_14_days y : 14 <= days_in_month y 2.
Proof. unfold days_in_month. simpl. destruct (is_leap y); lia. Qed.

End QuarterFacts.

Ltac decide_comparison :=
  match goal with
  | |- context [Z.ltb ?a ?b] => destruct (Z.ltb_spec a b); try lia
  | |- context [Z.eqb ?a ?b] => destruct (Z.eqb_spec a b); try lia
  | |- context [Z.leb ?a ?b] => destruct (Z.leb_spec a b); try lia
  end.

Section LatestQuarter.
Import ChainMapper Datetime.

Lemma get_latest_completed_quarter_spec (today : datetime) :
  3 <= year (dt_date today) → 0 <= dt_micro today →
  PathConfig.get_latest_completed_quarter today
  = Ok (if before_month_day today 2 14 then (year (dt_date today) - 2, 4)
        else if before_month_day today 5 15 then (year (dt_date today) - 1, 4)
        else if before_month_day today 8 14 then (year (dt_date today), 1)
        else if before_month_day today 11 14 then (year (dt_date today), 2)
        else (year (dt_date today), 3)).
Proof.
  destruct today as [[y m d] micro]. simpl. intros Hy Hmicro.
  pose proof (february_has_14_days y) as Hfeb.
  pose proof (february_has_14_days (y - 1)) as Hfeb'.
  unfold PathConfig.get_latest_completed_quarter. simpl.
  rewrite !new_datetime_ok by (try (vm_compute; intuition discriminate); lia).
  cbn [mbind result_bind]. unfold before_month_day. cbn [dt_date month day].
  match goal with |- _ = ?r => set (rhs := r) end.
  destruct (Z.leb_spec m 2) as [Hm|Hm];
    cbn [mbind result_bind app];
    unfold Analyzer.sort_desc, datetime_ltb, date_ltb, date_eqb;
    repeat (cbn [foldr Analyzer.insert_desc PathConfig.q_filing_deadline
                 dt_date dt_micro year month day orb andb negb];
            try decide_comparison).
  all: subst rhs;
    repeat (cbn [find PathConfig.q_filing_deadline PathConfig.q_year
                 PathConfig.q_quarter dt_date dt_micro year month day
                 orb andb negb];
            try decide_comparison);
    reflexivity.
Qed.

End LatestQuarter.

(** X24. [path_config.get_latest_completed_quarter] by the calendar:
    from 14 November the third quarter of the year, from 14 August
    the second, from 15 May the first, from 14 February the fourth
    quarter of the previous year.  Before 14 February it answers the
    fourth quarter of the year before last: the third quarter of the
    previous year, whose deadline passed in November, is not in its
    list.  The fallback after the loop is never taken. *)
Theorem latest_completed_quarter_by_deadline (today : ChainMapper.datetime) :
  3 <= ChainMapper.year (ChainMapper.dt_date today) →
  0 <= ChainMapper.dt_micro today →
  PathConfig.get_latest_completed_quarter today
  = Ok (if Datetime.before_month_day today 2 14
        then (ChainMapper.year (ChainMapper.dt_date today) - 2, 4)
        else if Datetime.before_month_day today 5 15
        then (ChainMapper.year (ChainMapper.dt_date today) - 1, 4)
        else if Datetime.before_month_day today 8 14
        then (ChainMapper.year (ChainMapper.dt_date today), 1)
        else if Datetime.before_month_day today 11 14
        then (ChainMapper.year (ChainMapper.dt_date today), 2)
        else (ChainMapper.year (ChainMapper.dt_date today), 3)).
Proof. apply get_latest_completed_quarter_spec. Qed.

(** On 15 January 2026 the answer is the fourth quarter of 2024. *)
Lemma latest_completed_quarter_by_deadline_witness :
  PathConfig.get_latest_completed_quarter
    (ChainMapper.mkDatetime (ChainMapper.mkDate 2026 1 15) 43200000000)
  = Ok (2024, 4).
Proof.
  apply (latest_completed_quarter_by_deadline
           (ChainMapper.mkDatetime (ChainMapper.mkDate 2026 1 15) 43200000000));
    simpl; lia.
Defined.

(** X25. The downloader's [get_latest_completed_quarter] is always
    the quarter before [get_current_quarter]; the deadline-aware
    version of [path_config] never runs ahead of it and lags it by
    nothing, by one quarter, or, before 14 February, by four. *)
Theorem deadline_aware_quarter_lags_calendar (today : ChainMapper.datetime) :
  3 <= ChainMapper.year (ChainMapper.dt_date today) →
  0 <= ChainMapper.dt_micro today →
  ∃ year quarter,
    PathConfig.get_latest_completed_quarter today = Ok (year, quarter)
    ∧ let calendar := DownloaderCalendar.get_latest_completed_quarter today in
      let current := PathConfig.get_current_quarter today in
      let lag := (calendar.1 * 4 + calendar.2) - (year * 4 + quarter) in
      calendar.1 * 4 + calendar.2 + 1 = current.1 * 4 + current.2
      ∧ (lag = 0 ∨ lag = 1 ∨ lag = 4)
      ∧ (lag = 4 ↔ Datetime.before_month_day today 2 14 = true).
Proof.
  intros Hy Hmicro.
  rewrite (get_latest_completed_quarter_spec today Hy Hmicro).
  destruct today as [[y m d] micro].
  unfold DownloaderCalendar.get_latest_completed_quarter,
    PathConfig.get_current_quarter, Datetime.before_month_day.
  cbn [ChainMapper.dt_date ChainMapper.month ChainMapper.day ChainMapper.year].
  match goal with
  | |- context [Ok ?r] => exists r.1, r.2; split; [by destruct r|]
  end.
  simpl in Hy, Hmicro.
  repeat (cbn [orb andb fst snd]; try decide_comparison);
    cbn [fst snd]; split_and!; try lia; try done; try (split; [lia|done]).
Qed.

Lemma deadline_aware_quarter_lags_calendar_witness :
  ∃ year quarter,
    PathConfig.get_latest_completed_quarter
      (ChainMapper.mkDatetime (ChainMapper.mkDate 2026 1 15) 0)
    = Ok (year, quarter)
    ∧ (2025 * 4 + 4) - (year * 4 + quarter) = 4.
Proof.
  destruct (deadline_aware_quarter_lags_calendar
              (ChainMapper.mkDatetime (ChainMapper.mkDate 2026 1 15) 0))
    as (year & quarter & Hrun & _ & _ & Hlag); [simpl; lia..|].
  exists year, quarter. split; [exact Hrun|].
  apply Hlag. reflexivity.
Defined.

Section QuarterDates.
Import ChainMapper Datetime.






End QuarterDates.


